(** * Query understanding and retrieval filtering of the event-catalogue RAG chain

    A shallow embedding of [rag_chain.py] (with the part of [vector_store.py]
    it calls): the regular-expression parsers, the ChromaDB predicate builder,
    the location post-filter, the chronological sort, the live registration
    status and the [chat] dispatcher, followed by the properties the design
    document states about them.

    Modelling conventions.
    - A Python [str] is a list of Unicode code points ([str := list N]);
      source literals are written as UTF-8 Rocq strings and decoded by [u].
    - Python integers are [Z]; [//] and [%] with a positive divisor are
      [Z.div] and [Z.modulo].
    - [datetime.now()] is an explicit clock: the k-th call made while a query
      is processed returns [clock k].  Only the calendar date of a reading is
      ever used by the source, so a reading is a [date].
    - The vector store, the similarity query engine and the language model
      are collaborators passed as functions; every call to one of them is
      recorded in a trace.  The progress messages the source prints are left
      out. *)

From Stdlib Require Import ZArith NArith List Bool Lia String Ascii.
From Stdlib Require Import DecimalString Permutation.
Import ListNotations.

Local Open Scope Z_scope.

(* ------------------------------------------------------------------ *)
(** ** Python strings *)

Definition char := N.
Definition str := list char.

(** UTF-8 decoding of a byte sequence into code points. *)
Fixpoint utf8_decode (bs : list N) : str :=
  match bs with
  | [] => []
  | b0 :: t =>
    if (b0 <? 128)%N then b0 :: utf8_decode t
    else if (b0 <? 224)%N then
      match t with
      | b1 :: t' => ((b0 - 192) * 64 + (b1 - 128))%N :: utf8_decode t'
      | _ => []
      end
    else if (b0 <? 240)%N then
      match t with
      | b1 :: b2 :: t' =>
        ((b0 - 224) * 4096 + (b1 - 128) * 64 + (b2 - 128))%N :: utf8_decode t'
      | _ => []
      end
    else
      match t with
      | b1 :: b2 :: b3 :: t' =>
        ((b0 - 240) * 262144 + (b1 - 128) * 4096 + (b2 - 128) * 64 + (b3 - 128))%N
          :: utf8_decode t'
      | _ => []
      end
  end.

Fixpoint bytes_of_string (s : string) : list N :=
  match s with
  | EmptyString => []
  | String a s' => N_of_ascii a :: bytes_of_string s'
  end.

(** [u "..."] is the Python string with the given (UTF-8 encoded) text. *)
Definition u (s : string) : str := utf8_decode (bytes_of_string s).

(** [str(n)] for a Python integer. *)
Definition str_of_int (n : Z) : str :=
  bytes_of_string (NilZero.string_of_int (Z.to_int n)).

(** [\d] on a [str] pattern, and the digits [int] reads: the characters of
    Unicode category Nd.  They come in runs of ten, zero first, so the table
    holds the zero of every run (Unicode 14.0, the table of CPython 3.11):
    ASCII, Arabic-Indic, ..., full width, ... *)
Definition digit_zeros : list N :=
  [48; 1632; 1776; 1984; 2406; 2534; 2662; 2790; 2918; 3046; 3174; 3302;
   3430; 3558; 3664; 3792; 3872; 4160; 4240; 6112; 6160; 6470; 6608; 6784;
   6800; 6992; 7088; 7232; 7248; 42528; 43216; 43264; 43472; 43504; 43600;
   44016; 65296; 66720; 68912; 69734; 69872; 69942; 70096; 70384; 70736;
   70864; 71248; 71360; 71472; 71904; 72016; 72784; 73040; 73120; 92768;
   92864; 93008; 120782; 120792; 120802; 120812; 120822; 123200; 123632;
   125264; 130032]%N.

(** The zero of the run of decimal digits a character belongs to. *)
Definition digit_zero (c : char) : option N :=
  find (fun z => (z <=? c) && (c <? z + 10))%N digit_zeros.

Definition is_digit (c : char) : bool :=
  match digit_zero c with Some _ => true | None => false end.

(** The value of a decimal digit, as [int] reads it. *)
Definition digit_val (c : char) : Z :=
  match digit_zero c with Some z => Z.of_N (c - z) | None => 0 end.

(** [int(s)] for a string of decimal digits. *)
Definition int_of_digits (s : str) : Z :=
  fold_left (fun acc c => acc * 10 + digit_val c) s 0.

Fixpoint startswith (p s : str) : bool :=
  match p, s with
  | [], _ => true
  | _ :: _, [] => false
  | a :: p', b :: s' => (a =? b)%N && startswith p' s'
  end.

(** [needle in haystack] for Python strings. *)
Fixpoint contains (needle haystack : str) : bool :=
  startswith needle haystack ||
  match haystack with
  | [] => false
  | _ :: h' => contains needle h'
  end.

(** [sep.join(parts)]. *)
Fixpoint join (sep : str) (parts : list str) : str :=
  match parts with
  | [] => []
  | [p] => p
  | p :: rest => p ++ sep ++ join sep rest
  end.

(** [f"{n:02d}"] and [f"{n:04d}"] for a non-negative integer. *)
Definition zfill (width : nat) (s : str) : str :=
  repeat 48%N (width - List.length s) ++ s.

Definition fmt_02d (n : Z) : str := zfill 2 (str_of_int n).
Definition fmt_04d (n : Z) : str := zfill 4 (str_of_int n).

(** [s[:k]] for a list and a Python integer bound. *)
Definition slice_to {A} (l : list A) (k : Z) : list A :=
  if 0 <=? k then firstn (Z.to_nat k) l
  else firstn (Z.to_nat (Z.of_nat (List.length l) + k)) l.

(* ------------------------------------------------------------------ *)
(** ** The fragment of Python's [re] the source patterns use

    A backtracking matcher with Python's priorities: alternatives are tried
    left to right, repetition is greedy, [re.search] returns the match at the
    leftmost position where one exists.  Repetition [*] occurs in the source
    only over a single-character class ([\s*], [.*]), which is the form
    [Star] has here. *)

Inductive regex : Type :=
| Eps
| Cls (p : char -> bool)
| Seq (a b : regex)
| Alt (a b : regex)
| Star (p : char -> bool)
| Grp (i : nat) (a : regex).

Definition caps := list (nat * str).

Fixpoint star_loop (p : char -> bool) (acc : str) (s : str)
         (k : str -> str -> option caps) : option caps :=
  match s with
  | c :: s' =>
    if p c then
      match star_loop p (acc ++ [c]) s' k with
      | Some r => Some r
      | None => k acc s
      end
    else k acc s
  | [] => k acc s
  end.

(** [rmatch r s cs k]: match [r] at the start of [s]; the continuation gets
    the matched text, the rest of the input and the groups captured so far. *)
Fixpoint rmatch (r : regex) (s : str) (cs : caps)
         (k : str -> str -> caps -> option caps) : option caps :=
  match r with
  | Eps => k [] s cs
  | Cls p =>
    match s with
    | c :: s' => if p c then k [c] s' cs else None
    | [] => None
    end
  | Seq a b =>
    rmatch a s cs (fun m1 s1 cs1 =>
      rmatch b s1 cs1 (fun m2 s2 cs2 => k (m1 ++ m2) s2 cs2))
  | Alt a b =>
    match rmatch a s cs k with
    | Some r => Some r
    | None => rmatch b s cs k
    end
  | Star p => star_loop p [] s (fun m s' => k m s' cs)
  | Grp i a => rmatch a s cs (fun m s' cs' => k m s' ((i, m) :: cs'))
  end.

Definition match_here (r : regex) (s : str) : option caps :=
  rmatch r s [] (fun _ _ cs => Some cs).

(** [re.search(r, s)]: the groups of the leftmost match, if any. *)
Fixpoint search (r : regex) (s : str) : option caps :=
  match match_here r s with
  | Some cs => Some cs
  | None =>
    match s with
    | [] => None
    | _ :: s' => search r s'
    end
  end.

Definition found (r : regex) (s : str) : bool :=
  match search r s with Some _ => true | None => false end.

(** [m.group(i)]. *)
Fixpoint group (i : nat) (cs : caps) : str :=
  match cs with
  | [] => []
  | (j, m) :: rest => if Nat.eqb i j then m else group i rest
  end.

(** Pattern combinators. *)
Definition chr (c : char) : regex := Cls (N.eqb c).

Fixpoint lit_chars (s : str) : regex :=
  match s with
  | [] => Eps
  | [c] => chr c
  | c :: s' => Seq (chr c) (lit_chars s')
  end.

Definition lit (s : string) : regex := lit_chars (u s).

Fixpoint alts (rs : list regex) : regex :=
  match rs with
  | [] => Cls (fun _ => false)
  | [r] => r
  | r :: rest => Alt r (alts rest)
  end.

Fixpoint seqs (rs : list regex) : regex :=
  match rs with
  | [] => Eps
  | [r] => r
  | r :: rest => Seq r (seqs rest)
  end.

Definition one_of (s : string) : char -> bool :=
  fun c => existsb (N.eqb c) (u s).

(** [\s] on a [str] pattern: the characters for which [str.isspace] holds. *)
Definition is_space (c : char) : bool :=
  (((9 <=? c) && (c <=? 13)) || ((28 <=? c) && (c <=? 32))
   || (c =? 133) || (c =? 160) || (c =? 5760)
   || ((8192 <=? c) && (c <=? 8202)) || (c =? 8232) || (c =? 8233)
   || (c =? 8239) || (c =? 8287) || (c =? 12288))%N.

(** [.] without [re.DOTALL]: anything but a line feed. *)
Definition is_dot (c : char) : bool := negb (c =? 10)%N.

Definition digit : regex := Cls is_digit.
Definition spaces : regex := Star is_space.
Definition any_star : regex := Star is_dot.
Definition opt (r : regex) : regex := Alt r Eps.
(** [\d{1,2}] and [\d{4}]. *)
Definition digit_1_2 : regex := Seq digit (opt digit).
Definition digit_4 : regex := seqs [digit; digit; digit; digit].


(* ------------------------------------------------------------------ *)
(** ** Temporal parser *)

(** [list(range(lo, hi))]. *)
Definition py_range (lo hi : Z) : list Z :=
  map (fun i => lo + Z.of_nat i) (seq 0 (Z.to_nat (hi - lo))).

(** [(\d{4})년] *)
Definition re_year : regex := Seq (Grp 1 digit_4) (lit "년").

(** [(\d{1,2})월\s*[~\-부터]\s*(\d{1,2})월] *)
Definition re_month_range : regex :=
  seqs [Grp 1 digit_1_2; lit "월"; spaces; Cls (one_of "~-부터"); spaces;
        Grp 2 digit_1_2; lit "월"].

(** [(\d{1,2})월] *)
Definition re_month : regex := Seq (Grp 1 digit_1_2) (lit "월").

Definition re_first_half : regex := alts [lit "상반기"; lit "1반기"; lit "전반기"].
Definition re_second_half : regex := alts [lit "하반기"; lit "2반기"; lit "후반기"].
Definition re_q1 : regex := alts [lit "1분기"; lit "1사분기"].
Definition re_q2 : regex := alts [lit "2분기"; lit "2사분기"].
Definition re_q3 : regex := alts [lit "3분기"; lit "3사분기"].
Definition re_q4 : regex := alts [lit "4분기"; lit "4사분기"].

Definition parse_date_from_query (query : str)
  : option Z * option Z * option (list Z) :=
  let year :=
    match search re_year query with
    | Some year_match => Some (int_of_digits (group 1 year_match))
    | None => None
    end in
  let month_range :=
    if found re_first_half query then Some [1; 2; 3; 4; 5; 6]
    else if found re_second_half query then Some [7; 8; 9; 10; 11; 12]
    else if found re_q1 query then Some [1; 2; 3]
    else if found re_q2 query then Some [4; 5; 6]
    else if found re_q3 query then Some [7; 8; 9]
    else if found re_q4 query then Some [10; 11; 12]
    else None in
  let month_range :=
    match search re_month_range query with
    | Some range_match =>
      let start_month := int_of_digits (group 1 range_match) in
      let end_month := int_of_digits (group 2 range_match) in
      if (1 <=? start_month) && (start_month <=? 12)
         && (1 <=? end_month) && (end_month <=? 12)
         && (start_month <=? end_month)
      then Some (py_range start_month (end_month + 1))
      else month_range
    | None => month_range
    end in
  let month :=
    match month_range with
    | None =>
      match search re_month query with
      | Some month_match => Some (int_of_digits (group 1 month_match))
      | None => None
      end
    | Some _ => None
    end in
  (year, month, month_range).

(* ------------------------------------------------------------------ *)
(** ** Categorical parsers *)

(** [str.lower()].  Every pattern matched against a lowered query consists of
    Hangul syllables and the ASCII letters of [school]; the only characters
    [str.lower] maps onto those are the ASCII capitals, so the lowering of the
    other characters is left out. *)
Definition lower_char (c : char) : char :=
  if ((65 <=? c) && (c <=? 90))%N then (c + 32)%N else c.
Definition lower (s : str) : str := map lower_char s.

(** First pattern of an ordered table that is found in the query. *)
Fixpoint first_match {A} (table : list (regex * A)) (query : str) : option A :=
  match table with
  | [] => None
  | (pattern, result) :: rest =>
    if found pattern query then Some result else first_match rest query
  end.

Definition parse_category_from_query (query : str) : option str :=
  let category_patterns :=
    [ (alts [lit "심포지엄"; lit "심포지움"], u "심포지엄");
      (alts [lit "워크숍"; lit "워크샵"], u "워크숍");
      (alts [lit "스쿨"; lit "school"], u "스쿨");
      (lit "학술대회", u "학술대회");
      (alts [lit "교육"; lit "연수"; lit "리더쉽"], u "교육");
      (lit "세미나", u "세미나") ] in
  let query_lower := lower query in
  first_match category_patterns query_lower.

(** A pattern character under [re.IGNORECASE]: an ASCII letter matches both
    of its cases, and [s]/[k] also match the long s (U+017F) and the Kelvin
    sign (U+212A) that fold to them. *)
Definition chr_i (c : char) : regex :=
  let l := lower_char c in
  if ((97 <=? l) && (l <=? 122))%N then
    Cls (fun x => (x =? l) || (x =? l - 32)
                  || ((l =? 115) && (x =? 383)) || ((l =? 107) && (x =? 8490)))%N
  else chr c.

Fixpoint lit_chars_i (s : str) : regex :=
  match s with
  | [] => Eps
  | [c] => chr_i c
  | c :: s' => Seq (chr_i c) (lit_chars_i s')
  end.

Definition lit_i (s : string) : regex := lit_chars_i (u s).

Definition parse_location_from_query (query : str) : option str :=
  let location_patterns :=
    [ (seqs [lit_i "양재"; spaces; lit_i "aT"; spaces; lit_i "센터"], u "양재 aT센터");
      (lit_i "서울대", u "서울대");
      (lit_i "코엑스", u "코엑스");
      (lit_i "벡스코", u "벡스코");
      (seqs [lit_i "SC"; spaces; lit_i "컨벤션"], u "SC 컨벤션센터");
      (lit_i "성모병원", u "성모병원");
      (lit_i "중앙대", u "중앙대") ] in
  first_match location_patterns query.

(** [True]: weekend only; [False]: weekdays only; [None]: no filter. *)
Definition parse_weekend_filter (query : str) : option bool :=
  if found (alts [lit "주말"; lit "토요일"; lit "일요일";
                  seqs [lit "토"; opt (lit ","); spaces; lit "일"];
                  lit "토·일"]) query
  then Some true
  else if found (alts [lit "평일"; lit "월요일"; lit "화요일"; lit "수요일";
                       lit "목요일"; lit "금요일"; lit "월~금"]) query
  then Some false
  else None.

(** The four values [parse_registration_filter] can return. *)
Inductive reg_filter : Type :=
| available | closing_soon | upcoming | exclude_closed.

Definition re_available : regex :=
  alts [seqs [lit "등록"; any_star; Grp 1 (alts [lit "가능"; lit "신청"; lit "접수"])];
        seqs [lit "지금"; any_star; Grp 2 (alts [lit "신청"; lit "등록"])];
        seqs [lit "당장"; any_star; Grp 3 (alts [lit "신청"; lit "등록"])]].

Definition re_closing_soon : regex :=
  alts [seqs [lit "등록"; any_star; Grp 1 (alts [lit "마감"; lit "임박"])];
        seqs [lit "마감"; any_star; Grp 2 (alts [lit "임박"; lit "급"; lit "곧"])];
        seqs [lit "일주일"; any_star; Grp 3 (alts [lit "안"; lit "내"]);
              any_star; lit "마감"]].

Definition re_upcoming : regex :=
  alts [seqs [lit "등록"; any_star;
              Grp 1 (alts [lit "전"; lit "대기";
                           seqs [lit "시작"; any_star; lit "전"]])];
        seqs [lit "아직"; any_star; lit "등록"; any_star;
              Grp 2 (alts [lit "안"; lit "전"])]].

Definition re_exclude_closed : regex :=
  alts [seqs [lit "등록"; any_star; Grp 1 (alts [lit "마감"; lit "끝"; lit "지난"]);
              any_star; Grp 2 (alts [lit "제외"; lit "빼"])];
        seqs [lit "마감"; any_star; lit "제외"]].

Definition parse_registration_filter (query : str) : option reg_filter :=
  if found re_available query then Some available
  else if found re_closing_soon query then Some closing_soon
  else if found re_upcoming query then Some upcoming
  else if found re_exclude_closed query then Some exclude_closed
  else None.

(** The two values [parse_duration_filter] can return. *)
Inductive duration_filter : Type := multi_day | single_day.

Definition parse_duration_filter (query : str) : option duration_filter :=
  if found (alts [lit "며칠"; seqs [lit "여러"; spaces; lit "날"]; lit "장기";
                  lit "이틀"; Seq (Cls (one_of "23")) (lit "일"); lit "연속";
                  seqs [lit "동안"; spaces; lit "진행"]]) query
  then Some multi_day
  else if found (alts [lit "하루"; lit "당일"; lit "단기";
                       seqs [lit "하루"; spaces; lit "만"]]) query
  then Some single_day
  else None.

Definition re_excluded (category : string) : regex :=
  seqs [lit category; any_star;
        Grp 1 (alts [lit "말고"; lit "제외"; lit "빼고"; lit "아니고"; lit "외"])].

Definition parse_exclusion_filter (query : str) : option str :=
  let patterns :=
    [ (re_excluded "심포지엄", u "심포지엄");
      (re_excluded "워크숍", u "워크숍");
      (re_excluded "스쿨", u "스쿨");
      (re_excluded "세미나", u "세미나");
      (re_excluded "교육", u "교육") ] in
  first_match patterns query.

Definition time_patterns : list regex :=
  [ seqs [lit "가장"; spaces; lit "빠른"];
    seqs [lit "가장"; spaces; lit "빨리"];
    seqs [lit "가장"; spaces; lit "가까운"];
    seqs [lit "오늘"; spaces; lit "이후"];
    seqs [lit "내일"; spaces; lit "이후"];
    seqs [lit "다음"; spaces; lit "행사"];
    seqs [lit "가까운"; spaces; lit "행사"];
    lit "다가오는";
    lit "예정된";
    seqs [lit "곧"; spaces; lit "있는"];
    lit "앞으로";
    seqs [lit "오늘"; spaces; lit "기준"];
    seqs [lit "이번"; spaces; lit "달"];
    seqs [lit "이번"; spaces; lit "주"] ].

Definition is_time_based_query (query : str) : bool :=
  existsb (fun pattern => found pattern query) time_patterns.


(* ------------------------------------------------------------------ *)
(** ** Calendar dates, as [datetime] provides them *)

Record date : Type := mkdate { dt_year : Z; dt_month : Z; dt_day : Z }.

Definition is_leap (y : Z) : bool :=
  (y mod 4 =? 0) && (negb (y mod 100 =? 0) || (y mod 400 =? 0)).

Definition days_in_month (y m : Z) : Z :=
  if m =? 2 then (if is_leap y then 29 else 28)
  else if (m =? 4) || (m =? 6) || (m =? 9) || (m =? 11) then 30
  else 31.

Definition valid_date (d : date) : Prop :=
  1 <= dt_year d <= 9999 /\ 1 <= dt_month d <= 12 /\
  1 <= dt_day d <= days_in_month (dt_year d) (dt_month d).

Definition next_day (d : date) : date :=
  if dt_day d <? days_in_month (dt_year d) (dt_month d)
  then mkdate (dt_year d) (dt_month d) (dt_day d + 1)
  else if dt_month d <? 12 then mkdate (dt_year d) (dt_month d + 1) 1
  else mkdate (dt_year d + 1) 1 1.

(** [d + timedelta(days=n)], the date [n] days later, for a result up to
    9999-12-31.  Past that day [datetime] raises [OverflowError]; what is
    proved of a date obtained by this addition is stated for dates before
    the year 9999. *)
Fixpoint add_days (n : nat) (d : date) : date :=
  match n with
  | O => d
  | S n' => add_days n' (next_day d)
  end.

(** [date.toordinal()]: days since 0001-01-01, that day being 1. *)
Definition days_before_year (y : Z) : Z :=
  let y' := y - 1 in y' * 365 + y' / 4 - y' / 100 + y' / 400.

Fixpoint days_before_month_aux (y : Z) (m : nat) : Z :=
  match m with
  | O => 0
  | S m' => days_before_month_aux y m' + days_in_month y (Z.of_nat m)
  end.

Definition days_before_month (y m : Z) : Z :=
  days_before_month_aux y (Z.to_nat (m - 1)).

Definition toordinal (d : date) : Z :=
  days_before_year (dt_year d) + days_before_month (dt_year d) (dt_month d)
  + dt_day d.

(** [d.strftime("%Y%m%d")] and [d.strftime("%Y-%m-%d")]. *)
Definition strftime_Ymd (d : date) : str :=
  fmt_04d (dt_year d) ++ fmt_02d (dt_month d) ++ fmt_02d (dt_day d).

Definition strftime_Y_m_d (d : date) : str :=
  fmt_04d (dt_year d) ++ u "-" ++ fmt_02d (dt_month d) ++ u "-"
  ++ fmt_02d (dt_day d).

(** [int(d.strftime("%Y%m%d"))]: the 8-digit date integer. *)
Definition date_int (d : date) : Z := int_of_digits (strftime_Ymd d).

(** The date an 8-digit date integer stands for. *)
Definition date_of_int (n : Z) : date :=
  mkdate (n / 10000) ((n / 100) mod 100) (n mod 100).

(* ------------------------------------------------------------------ *)
(** ** Event records

    The metadata dictionary of a node, with the keys [rag_chain.py] reads.
    A key the loader dropped (its value was [None]) is [None] here. *)

Record metadata : Type := mkmeta {
  md_location : option str;
  md_start_date_int : option Z;
  md_reg_start_int : option Z;
  md_reg_end_int : option Z;
  md_answer_template : option str;
  md_url : option str
}.

Record TextNode : Type := mknode {
  text : str;
  id_ : str;
  node_metadata : metadata
}.

(** [d.get(key, default)]. *)
Definition get {A} (o : option A) (default : A) : A :=
  match o with Some v => v | None => default end.

(** Truth value of an optional integer, string or list: [None], [0], [""]
    and [[]] are false. *)
Definition truthy_int (o : option Z) : bool :=
  match o with Some z => negb (z =? 0) | None => false end.

Definition truthy_list {A} (o : option (list A)) : bool :=
  match o with Some (_ :: _) => true | _ => false end.

Definition truthy_str (o : option str) : bool := truthy_list o.

Definition is_some {A} (o : option A) : bool :=
  match o with Some _ => true | None => false end.

(* ------------------------------------------------------------------ *)
(** ** ChromaDB where clauses *)

Inductive operator : Type := op_eq | op_ne | op_gt | op_gte | op_lte | op_in.

Inductive value : Type :=
| VInt (z : Z)
| VBool (b : bool)
| VStr (s : str)
| VList (l : list Z).

(** [{key: {op: value}}]. *)
Record condition : Type := Cond {
  c_key : string;
  c_op : operator;
  c_val : value
}.

(** What [build_chroma_filters] returns when it is not [None]: a single
    condition, or [{"$and": conditions}]. *)
Inductive where_clause : Type :=
| Single (c : condition)
| And (cs : list condition).

(* ------------------------------------------------------------------ *)
(** ** Post-filter and ranker *)

Definition filter_nodes_by_location (nodes : list TextNode) (location : str)
  : list TextNode :=
  match location with
  | [] => nodes
  | _ =>
    filter (fun node =>
              let metadata := node_metadata node in
              let node_location := get (md_location metadata) [] in
              contains location node_location) nodes
  end.

Definition get_date_int (node : TextNode) : Z :=
  let metadata := node_metadata node in
  get (md_start_date_int metadata) 99999999.

(** [sorted(l, key=key, reverse=reverse)] is a stable sort; stable insertion
    at the front is one. *)
Section Sorted.
Context {A : Type} (key : A -> Z) (reverse : bool).

Definition in_order (x y : A) : bool :=
  if reverse then key y <=? key x else key x <=? key y.

Fixpoint insert_sorted (x : A) (l : list A) : list A :=
  match l with
  | [] => [x]
  | y :: l' => if in_order x y then x :: l else y :: insert_sorted x l'
  end.

Fixpoint sorted (l : list A) : list A :=
  match l with
  | [] => []
  | x :: l' => insert_sorted x (sorted l')
  end.
End Sorted.

Definition sort_nodes_by_date (nodes : list TextNode) (ascending : bool)
  : list TextNode :=
  sorted get_date_int (negb ascending) nodes.

(* ------------------------------------------------------------------ *)
(** ** Live registration status *)

Definition status_not_open : str := u "등록상태: 등록 시작 전".
Definition status_open : str := u "등록상태: 등록 가능".
Definition status_open_days (days_left : Z) : str :=
  u "등록상태: 등록 가능 (마감 " ++ str_of_int days_left ++ u "일 전)".
Definition status_closed : str := u "등록상태: 등록 마감".

(** The body of [calculate_registration_status], after [today_int] has been
    read from the clock.  [days_left] is an [int] or the string ["며칠"]. *)
Definition registration_status_on (today_int : Z) (metadata : metadata) : str :=
  let reg_start := md_reg_start_int metadata in
  let reg_end := md_reg_end_int metadata in
  if negb (truthy_int reg_start) || negb (truthy_int reg_end) then []
  else
    let reg_start := get reg_start 0 in
    let reg_end := get reg_end 0 in
    if today_int <? reg_start then status_not_open
    else if today_int <=? reg_end then
      let days_left : Z + str := inl (reg_end mod 100 - today_int mod 100) in
      let days_left :=
        if negb (reg_end / 100 =? today_int / 100) then inr (u "며칠")
        else days_left in
      match days_left with
      | inl n => if n <=? 7 then status_open_days n else status_open
      | inr _ => status_open
      end
    else status_closed.


(* ------------------------------------------------------------------ *)
(** ** Prompts and collaborators

    The prompt templates are fixed text around a few interpolated values; a
    prompt is represented by the values interpolated into it. *)

(** [get_system_prompt()]: interpolates [today] and [today_date]. *)
Record system_prompt : Type := mksys { sp_today : str; sp_today_date : str }.

(** [get_qa_prompt()]: interpolates [today]. *)
Record qa_prompt : Type := mkqa { qa_today : str }.

(** The prompt [chat] builds on the exact-match path. *)
Record filtered_prompt : Type := mkprompt {
  p_system : system_prompt;
  p_filter_desc : str;
  p_total_count : Z;
  p_display_count : Z;
  p_context : str;
  p_message : str
}.

(** One record of a [collection.get] result: id, document, metadata (the
    three parallel lists ChromaDB returns, taken row by row). *)
Definition row : Type := str * str * metadata.

(** [TextNode(text=text, id_=doc_id, metadata=metadata)] for one record. *)
Definition node_of_row (r : row) : TextNode :=
  let '(doc_id, document, metadata) := r in
  mknode document doc_id metadata.

(** Calls made to the collaborators. *)
Inductive event : Type :=
| ev_collection_get (where_ : option where_clause)
| ev_similarity_query (similarity_top_k : Z) (qa : qa_prompt)
                      (sys : system_prompt) (message : str)
| ev_llm_complete (prompt : filtered_prompt).

(** State threaded through a query: how many times the clock has been read
    and which collaborator calls have been made. *)
Record world : Type := mkworld { reads : nat; trace : list event }.

Definition M (A : Type) : Type := world -> A * world.

Definition ret {A} (a : A) : M A := fun w => (a, w).

Definition bind {A B} (m : M A) (f : A -> M B) : M B :=
  fun w => let (a, w') := m w in f a w'.

Notation "x <- m ;; k" := (bind m (fun x => k))
  (at level 61, m at next level, right associativity).

Definition emit (e : event) : M unit :=
  fun w => (tt, mkworld (reads w) (trace w ++ [e])).

Definition world0 : world := mkworld 0 [].

Definition no_match_message : str := u "해당 조건에 맞는 문서를 찾을 수 없습니다.".

Section Pipeline.

(** [clock k] is what the k-th call of [datetime.now()] returns. *)
Variable clock : nat -> date.
(** [config.RETRIEVAL_K]. *)
Variable RETRIEVAL_K : Z.
(** [collection.get(where=..., include=["documents", "metadatas"])]. *)
Variable collection_get : option where_clause -> list row.
(** [index.as_query_engine(similarity_top_k, text_qa_template,
    system_prompt).query(message)], as a string. *)
Variable query_engine_query : Z -> qa_prompt -> system_prompt -> str -> str.
(** [llm.complete(prompt)], as a string. *)
Variable llm_complete : filtered_prompt -> str.

(** [datetime.now()]. *)
Definition now : M date :=
  fun w => (clock (reads w), mkworld (S (reads w)) (trace w)).

Definition get_today_korean : M str :=
  today <- now ;;
  ret (str_of_int (dt_year today) ++ u "년 " ++ str_of_int (dt_month today)
       ++ u "월 " ++ str_of_int (dt_day today) ++ u "일").

Definition get_system_prompt : M system_prompt :=
  today <- get_today_korean ;;
  today_date_dt <- now ;;
  let today_date := strftime_Y_m_d today_date_dt in
  ret (mksys today today_date).

Definition get_qa_prompt : M qa_prompt :=
  today <- get_today_korean ;;
  ret (mkqa today).

(** [int(f"{year}{month:02d}28")]. *)
Definition day28_int (year month : Z) : Z :=
  int_of_digits (str_of_int year ++ fmt_02d month ++ u "28").

(** [max(l)] for a non-empty list. *)
Definition py_max (l : list Z) : Z :=
  match l with
  | [] => 0
  | x :: l' => fold_left Z.max l' x
  end.

(** The list [conditions] after the time-relative block. *)
Definition time_conditions (query : str) (year month : option Z)
           (month_range : option (list Z)) : M (list condition) :=
  if is_time_based_query query then
    today <- now ;;
    let today_int := date_int today in
    let is_past_date :=
      if truthy_int year && truthy_int month then
        let query_date_int := day28_int (get year 0) (get month 0) in
        query_date_int <? today_int
      else if truthy_int year && truthy_list month_range then
        let last_month := py_max (get month_range []) in
        let query_date_int := day28_int (get year 0) last_month in
        query_date_int <? today_int
      else if truthy_int year then
        get year 0 <? dt_year today
      else false in
    if negb is_past_date
    then ret [Cond "start_date_int" op_gte (VInt today_int)]
    else ret []
  else ret [].

(** The conditions appended by the registration-status block. *)
Definition registration_conditions (query : str) : M (list condition) :=
  today <- now ;;
  let today_int := date_int today in
  let reg_status := parse_registration_filter query in
  match reg_status with
  | Some available =>
    ret [Cond "reg_start_int" op_lte (VInt today_int);
         Cond "reg_end_int" op_gte (VInt today_int)]
  | Some closing_soon =>
    later <- now ;;
    let week_later := date_int (add_days 7 later) in
    ret [Cond "reg_end_int" op_gte (VInt today_int);
         Cond "reg_end_int" op_lte (VInt week_later)]
  | Some upcoming =>
    ret [Cond "reg_start_int" op_gt (VInt today_int)]
  | Some exclude_closed =>
    ret [Cond "reg_end_int" op_gte (VInt today_int)]
  | None => ret []
  end.

(** The list [conditions] at the end of [build_chroma_filters]; each
    [conditions.append(c)] under a test extends the list by [[c]] or [[]]. *)
Definition build_conditions (query : str) : M (list condition) :=
  let '(year, month, month_range) := parse_date_from_query query in
  conditions <- time_conditions query year month month_range ;;
  let conditions :=
    conditions ++
    (if truthy_int year then [Cond "year" op_eq (VInt (get year 0))] else []) in
  let conditions :=
    conditions ++
    (if truthy_list month_range
     then [Cond "month" op_in (VList (get month_range []))]
     else if truthy_int month
     then [Cond "month" op_eq (VInt (get month 0))]
     else []) in
  let is_weekend := parse_weekend_filter query in
  let conditions :=
    conditions ++
    match is_weekend with
    | Some b => [Cond "is_weekend" op_eq (VBool b)]
    | None => []
    end in
  let category := parse_category_from_query query in
  let conditions :=
    conditions ++
    (if truthy_str category
     then [Cond "category" op_eq (VStr (get category []))]
     else []) in
  let exclusion := parse_exclusion_filter query in
  let conditions :=
    conditions ++
    (if truthy_str exclusion
     then [Cond "category" op_ne (VStr (get exclusion []))]
     else []) in
  reg <- registration_conditions query ;;
  let conditions := conditions ++ reg in
  let duration := parse_duration_filter query in
  let conditions :=
    conditions ++
    match duration with
    | Some multi_day => [Cond "duration_days" op_gt (VInt 1)]
    | Some single_day => [Cond "duration_days" op_eq (VInt 1)]
    | None => []
    end in
  ret conditions.

Definition build_chroma_filters (query : str) : M (option where_clause) :=
  conditions <- build_conditions query ;;
  match conditions with
  | [] => ret None
  | [c] => ret (Some (Single c))
  | _ => ret (Some (And conditions))
  end.

Definition calculate_registration_status (metadata : metadata) : M str :=
  today <- now ;;
  let today_int := date_int today in
  ret (registration_status_on today_int metadata).

(** The loop of [format_nodes_as_context], from index [i] on. *)
Fixpoint format_entries (i : Z) (nodes : list TextNode) : M (list str) :=
  match nodes with
  | [] => ret []
  | node :: rest =>
    let metadata := node_metadata node in
    let answer := get (md_answer_template metadata) [] in
    let url := get (md_url metadata) [] in
    reg_status <- calculate_registration_status metadata ;;
    let part :=
      match answer with
      | _ :: _ =>
        let entry := str_of_int i ++ u ". " ++ answer in
        let entry :=
          match reg_status with
          | _ :: _ => entry ++ [10%N] ++ u "   " ++ reg_status
          | [] => entry
          end in
        match url with
        | _ :: _ => entry ++ [10%N] ++ u "   URL: " ++ url
        | [] => entry
        end
      | [] => str_of_int i ++ u ". " ++ slice_to (text node) 300
      end in
    parts <- format_entries (i + 1) rest ;;
    ret (part :: parts)
  end.

Definition format_nodes_as_context (nodes : list TextNode)
           (max_nodes : option Z) : M str :=
  let nodes :=
    if truthy_int max_nodes then slice_to nodes (get max_nodes 0) else nodes in
  context_parts <- format_entries 1 nodes ;;
  ret (join [10%N; 10%N] context_parts).

Definition build_filter_description (query : str) : str :=
  let '(year, month, month_range) := parse_date_from_query query in
  let descriptions : list str := [] in
  let descriptions :=
    if truthy_int year
    then descriptions ++ [str_of_int (get year 0) ++ u "년"]
    else descriptions in
  let descriptions :=
    if truthy_int month
    then descriptions ++ [str_of_int (get month 0) ++ u "월"]
    else descriptions in
  let descriptions :=
    match month_range with
    | Some (x :: l' as l) =>
      descriptions ++ [str_of_int (fold_left Z.min l' x) ++ u "월~"
                       ++ str_of_int (py_max l) ++ u "월"]
    | _ => descriptions
    end in
  let descriptions :=
    match parse_weekend_filter query with
    | Some true => descriptions ++ [u "주말(토/일) 행사"]
    | Some false => descriptions ++ [u "평일 행사"]
    | None => descriptions
    end in
  let descriptions :=
    let category := parse_category_from_query query in
    if truthy_str category
    then descriptions ++ [u "카테고리: " ++ get category []]
    else descriptions in
  let descriptions :=
    let exclusion := parse_exclusion_filter query in
    if truthy_str exclusion
    then descriptions ++ [get exclusion [] ++ u " 제외"]
    else descriptions in
  let descriptions :=
    match parse_registration_filter query with
    | Some available => descriptions ++ [u "현재 등록 가능"]
    | Some closing_soon => descriptions ++ [u "등록 마감 임박"]
    | Some upcoming => descriptions ++ [u "등록 시작 전"]
    | _ => descriptions
    end in
  let descriptions :=
    match parse_duration_filter query with
    | Some multi_day => descriptions ++ [u "며칠간 진행 행사"]
    | Some single_day => descriptions ++ [u "당일 행사"]
    | None => descriptions
    end in
  let descriptions :=
    let location := parse_location_from_query query in
    if truthy_str location
    then descriptions ++ [u "장소: " ++ get location []]
    else descriptions in
  let descriptions :=
    if is_time_based_query query
    then descriptions ++ [u "오늘 이후 행사"]
    else descriptions in
  match descriptions with
  | [] => []
  | _ => u "[적용된 필터: " ++ join (u ", ") descriptions ++ u "]"
  end.

(** [vector_store.get_all_by_filter]. *)
Definition get_all_by_filter (filters : option where_clause)
  : M (list TextNode) :=
  _ <- emit (ev_collection_get filters) ;;
  let results := collection_get filters in
  ret (map node_of_row results).

(** [chat].  [setup_settings()] only installs the collaborators and is
    left out. *)
Definition chat (message : str) : M str :=
  chroma_filters <- build_chroma_filters message ;;
  let location := parse_location_from_query message in
  if is_some chroma_filters || truthy_str location then
    nodes <- (if is_some chroma_filters
              then get_all_by_filter chroma_filters
              else get_all_by_filter None) ;;
    let nodes :=
      if truthy_str location
      then filter_nodes_by_location nodes (get location [])
      else nodes in
    match nodes with
    | [] => ret no_match_message
    | _ :: _ =>
      let nodes :=
        if is_time_based_query message
        then sort_nodes_by_date nodes true
        else nodes in
      let max_docs := RETRIEVAL_K in
      let display_count := Z.min max_docs (Z.of_nat (List.length nodes)) in
      let total_count := Z.of_nat (List.length nodes) in
      context <- format_nodes_as_context nodes (Some max_docs) ;;
      let filter_desc := build_filter_description message in
      system_prompt <- get_system_prompt ;;
      let prompt :=
        mkprompt system_prompt filter_desc total_count display_count
                 context message in
      _ <- emit (ev_llm_complete prompt) ;;
      ret (llm_complete prompt)
    end
  else
    qa <- get_qa_prompt ;;
    sys <- get_system_prompt ;;
    _ <- emit (ev_similarity_query RETRIEVAL_K qa sys message) ;;
    ret (query_engine_query RETRIEVAL_K qa sys message).

End Pipeline.

(* ------------------------------------------------------------------ *)
(** ** The equality-only predicate for LlamaIndex *)

(** [MetadataFilter(key=..., value=..., operator=FilterOperator.EQ)]; the
    source builds no other operator. *)
Record MetadataFilter : Type := mkfilter {
  mf_key : string;
  mf_value : value
}.

(** [build_metadata_filters]: [MetadataFilters(filters=filters)] or [None]. *)
Definition build_metadata_filters (query : str) : option (list MetadataFilter) :=
  let filters : list MetadataFilter := [] in
  let '(year, month, month_range) := parse_date_from_query query in
  let filters :=
    filters ++
    (if truthy_int year then [mkfilter "year" (VInt (get year 0))] else []) in
  let filters :=
    filters ++
    (if truthy_int month then [mkfilter "month" (VInt (get month 0))] else []) in
  let category := parse_category_from_query query in
  let filters :=
    filters ++
    (if truthy_str category
     then [mkfilter "category" (VStr (get category []))]
     else []) in
  match filters with
  | [] => None
  | _ :: _ => Some filters
  end.

(* ------------------------------------------------------------------ *)
(** ** Date metadata of the loader ([document_loader.py]) *)

(** [(\d{4})-(\d{2})-(\d{2})], used with [re.match], which anchors the
    pattern at the start of the string. *)
Definition re_iso_date : regex :=
  seqs [Grp 1 digit_4; lit "-"; Grp 2 (Seq digit digit); lit "-";
        Grp 3 (Seq digit digit)].

Fixpoint str_eqb (a b : str) : bool :=
  match a, b with
  | [], [] => true
  | x :: a', y :: b' => (x =? y)%N && str_eqb a' b'
  | _, _ => false
  end.

(** A row of [csv.DictReader]: a dictionary from column names to cells. *)
Definition csv_row : Type := list (str * str).

(** [row.get(key, default)]. *)
Fixpoint row_get (row : csv_row) (key default : str) : str :=
  match row with
  | [] => default
  | (k, v) :: rest => if str_eqb k key then v else row_get rest key default
  end.

(** The dictionary [extract_registration_metadata] returns: each of its two
    keys is present or not. *)
Record registration_metadata : Type := mkreg {
  rm_reg_start_int : option Z;
  rm_reg_end_int : option Z
}.

Definition extract_registration_metadata (row : csv_row)
  : registration_metadata :=
  let reg_start := row_get row (u "등록 시작일") [] in
  let reg_end := row_get row (u "등록 마감일") [] in
  let result := mkreg None None in
  let result :=
    match reg_start with
    | _ :: _ =>
      match match_here re_iso_date reg_start with
      | Some m =>
        mkreg (Some (int_of_digits (group 1 m ++ group 2 m ++ group 3 m)))
              (rm_reg_end_int result)
      | None => result
      end
    | [] => result
    end in
  let result :=
    match reg_end with
    | _ :: _ =>
      match match_here re_iso_date reg_end with
      | Some m =>
        mkreg (rm_reg_start_int result)
              (Some (int_of_digits (group 1 m ++ group 2 m ++ group 3 m)))
      | None => result
      end
    | [] => result
    end in
  result.

(** A call either returns or raises [ValueError]. *)
Inductive outcome (A : Type) : Type :=
| Returns (a : A)
| ValueError.
Arguments Returns {A} a.
Arguments ValueError {A}.

(** [datetime(year, month, day)]: raises [ValueError] unless the three
    numbers are a date of the calendar. *)
Definition datetime_new (year month day : Z) : outcome date :=
  if (1 <=? year) && (year <=? 9999) && (1 <=? month) && (month <=? 12)
     && (1 <=? day) && (day <=? days_in_month year month)
  then Returns (mkdate year month day)
  else ValueError.

(** [d.weekday()]: 0 is Monday, 6 is Sunday. *)
Definition weekday (d : date) : Z := (toordinal d + 6) mod 7.

(** The dictionary [extract_date_metadata] returns when the string matches. *)
Record date_metadata : Type := mkdatemeta {
  dm_year : Z;
  dm_month : Z;
  dm_day : Z;
  dm_start_date : str;
  dm_start_date_int : Z;
  dm_day_of_week : Z;
  dm_is_weekend : bool
}.

(** [extract_date_metadata]: [None] stands for the empty dictionary. *)
Definition extract_date_metadata (date_str : str)
  : outcome (option date_metadata) :=
  match match_here re_iso_date date_str with
  | Some m =>
    let year := group 1 m in
    let month := group 2 m in
    let day := group 3 m in
    let date_int := int_of_digits (year ++ month ++ day) in
    match datetime_new (int_of_digits year) (int_of_digits month)
                       (int_of_digits day) with
    | ValueError => ValueError
    | Returns date_obj =>
      let day_of_week := weekday date_obj in
      Returns (Some (mkdatemeta (int_of_digits year) (int_of_digits month)
                                (int_of_digits day) date_str date_int
                                day_of_week (5 <=? day_of_week)))
    end
  | None => Returns None
  end.

(* ------------------------------------------------------------------ *)
(** * Vocabulary of the properties *)

(** ** Sorting *)

(** Adjacent elements are in order. *)
Fixpoint ordered {A : Type} (key : A -> Z) (reverse : bool) (l : list A)
  : Prop :=
  match l with
  | [] => True
  | x :: l' =>
    match l' with
    | [] => True
    | y :: _ => in_order key reverse x y = true /\ ordered key reverse l'
    end
  end.

(** ** Registration status *)

(** The four statuses a status line can stand for; the open status has a
    plain form and one annotated with the days left. *)
Inductive reg_class : Type := unknown | not_yet_open | open | closed.

Definition has_class (s : str) (c : reg_class) : Prop :=
  match c with
  | unknown => s = []
  | not_yet_open => s = status_not_open
  | open => s = status_open \/ exists n, s = status_open_days n
  | closed => s = status_closed
  end.

(** The character after the common prefix ["등록상태: 등록 "] tells the
    classes apart. *)
Definition class_mark (c : reg_class) : char :=
  match c with
  | unknown => 0%N
  | not_yet_open => 49884%N
  | open => 44032%N
  | closed => 47560%N
  end.

(** Calendar days from the date [a] to the date [b], both 8-digit date
    integers: the difference of their ordinals. *)
Definition calendar_days_between (a b : Z) : Z :=
  toordinal (date_of_int b) - toordinal (date_of_int a).

(** Both date integers lie in the same month of the same year. *)
Definition same_month (a b : Z) : bool := b / 100 =? a / 100.

(** The statement of C1 for a record whose window contains [today]: the
    countdown is shown exactly when the calendar difference is at most 7. *)
Definition closing_annotation_claim (today : Z) (md : metadata) : Prop :=
  forall rs re,
    md_reg_start_int md = Some rs -> md_reg_end_int md = Some re ->
    rs <= today <= re ->
    let n := calendar_days_between today re in
    registration_status_on today md
    = if n <=? 7 then status_open_days n else status_open.

(** The statement of C7 at one input: exactly one status, and the unknown
    status exactly when a registration date is absent. *)
Definition classification_claim (today : Z) (md : metadata) : Prop :=
  let s := registration_status_on today md in
  (exists c, has_class s c /\ forall c', has_class s c' -> c' = c)
  /\ (has_class s unknown <->
      md_reg_start_int md = None \/ md_reg_end_int md = None).

(** ** Predicates *)

(** The conditions of a where clause. *)
Definition conditions_of (w : option where_clause) : list condition :=
  match w with
  | None => []
  | Some (Single c) => [c]
  | Some (And cs) => cs
  end.

(** The conditions that depend on the query alone: year, month or month
    range, weekend, category, exclusion. *)
Definition static_conditions (query : str) : list condition :=
  let '(year, month, month_range) := parse_date_from_query query in
  (if truthy_int year then [Cond "year" op_eq (VInt (get year 0))] else [])
  ++ (if truthy_list month_range
      then [Cond "month" op_in (VList (get month_range []))]
      else if truthy_int month
      then [Cond "month" op_eq (VInt (get month 0))]
      else [])
  ++ match parse_weekend_filter query with
     | Some b => [Cond "is_weekend" op_eq (VBool b)]
     | None => []
     end
  ++ (if truthy_str (parse_category_from_query query)
      then [Cond "category" op_eq (VStr (get (parse_category_from_query query) []))]
      else [])
  ++ (if truthy_str (parse_exclusion_filter query)
      then [Cond "category" op_ne (VStr (get (parse_exclusion_filter query) []))]
      else []).

(** The conditions of the duration block. *)
Definition duration_conditions (query : str) : list condition :=
  match parse_duration_filter query with
  | Some multi_day => [Cond "duration_days" op_gt (VInt 1)]
  | Some single_day => [Cond "duration_days" op_eq (VInt 1)]
  | None => []
  end.

(** The condition [start_date_int >= today_int]. *)
Definition lower_bound (today : date) : condition :=
  Cond "start_date_int" op_gte (VInt (date_int today)).

Definition is_registration_key (c : condition) : bool :=
  String.eqb (c_key c) "reg_start_int" || String.eqb (c_key c) "reg_end_int".

Definition is_month_key (c : condition) : bool := String.eqb (c_key c) "month".

(** The registration conditions C3 lists for an intent, [T] being the lower
    and [W] the closing-soon upper date integer. *)
Definition claimed_registration_conditions (reg_status : option reg_filter)
           (T W : Z) : list condition :=
  match reg_status with
  | Some available =>
    [Cond "reg_start_int" op_lte (VInt T); Cond "reg_end_int" op_gte (VInt T)]
  | Some closing_soon =>
    [Cond "reg_end_int" op_gte (VInt T); Cond "reg_end_int" op_lte (VInt W)]
  | Some upcoming => [Cond "reg_start_int" op_gt (VInt T)]
  | Some exclude_closed => [Cond "reg_end_int" op_gte (VInt T)]
  | None => []
  end.

(** The statement of C3 for one query: there is one date, today, such that
    the conditions on the registration dates are those listed with [T]
    today's date integer and [W] that of today plus seven days. *)
Definition registration_claim (clock : nat -> date) (query : str) : Prop :=
  exists today : date,
    valid_date today
    /\ filter is_registration_key
              (conditions_of (fst (build_chroma_filters clock query world0)))
       = claimed_registration_conditions (parse_registration_filter query)
           (date_int today) (date_int (add_days 7 today)).

(** The past period of C2: a year together with a month, or with a month
    range taken at its last month, whose day 28 is before today. *)
Definition past_period_claimed (query : str) (today : date) : Prop :=
  let '(year, month, month_range) := parse_date_from_query query in
  (exists y m, year = Some y /\ month = Some m /\
               day28_int y m < date_int today)
  \/ (exists y l, year = Some y /\ month_range = Some l /\
                  day28_int y (last l 0) < date_int today).

(** The statement of C2 for a query processed with a given clock. *)
Definition lower_bound_claim (clock : nat -> date) (query : str) : Prop :=
  is_time_based_query query = true ->
  (In (lower_bound (clock O))
      (conditions_of (fst (build_chroma_filters clock query world0)))
   <-> ~ past_period_claimed query (clock O)).

(** ** Month tokens *)

(** What [(\d{1,2})월] matches at the start of a string, read off its first
    three characters. *)
Definition month_here (s : str) : option caps :=
  match s with
  | d1 :: s1 =>
    if is_digit d1 then
      match s1 with
      | d2 :: s2 =>
        if is_digit d2 then
          match s2 with
          | w :: _ => if (50900 =? w)%N then Some [(1%nat, [d1; d2])] else None
          | [] => None
          end
        else if (50900 =? d2)%N then Some [(1%nat, [d1])] else None
      | [] => None
      end
    else None
  | [] => None
  end.

(** One or two decimal digits: the text [\d{1,2}] captures. *)
Definition digits12 (ds : str) : bool :=
  match ds with
  | [a] => is_digit a
  | [a; b] => is_digit a && is_digit b
  | _ => false
  end.

(** The last character is a decimal digit. *)
Fixpoint ends_with_digit (s : str) : bool :=
  match s with
  | [] => false
  | [c] => is_digit c
  | _ :: s' => ends_with_digit s'
  end.

(** A half-year or quarter keyword occurs in the query. *)
Definition has_period_keyword (query : str) : bool :=
  found re_first_half query || found re_second_half query
  || found re_q1 query || found re_q2 query
  || found re_q3 query || found re_q4 query.

(** A query with the phrase "M월~N월" in it, [dm] and [dn] being the digits
    of M and N. *)
Definition range_phrase_query (pre dm dn post : str) : str :=
  pre ++ dm ++ u "월~" ++ dn ++ u "월" ++ post.

(** The statement of C10 for the query [pre ++ "M월~N월" ++ post]. *)
Definition fallback_claim (clock : nat -> date) (pre dm dn post : str) : Prop :=
  let query := range_phrase_query pre dm dn post in
  let M := int_of_digits dm in
  let N := int_of_digits dn in
  digits12 dm = true -> digits12 dn = true ->
  has_period_keyword query = false ->
  ~ (1 <= M /\ M <= N /\ N <= 12) ->
  snd (fst (parse_date_from_query query)) = Some M
  /\ In (Cond "month" op_eq (VInt M))
        (conditions_of (fst (build_chroma_filters clock query world0))).

(** ** Runs of [chat] *)

(** [f"{today.year}년 {today.month}월 {today.day}일"]. *)
Definition today_korean (today : date) : str :=
  str_of_int (dt_year today) ++ u "년 " ++ str_of_int (dt_month today)
  ++ u "월 " ++ str_of_int (dt_day today) ++ u "일".

(** The records that reach the ranker on the exact-match path: everything
    the store returned for the predicate, less the location mismatches. *)
Definition post_filtered (collection_get : option where_clause -> list row)
           (filters : option where_clause) (location : option str)
  : list TextNode :=
  let nodes := map node_of_row (collection_get filters) in
  if truthy_str location
  then filter_nodes_by_location nodes (get location [])
  else nodes.

(** A store holding one record: a symposium at Seoul National University on
    2025-03-15 whose registration runs from 2025-01-01 to 2025-01-31.  It
    answers the query without a predicate. *)
Definition one_record : row :=
  (u "csv_events_1", u "행사명: 호흡기 심포지엄",
   mkmeta (Some (u "서울대 어린이병원")) (Some 20250315)
          (Some 20250101) (Some 20250131)
          (Some (u "호흡기 심포지엄")) None).

Definition one_record_store (where_ : option where_clause) : list row :=
  match where_ with
  | None => [one_record]
  | Some _ => []
  end.

(** A clock on which midnight passes after the first reading. *)
Definition clock_over_midnight (k : nat) : date :=
  match k with
  | O => mkdate 2025 1 31
  | S _ => mkdate 2025 2 1
  end.

(** The statement of C8 for two clocks: when they agree on the first reading
    the query has the same output. *)
Definition single_reading_claim
           (RETRIEVAL_K : Z) (collection_get : option where_clause -> list row)
           (query_engine_query : Z -> qa_prompt -> system_prompt -> str -> str)
           (llm_complete : filtered_prompt -> str)
           (clock1 clock2 : nat -> date) (message : str) : Prop :=
  clock1 O = clock2 O ->
  fst (chat clock1 RETRIEVAL_K collection_get query_engine_query llm_complete
            message world0)
  = fst (chat clock2 RETRIEVAL_K collection_get query_engine_query
              llm_complete message world0).

(** ** Further vocabulary *)

(** [l1] is [l2] with some elements left out, the others in their order. *)
Inductive subsequence {A : Type} : list A -> list A -> Prop :=
| subseq_nil : subsequence [] []
| subseq_skip : forall x l1 l2, subsequence l1 l2 -> subsequence l1 (x :: l2)
| subseq_keep : forall x l1 l2,
    subsequence l1 l2 -> subsequence (x :: l1) (x :: l2).

(** The keys a predicate condition can have. *)
Definition predicate_keys : list string :=
  ["start_date_int"; "year"; "month"; "is_weekend"; "category";
   "reg_start_int"; "reg_end_int"; "duration_days"]%string.

(** The filters of a [MetadataFilters] value. *)
Definition filters_of (f : option (list MetadataFilter)) : list MetadataFilter :=
  match f with
  | None => []
  | Some l => l
  end.

(** What [(\d{4})년] matches at the start of a string, read off its first
    five characters. *)
Definition year_here (s : str) : option caps :=
  match s with
  | a :: b :: c :: d :: e :: _ =>
    if is_digit a && is_digit b && is_digit c && is_digit d && (45380 =? e)%N
    then Some [(1%nat, [a; b; c; d])]
    else None
  | _ => None
  end.

(** Four decimal digits: the text [\d{4}] captures. *)
Definition digits4 (ds : str) : bool :=
  match ds with
  | [a; b; c; d] => is_digit a && is_digit b && is_digit c && is_digit d
  | _ => false
  end.

(** All characters are white space. *)
Definition all_space (s : str) : bool := forallb is_space s.

(** A query with a range phrase "M월 ~ N월": [sep] is the separator, [ws1]
    and [ws2] the white space around it. *)
Definition spaced_range_query (pre dm ws1 : str) (sep : char)
           (ws2 dn post : str) : str :=
  pre ++ dm ++ 50900%N :: ws1 ++ sep :: ws2 ++ dn ++ 50900%N :: post.

(** [등록.*마감]: "등록" with "마감" somewhere after it on the same line. *)
Definition re_registration_deadline : regex :=
  seqs [lit "등록"; any_star; lit "마감"].

(** Two decimal digits: the text [\d{2}] captures. *)
Definition digits2 (ds : str) : bool :=
  match ds with
  | [a; b] => is_digit a && is_digit b
  | _ => false
  end.

(** The string begins with a text of the form YYYY-MM-DD that spells the
    numbers [y], [m] and [d]. *)
Definition iso_date_prefix (s : str) (y m d : Z) : Prop :=
  exists ys ms ds rest,
    digits4 ys = true /\ digits2 ms = true /\ digits2 ds = true
    /\ s = ys ++ 45%N :: ms ++ 45%N :: ds ++ rest
    /\ y = int_of_digits ys /\ m = int_of_digits ms /\ d = int_of_digits ds.

(** What [(\d{4})-(\d{2})-(\d{2})] matches at the start of a string. *)
Definition iso_here (s : str) : option caps :=
  match s with
  | a :: b :: c :: d :: h1 :: e :: f :: h2 :: g :: h :: _ =>
    if is_digit a && is_digit b && is_digit c && is_digit d && (45 =? h1)%N
       && is_digit e && is_digit f && (45 =? h2)%N && is_digit g && is_digit h
    then Some [(3%nat, [g; h]); (2%nat, [e; f]); (1%nat, [a; b; c; d])]
    else None
  | _ => None
  end.

(** The date [a] comes before the date [b], by year, then month, then day. *)
Definition date_before (a b : date) : Prop :=
  dt_year a < dt_year b
  \/ (dt_year a = dt_year b
      /\ (dt_month a < dt_month b
          \/ (dt_month a = dt_month b /\ dt_day a < dt_day b))).

(** [str.lower] leaves every character of the string as it is. *)
Definition lower_fixed (s : str) : bool :=
  forallb (fun c => (lower_char c =? c)%N) s.

(** The category words of the exclusion patterns. *)
Definition exclusion_words : list string :=
  ["심포지엄"; "워크숍"; "스쿨"; "세미나"; "교육"]%string.

(* ------------------------------------------------------------------ *)
(** * Properties *)

(** ** The sort is a stable sort *)

Section SortedFacts.
Context {A : Type} (key : A -> Z) (reverse : bool).

Lemma in_order_total x y :
  in_order key reverse x y = false -> in_order key reverse y x = true.
Proof.
  unfold in_order. destruct reverse; intros H.
  - apply Z.leb_gt in H. apply Z.leb_le. lia.
  - apply Z.leb_gt in H. apply Z.leb_le. lia.
Qed.

Lemma insert_sorted_ordered x l :
  ordered key reverse l -> ordered key reverse (insert_sorted key reverse x l).
Proof.
  induction l as [|y l IH]; intros Hl; simpl.
  - exact I.
  - destruct (in_order key reverse x y) eqn:E.
    + simpl. split; assumption.
    + destruct l as [|z l].
      * simpl. split; [now apply in_order_total | exact I].
      * destruct Hl as [Hyz Hl]. specialize (IH Hl).
        simpl in *. destruct (in_order key reverse x z) eqn:E'.
        -- split; [now apply in_order_total | assumption].
        -- split; assumption.
Qed.

Lemma sorted_ordered l : ordered key reverse (sorted key reverse l).
Proof.
  induction l as [|x l IH]; simpl.
  - exact I.
  - now apply insert_sorted_ordered.
Qed.

Lemma sorted_of_ordered l : ordered key reverse l -> sorted key reverse l = l.
Proof.
  induction l as [|x l IH]; intros Hl.
  - reflexivity.
  - simpl. destruct l as [|y l].
    + reflexivity.
    + destruct Hl as [Hxy Hl]. rewrite (IH Hl). simpl. now rewrite Hxy.
Qed.

Lemma sorted_idempotent l :
  sorted key reverse (sorted key reverse l) = sorted key reverse l.
Proof. apply sorted_of_ordered, sorted_ordered. Qed.

Lemma insert_sorted_In a x l :
  In a (insert_sorted key reverse x l) <-> a = x \/ In a l.
Proof.
  induction l as [|y l IH]; simpl.
  - intuition.
  - destruct (in_order key reverse x y); simpl; [|rewrite IH]; intuition.
Qed.

Lemma sorted_In a l : In a (sorted key reverse l) <-> In a l.
Proof.
  induction l as [|x l IH]; simpl.
  - tauto.
  - rewrite insert_sorted_In, IH. intuition.
Qed.

Lemma sorted_length l : List.length (sorted key reverse l) = List.length l.
Proof.
  assert (Hins : forall x m,
             List.length (insert_sorted key reverse x m) = S (List.length m)).
  { intros x m. induction m as [|y m IH]; simpl; [reflexivity|].
    destruct (in_order key reverse x y); simpl; [reflexivity | now rewrite IH]. }
  induction l as [|x l IH]; simpl; [reflexivity|]. now rewrite Hins, IH.
Qed.

(** Stability: the elements with a given key keep their input order. *)
Lemma insert_sorted_stable k x l :
  ordered key reverse l ->
  filter (fun a => key a =? k) (insert_sorted key reverse x l)
  = filter (fun a => key a =? k) (x :: l).
Proof.
  induction l as [|y l IH]; intros Hl.
  - reflexivity.
  - simpl insert_sorted. destruct (in_order key reverse x y) eqn:E.
    + reflexivity.
    + assert (Hl' : ordered key reverse l) by (destruct l; [exact I | apply Hl]).
      simpl. simpl in IH. rewrite (IH Hl').
      destruct (key x =? k) eqn:Ex; destruct (key y =? k) eqn:Ey;
        try reflexivity.
      exfalso. apply Z.eqb_eq in Ex, Ey. unfold in_order in E.
      destruct reverse; apply Z.leb_gt in E; lia.
Qed.

Lemma sorted_stable k l :
  filter (fun a => key a =? k) (sorted key reverse l)
  = filter (fun a => key a =? k) l.
Proof.
  induction l as [|x l IH].
  - reflexivity.
  - simpl sorted. rewrite insert_sorted_stable by apply sorted_ordered.
    simpl. now rewrite IH.
Qed.
End SortedFacts.

(** ** Post-filter and ranker *)

Lemma filter_all {A} (p : A -> bool) l :
  (forall x, In x l -> p x = true) -> filter p l = l.
Proof.
  induction l as [|x l IH]; intros H; simpl.
  - reflexivity.
  - rewrite (H x (or_introl eq_refl)). f_equal. apply IH.
    intros y Hy. apply H. now right.
Qed.

Lemma filter_nodes_by_location_idempotent nodes location :
  filter_nodes_by_location (filter_nodes_by_location nodes location) location
  = filter_nodes_by_location nodes location.
Proof.
  unfold filter_nodes_by_location. destruct location as [|c location].
  - reflexivity.
  - apply filter_all. intros x Hx. apply filter_In in Hx. apply Hx.
Qed.

Lemma sort_nodes_by_date_idempotent nodes ascending :
  sort_nodes_by_date (sort_nodes_by_date nodes ascending) ascending
  = sort_nodes_by_date nodes ascending.
Proof. apply sorted_idempotent. Qed.

(** C6.  Running the post-filter and ranker again on its own output changes
    nothing: the location filter followed by the ascending sort on
    [start_date_int] is idempotent, and so is each of the two steps alone.
    The ranked list is in ascending order of [start_date_int], a record
    without a date counting as 99999999. *)
Theorem post_filter_rank_idempotent :
  forall (nodes : list TextNode) (location : str),
    let ranked :=
      sort_nodes_by_date (filter_nodes_by_location nodes location) true in
    sort_nodes_by_date (filter_nodes_by_location ranked location) true = ranked
    /\ filter_nodes_by_location (filter_nodes_by_location nodes location) location
       = filter_nodes_by_location nodes location
    /\ sort_nodes_by_date (sort_nodes_by_date nodes true) true
       = sort_nodes_by_date nodes true
    /\ ordered (fun node => get (md_start_date_int (node_metadata node)) 99999999)
               false ranked.
Proof.
  intros nodes location ranked. split; [|split; [|split]]; [| | |apply sorted_ordered].
  - assert (H : filter_nodes_by_location ranked location = ranked).
    { unfold filter_nodes_by_location at 1. destruct location as [|c location].
      - reflexivity.
      - apply filter_all. intros x Hx. unfold ranked, sort_nodes_by_date in Hx.
        apply sorted_In in Hx. unfold filter_nodes_by_location in Hx.
        apply filter_In in Hx. apply Hx. }
    rewrite H. apply sort_nodes_by_date_idempotent.
  - apply filter_nodes_by_location_idempotent.
  - apply sort_nodes_by_date_idempotent.
Qed.

(** ** Live registration status *)

Lemma status_open_days_prefix n :
  exists rest, status_open_days n = status_open ++ 32%N :: rest.
Proof.
  unfold status_open_days, status_open.
  eexists. 
  match goal with |- ?a ++ ?b = _ => set (x := a); vm_compute in x; subst x end.
  match goal with |- _ = ?a ++ _ => set (x := a); vm_compute in x; subst x end.
  cbn [app]. reflexivity.
Qed.

Lemma has_class_mark s c : has_class s c -> nth 9 s 0%N = class_mark c.
Proof.
  destruct c; simpl.
  - intros ->. reflexivity.
  - intros ->. reflexivity.
  - intros [-> | [n ->]].
    + reflexivity.
    + destruct (status_open_days_prefix n) as [rest ->]. reflexivity.
  - intros ->. reflexivity.
Qed.

Lemma has_class_unique s c1 c2 : has_class s c1 -> has_class s c2 -> c1 = c2.
Proof.
  intros H1 H2. apply has_class_mark in H1, H2. rewrite H1 in H2.
  destruct c1, c2; try reflexivity; discriminate H2.
Qed.

(** What a record's registration dates make of it on day [today]. *)
Lemma registration_status_cases today md :
  let s := registration_status_on today md in
  let rs := md_reg_start_int md in
  let re := md_reg_end_int md in
  (has_class s unknown /\ (rs = None \/ rs = Some 0 \/ re = None \/ re = Some 0))
  \/ (exists a b, rs = Some a /\ re = Some b /\ a <> 0 /\ b <> 0 /\
        ((has_class s not_yet_open /\ today < a)
         \/ (has_class s open /\ a <= today <= b)
         \/ (has_class s closed /\ a <= today /\ b < today))).
Proof.
  unfold registration_status_on. cbv zeta.
  destruct (md_reg_start_int md) as [a|]; [|left; simpl; auto].
  destruct (md_reg_end_int md) as [b|];
    [|left; split; [simpl; now rewrite orb_true_r | auto]].
  simpl truthy_int. simpl get.
  destruct (Z.eqb_spec a 0) as [->|Ha]; [left; simpl; auto|].
  destruct (Z.eqb_spec b 0) as [->|Hb]; [left; simpl; auto|].
  simpl. right. exists a, b. repeat split; auto.
  destruct (Z.ltb_spec today a); [left; split; [reflexivity | lia]|].
  destruct (Z.leb_spec today b).
  - right; left. split; [|lia].
    destruct (negb (b / 100 =? today / 100)); [now left|].
    destruct (b mod 100 - today mod 100 <=? 7); [right; eauto | now left].
  - right; right. split; [reflexivity | lia].
Qed.

(** C7, counterexample.  A registration date that is present with the value 0
    (the loader produces it from [0000-00-00]) gives the unknown status. *)
Lemma classification_claim_fails_on_zero :
  ~ classification_claim 20250115
      (mkmeta None None (Some 0) (Some 20250131) None None).
Proof.
  intros [_ [H _]]. simpl in H. destruct (H eq_refl); discriminate.
Qed.

(** C7, as amended.  For all integer inputs the status line falls in exactly
    one of the four classes: unknown exactly when a registration date is
    absent or 0, not yet open exactly when [today < reg_start], open exactly
    when [reg_start <= today <= reg_end], closed exactly when
    [reg_start <= today] and [reg_end < today]. *)
Theorem registration_status_partition :
  forall (today : Z) (md : metadata),
    let s := registration_status_on today md in
    let rs := md_reg_start_int md in
    let re := md_reg_end_int md in
    let dated a b := rs = Some a /\ re = Some b /\ a <> 0 /\ b <> 0 in
    (exists c, has_class s c /\ forall c', has_class s c' -> c' = c)
    /\ (has_class s unknown <->
        rs = None \/ rs = Some 0 \/ re = None \/ re = Some 0)
    /\ (has_class s not_yet_open <-> exists a b, dated a b /\ today < a)
    /\ (has_class s open <-> exists a b, dated a b /\ a <= today <= b)
    /\ (has_class s closed <->
        exists a b, dated a b /\ a <= today /\ b < today).
Proof.
  intros today md s rs re dated.
  pose proof (registration_status_cases today md) as H.
  fold s rs re in H. clearbody s rs re.
  assert (U : forall c c', has_class s c -> has_class s c' -> c' = c)
    by (intros; eapply has_class_unique; eauto).
  assert (D : forall a b a' b', dated a b -> dated a' b' -> a = a' /\ b = b').
  { unfold dated. intros a b a' b' (E1 & E2 & _) (E3 & E4 & _).
    split; congruence. }
  assert (Z0 : forall a b, dated a b ->
               ~ (rs = None \/ rs = Some 0 \/ re = None \/ re = Some 0)).
  { unfold dated. intros a b (E1 & E2 & N1 & N2) [Hz | [Hz | [Hz | Hz]]];
      congruence. }
  assert (K : exists c, has_class s c /\
     (c = unknown <-> rs = None \/ rs = Some 0 \/ re = None \/ re = Some 0) /\
     (c = not_yet_open <-> exists a b, dated a b /\ today < a) /\
     (c = open <-> exists a b, dated a b /\ a <= today <= b) /\
     (c = closed <-> exists a b, dated a b /\ a <= today /\ b < today)).
  { destruct H as [[Hc Hz] | (a & b & Ea & Eb & Ha & Hb & H)].
    - exists unknown. split; [exact Hc|].
      split; [tauto|].
      split; [|split]; (split; [intros E0; discriminate E0|]);
        intros (a & b & Hd & _); destruct (Z0 _ _ Hd Hz).
    - assert (Hd : dated a b) by (unfold dated; auto).
      pose proof (Z0 _ _ Hd) as Hnz.
      destruct H as [[Hc Ht] | [[Hc Ht] | [Hc Ht]]];
        [exists not_yet_open | exists open | exists closed];
        (split; [exact Hc|]);
        (split; [split; [intros E0; discriminate E0 | tauto]|]);
        (split; [|split]); split;
        first [ intros E0; discriminate E0
              | intros _; reflexivity
              | intros _; exists a, b; split; [exact Hd | lia]
              | intros (a' & b' & Hd' & Hlt); exfalso;
                destruct (D _ _ _ _ Hd Hd'); subst a' b'; lia ]. }
  destruct K as (c & Hc & K1 & K2 & K3 & K4).
  assert (E : forall c', has_class s c' <-> c = c').
  { intros c'. split; [intros Hc'; symmetry; now apply (U c c') | now intros <-]. }
  split; [exists c; split; [exact Hc | intros c' Hc'; now apply (U c c')]|].
  rewrite !E. tauto.
Qed.

(** ** The countdown in the open status *)

Lemma date_of_int_same_month a b :
  b / 100 = a / 100 ->
  dt_year (date_of_int b) = dt_year (date_of_int a) /\
  dt_month (date_of_int b) = dt_month (date_of_int a).
Proof.
  intros H. unfold date_of_int. simpl.
  replace 10000 with (100 * 100) by reflexivity.
  rewrite <- !Z.div_div by lia. rewrite H. split; reflexivity.
Qed.

(** Within one month the day-of-month difference is the calendar
    difference. *)
Lemma calendar_days_same_month a b :
  same_month a b = true ->
  calendar_days_between a b = b mod 100 - a mod 100.
Proof.
  unfold same_month. intros H. apply Z.eqb_eq in H.
  destruct (date_of_int_same_month a b H) as [Hy Hm].
  unfold calendar_days_between, toordinal. rewrite Hy, Hm.
  unfold date_of_int. simpl. lia.
Qed.

(** Across a month end the line is the plain "open" one, whatever the
    number of days to the deadline. *)
Lemma open_across_months today md rs re :
  md_reg_start_int md = Some rs -> md_reg_end_int md = Some re ->
  rs <> 0 -> re <> 0 -> rs <= today <= re -> same_month today re = false ->
  registration_status_on today md = status_open.
Proof.
  intros Hs He Hrs Hre [H1 H2] Hm. unfold registration_status_on. cbv zeta.
  rewrite Hs, He. simpl truthy_int. simpl get.
  destruct (Z.eqb_spec rs 0) as [|_]; [contradiction|].
  destruct (Z.eqb_spec re 0) as [|_]; [contradiction|].
  change (negb (negb false) || negb (negb false)) with false. cbv iota.
  destruct (Z.ltb_spec today rs); [lia|].
  destruct (Z.leb_spec today re); [|lia].
  unfold same_month in Hm. rewrite Hm. reflexivity.
Qed.

(** C1.  On 2025-01-30 a registration that closes on 2025-02-02, three
    calendar days later, is shown as open without the countdown "closing in
    3 days": the day count is taken from the days of the month alone and is
    dropped when the deadline lies in another month.  A deadline three days
    ahead in the same month, 2025-01-31 seen from 2025-01-28, is shown with
    its countdown. *)
Theorem countdown_missing_across_month_end :
  calendar_days_between 20250130 20250202 = 3
  /\ registration_status_on 20250130
       (mkmeta None None (Some 20250101) (Some 20250202) None None)
     = status_open
  /\ ~ closing_annotation_claim 20250130
         (mkmeta None None (Some 20250101) (Some 20250202) None None)
  /\ calendar_days_between 20250128 20250131 = 3
  /\ registration_status_on 20250128
       (mkmeta None None (Some 20250101) (Some 20250131) None None)
     = status_open_days 3.
Proof.
  split; [vm_compute; reflexivity|].
  split; [apply (open_across_months _ _ 20250101 20250202);
          first [reflexivity | lia]|].
  split; [|split; vm_compute; reflexivity].
  intros H.
  specialize (H 20250101 20250202 eq_refl eq_refl ltac:(lia)).
  vm_compute in H. discriminate H.
Qed.

(* ------------------------------------------------------------------ *)
(** ** The predicate builder *)

Section BuilderFacts.
Variable clock : nat -> date.

Lemma build_chroma_filters_conditions query w :
  conditions_of (fst (build_chroma_filters clock query w))
  = fst (build_conditions clock query w)
  /\ snd (build_chroma_filters clock query w)
     = snd (build_conditions clock query w).
Proof.
  unfold build_chroma_filters, bind.
  destruct (build_conditions clock query w) as [[|c [|c' cs]] w'];
    split; reflexivity.
Qed.

(** The condition list is the time block, the static block, the
    registration block and the duration block, in this order; the clock is
    threaded from the time block to the registration block. *)
Lemma build_conditions_parts query w :
  let '(year, month, month_range) := parse_date_from_query query in
  let tc := time_conditions clock query year month month_range w in
  let rc := registration_conditions clock query (snd tc) in
  build_conditions clock query w
  = (fst tc ++ static_conditions query ++ fst rc ++ duration_conditions query,
     snd rc).
Proof.
  unfold build_conditions, static_conditions, duration_conditions, bind, ret.
  destruct (parse_date_from_query query) as [[year month] month_range].
  cbv zeta.
  destruct (time_conditions clock query year month month_range w) as [T w1].
  cbn [fst snd].
  destruct (registration_conditions clock query w1) as [R w2].
  cbn [fst snd]. rewrite <- !app_assoc. reflexivity.
Qed.

Lemma static_conditions_keys query c :
  In c (static_conditions query) ->
  c_key c = "year"%string \/ c_key c = "month"%string
  \/ c_key c = "is_weekend"%string \/ c_key c = "category"%string.
Proof.
  unfold static_conditions.
  destruct (parse_date_from_query query) as [[year month] month_range].
  rewrite !in_app_iff.
  destruct (truthy_int year), (truthy_list month_range), (truthy_int month),
    (parse_weekend_filter query), (truthy_str (parse_category_from_query query)),
    (truthy_str (parse_exclusion_filter query)); simpl;
    intuition (subst; simpl; auto).
Qed.

Lemma duration_conditions_keys query c :
  In c (duration_conditions query) -> c_key c = "duration_days"%string.
Proof.
  unfold duration_conditions.
  destruct (parse_duration_filter query) as [[|]|]; simpl;
    intuition (subst; reflexivity).
Qed.

(** What the registration block emits, and the two clock readings it is
    computed from. *)
Lemma registration_conditions_run query w :
  let T := date_int (clock (reads w)) in
  let W := date_int (add_days 7 (clock (S (reads w)))) in
  fst (registration_conditions clock query w)
  = match parse_registration_filter query with
    | Some available =>
      [Cond "reg_start_int" op_lte (VInt T); Cond "reg_end_int" op_gte (VInt T)]
    | Some closing_soon =>
      [Cond "reg_end_int" op_gte (VInt T); Cond "reg_end_int" op_lte (VInt W)]
    | Some upcoming => [Cond "reg_start_int" op_gt (VInt T)]
    | Some exclude_closed => [Cond "reg_end_int" op_gte (VInt T)]
    | None => []
    end.
Proof.
  unfold registration_conditions, bind, now, ret. cbn [reads].
  destruct (parse_registration_filter query) as [[| | |]|]; reflexivity.
Qed.

Lemma registration_conditions_keys query w c :
  In c (fst (registration_conditions clock query w)) ->
  c_key c = "reg_start_int"%string \/ c_key c = "reg_end_int"%string.
Proof.
  rewrite registration_conditions_run.
  destruct (parse_registration_filter query) as [[| | |]|]; simpl;
    intuition (subst; simpl; auto).
Qed.

(** What the time block emits for a time-relative query. *)
Lemma time_conditions_run query year month month_range w :
  is_time_based_query query = true ->
  let today := clock (reads w) in
  let today_int := date_int today in
  let is_past_date :=
    if truthy_int year && truthy_int month
    then day28_int (get year 0) (get month 0) <? today_int
    else if truthy_int year && truthy_list month_range
    then day28_int (get year 0) (py_max (get month_range [])) <? today_int
    else if truthy_int year then get year 0 <? dt_year today
    else false in
  fst (time_conditions clock query year month month_range w)
  = if is_past_date then []
    else [Cond "start_date_int" op_gte (VInt today_int)].
Proof.
  intros Ht. unfold time_conditions, bind, now, ret. rewrite Ht.
  cbn [reads]. cbv zeta.
  match goal with |- context [negb ?b] => destruct b end; reflexivity.
Qed.

Lemma time_conditions_keys query year month month_range w c :
  In c (fst (time_conditions clock query year month month_range w)) ->
  c_key c = "start_date_int"%string.
Proof.
  unfold time_conditions, bind, now, ret.
  destruct (is_time_based_query query); [|intros []].
  match goal with |- context [negb ?b] => destruct b end; simpl;
    intuition (subst; reflexivity).
Qed.
End BuilderFacts.

(** A month range and a single month are never returned together. *)
Lemma parse_date_month_exclusive query :
  let '(_, month, month_range) := parse_date_from_query query in
  month_range <> None -> month = None.
Proof.
  unfold parse_date_from_query. cbv beta iota zeta.
  match goal with |- ?mr <> None -> _ => destruct mr end.
  - reflexivity.
  - intros H. now elim H.
Qed.

(** ** The time-relative lower bound *)

(** C2, counterexample.  On 2025-06-15 the query "2020년 다가오는 행사" is
    time-relative and names a year without a month, yet the predicate is
    [year = 2020] alone: the lower bound is suppressed. *)
Lemma lower_bound_claim_fails_for_year_alone :
  ~ lower_bound_claim (fun _ => mkdate 2025 6 15) (u "2020년 다가오는 행사").
Proof.
  intros H.
  assert (Ht : is_time_based_query (u "2020년 다가오는 행사") = true)
    by (vm_compute; reflexivity).
  assert (P : parse_date_from_query (u "2020년 다가오는 행사")
              = (Some 2020, None, None)) by (vm_compute; reflexivity).
  assert (C : conditions_of
                (fst (build_chroma_filters (fun _ => mkdate 2025 6 15)
                        (u "2020년 다가오는 행사") world0))
              = [Cond "year" op_eq (VInt 2020)]) by (vm_compute; reflexivity).
  destruct (H Ht) as [_ H2]. rewrite C in H2.
  assert (N : ~ past_period_claimed (u "2020년 다가오는 행사") (mkdate 2025 6 15)).
  { unfold past_period_claimed. rewrite P.
    intros [(y & m & _ & E & _) | (y & l & _ & E & _)]; discriminate E. }
  destruct (H2 N) as [E | []]. discriminate E.
Qed.

(** C2, as amended.  For a time-relative query the predicate contains
    [start_date_int >= today_int], with today's date as read by the time
    block, except in three cases, in which no condition on [start_date_int]
    is added: the query names a (non-zero) year and a (non-zero) month whose
    day 28 is before today; it names a year and a month range whose largest
    month has its day 28 before today; it names a year alone, neither month
    nor range, and the year is before today's year. *)
Theorem time_lower_bound :
  forall (clock : nat -> date) (query : str) (w : world),
    is_time_based_query query = true ->
    let today := clock (reads w) in
    let conditions :=
      conditions_of (fst (build_chroma_filters clock query w)) in
    let '(year, month, month_range) := parse_date_from_query query in
    let past :=
      (truthy_int year = true /\ truthy_int month = true /\
       day28_int (get year 0) (get month 0) < date_int today)
      \/ (truthy_int year = true /\ truthy_list month_range = true /\
          day28_int (get year 0) (py_max (get month_range [])) < date_int today)
      \/ (truthy_int year = true /\ truthy_int month = false /\
          truthy_list month_range = false /\ get year 0 < dt_year today) in
    (In (lower_bound today) conditions <-> ~ past)
    /\ (forall c, In c conditions -> c_key c = "start_date_int"%string ->
                  c = lower_bound today /\ ~ past).
Proof.
  intros clock query w Ht today conditions.
  pose proof (parse_date_month_exclusive query) as Hex.
  pose proof (build_conditions_parts clock query w) as Hparts.
  destruct (parse_date_from_query query) as [[year month] month_range] eqn:P.
  cbv zeta in Hparts. intros past.
  assert (Hc : conditions
               = fst (time_conditions clock query year month month_range w)
                 ++ static_conditions query
                 ++ fst (registration_conditions clock query
                           (snd (time_conditions clock query year month
                                   month_range w)))
                 ++ duration_conditions query).
  { unfold conditions.
    rewrite (proj1 (build_chroma_filters_conditions clock query w)).
    now rewrite Hparts. }
  assert (Hkey : forall c, In c conditions ->
                 c_key c = "start_date_int"%string ->
                 In c (fst (time_conditions clock query year month
                              month_range w))).
  { intros c Hin Hk. rewrite Hc in Hin. rewrite !in_app_iff in Hin.
    destruct Hin as [Hin | [Hin | [Hin | Hin]]].
    - exact Hin.
    - apply static_conditions_keys in Hin. rewrite Hk in Hin.
      destruct Hin as [E | [E | [E | E]]]; discriminate E.
    - apply registration_conditions_keys in Hin. rewrite Hk in Hin.
      destruct Hin as [E | E]; discriminate E.
    - apply duration_conditions_keys in Hin. rewrite Hk in Hin.
      discriminate Hin. }
  pose proof (time_conditions_run clock query year month month_range w Ht)
    as Hrun. cbv zeta in Hrun. fold today in Hrun.
  assert (Hpast : past <->
            (if truthy_int year && truthy_int month
             then day28_int (get year 0) (get month 0) <? date_int today
             else if truthy_int year && truthy_list month_range
             then day28_int (get year 0) (py_max (get month_range []))
                  <? date_int today
             else if truthy_int year then get year 0 <? dt_year today
             else false) = true).
  { unfold past.
    assert (Hm : truthy_list month_range = true -> truthy_int month = false).
    { intros Hr. rewrite Hex; [reflexivity|].
      destruct month_range; [discriminate | discriminate Hr]. }
    destruct (truthy_int year), (truthy_int month),
      (truthy_list month_range); simpl;
      rewrite ?Z.ltb_lt;
      try (specialize (Hm eq_refl); discriminate Hm);
      intuition (try discriminate; try lia). }
  assert (Hlb : In (lower_bound today) conditions <-> ~ past).
  { rewrite Hpast. split.
    - intros Hin. apply Hkey in Hin; [|reflexivity].
      rewrite Hrun in Hin.
      match type of Hin with
      | In _ (if ?b then _ else _) => destruct b
      end; [destruct Hin | discriminate].
    - intros Hn. rewrite Hc, in_app_iff. left. rewrite Hrun.
      match goal with
      | |- In _ (if ?b then _ else _) => destruct b
      end; [now elim Hn | now left]. }
  split; [exact Hlb|].
  intros c Hin Hk. pose proof (Hkey c Hin Hk) as Hin'.
  rewrite Hrun in Hin'.
  match type of Hin' with
  | In _ (if ?b then _ else _) => destruct b eqn:Eb
  end; [destruct Hin'|].
  destruct Hin' as [<- | []]. split; [reflexivity|].
  rewrite Hpast. discriminate.
Qed.

Lemma time_lower_bound_witness :
  In (lower_bound (mkdate 2025 6 15))
     (conditions_of
        (fst (build_chroma_filters (fun _ => mkdate 2025 6 15)
                (u "다가오는 워크숍 알려줘") world0))).
Proof.
  pose proof (time_lower_bound (fun _ => mkdate 2025 6 15)
                (u "다가오는 워크숍 알려줘") world0) as H.
  assert (Ht : is_time_based_query (u "다가오는 워크숍 알려줘") = true)
    by (vm_compute; reflexivity).
  specialize (H Ht). cbv zeta in H.
  assert (P : parse_date_from_query (u "다가오는 워크숍 알려줘")
              = (None, None, None)) by (vm_compute; reflexivity).
  rewrite P in H. destruct H as [H _]. apply H.
  simpl. intros [(E & _) | [(E & _) | (E & _)]]; discriminate E.
Defined.

(** ** Registration-status conditions *)

Lemma filter_none {A} (p : A -> bool) l :
  (forall x, In x l -> p x = false) -> filter p l = [].
Proof.
  induction l as [|x l IH]; intros H; simpl.
  - reflexivity.
  - rewrite (H x (or_introl eq_refl)). apply IH. intros y Hy. apply H. now right.
Qed.

(** [add_days] is calendar addition: on a valid date it moves the ordinal
    by the number of days and stays within the calendar. *)
Lemma days_before_year_succ y :
  days_before_year (y + 1) = days_before_year y + (if is_leap y then 366 else 365).
Proof.
  unfold days_before_year, is_leap. cbv zeta.
  replace (y + 1 - 1) with y by lia.
  destruct (Z.eqb_spec (y mod 4) 0), (Z.eqb_spec (y mod 100) 0),
    (Z.eqb_spec (y mod 400) 0); simpl;
    Z.div_mod_to_equations; lia.
Qed.

Lemma days_before_month_succ y m :
  1 <= m ->
  days_before_month y (m + 1) = days_before_month y m + days_in_month y m.
Proof.
  intros H. unfold days_before_month.
  replace (Z.to_nat (m + 1 - 1)) with (S (Z.to_nat (m - 1))) by lia.
  cbn [days_before_month_aux].
  replace (Z.of_nat (S (Z.to_nat (m - 1)))) with m by lia. reflexivity.
Qed.

Lemma days_before_december y :
  days_before_month y 12 + 31 = if is_leap y then 366 else 365.
Proof.
  unfold days_before_month. simpl Z.to_nat.
  unfold days_before_month_aux, days_in_month. simpl.
  destruct (is_leap y); reflexivity.
Qed.

Lemma days_in_month_bounds y m : 28 <= days_in_month y m <= 31.
Proof.
  unfold days_in_month.
  destruct (m =? 2); [destruct (is_leap y); lia|].
  destruct ((m =? 4) || (m =? 6) || (m =? 9) || (m =? 11)); lia.
Qed.

Lemma next_day_ordinal d :
  1 <= dt_month d <= 12 ->
  1 <= dt_day d <= days_in_month (dt_year d) (dt_month d) ->
  toordinal (next_day d) = toordinal d + 1
  /\ 1 <= dt_month (next_day d) <= 12
  /\ 1 <= dt_day (next_day d)
          <= days_in_month (dt_year (next_day d)) (dt_month (next_day d)).
Proof.
  destruct d as [y m dd]. simpl. intros Hm Hd. unfold next_day, toordinal. simpl.
  destruct (Z.ltb_spec dd (days_in_month y m)).
  - simpl. lia.
  - destruct (Z.ltb_spec m 12); simpl.
    + rewrite days_before_month_succ by lia.
      pose proof (days_in_month_bounds y (m + 1)). lia.
    + assert (m = 12) by lia. subst m.
      rewrite days_before_year_succ.
      pose proof (days_before_december y) as H12.
      assert (E : days_in_month y 12 = 31) by reflexivity.
      assert (E1 : days_before_month (y + 1) 1 = 0) by reflexivity.
      assert (E2 : days_in_month (y + 1) 1 = 31) by reflexivity.
      rewrite E1, E2. lia.
Qed.

Lemma add_days_ordinal n d :
  1 <= dt_month d <= 12 ->
  1 <= dt_day d <= days_in_month (dt_year d) (dt_month d) ->
  toordinal (add_days n d) = toordinal d + Z.of_nat n.
Proof.
  revert d. induction n as [|n IH]; intros d Hm Hd.
  - simpl. lia.
  - destruct (next_day_ordinal d Hm Hd) as (Ho & Hm' & Hd').
    cbn [add_days]. rewrite (IH _ Hm' Hd'), Ho. lia.
Qed.

(** The conditions on the registration dates are those of the registration
    block. *)
Lemma registration_key_conditions clock query w :
  let '(year, month, month_range) := parse_date_from_query query in
  filter is_registration_key
         (conditions_of (fst (build_chroma_filters clock query w)))
  = fst (registration_conditions clock query
           (snd (time_conditions clock query year month month_range w))).
Proof.
  rewrite (proj1 (build_chroma_filters_conditions clock query w)).
  pose proof (build_conditions_parts clock query w) as Hparts.
  destruct (parse_date_from_query query) as [[year month] month_range].
  cbv zeta in Hparts. rewrite Hparts. cbn [fst].
  rewrite !filter_app.
  rewrite (filter_none _ (fst (time_conditions _ _ _ _ _ _))).
  2:{ intros c Hc. apply time_conditions_keys in Hc.
      unfold is_registration_key. now rewrite Hc. }
  rewrite (filter_none _ (static_conditions query)).
  2:{ intros c Hc. apply static_conditions_keys in Hc.
      unfold is_registration_key.
      destruct Hc as [E | [E | [E | E]]]; now rewrite E. }
  rewrite (filter_none _ (duration_conditions query)).
  2:{ intros c Hc. apply duration_conditions_keys in Hc.
      unfold is_registration_key. now rewrite Hc. }
  rewrite app_nil_r. cbn [app].
  apply filter_all. intros c Hc. apply registration_conditions_keys in Hc.
  unfold is_registration_key. destruct Hc as [E | E]; now rewrite E.
Qed.

(** The time block reads the clock once when the query is time-relative,
    and not at all otherwise. *)
Lemma time_conditions_reads clock query year month month_range w :
  reads (snd (time_conditions clock query year month month_range w))
  = (reads w + if is_time_based_query query then 1 else 0)%nat.
Proof.
  unfold time_conditions, bind, now, ret.
  destruct (is_time_based_query query); [|simpl; lia].
  cbv beta zeta.
  match goal with |- context [negb ?b] => destruct b end; simpl; lia.
Qed.

Lemma int_of_digits_app a b :
  int_of_digits (a ++ b)
  = int_of_digits a * 10 ^ Z.of_nat (List.length b) + int_of_digits b.
Proof.
  unfold int_of_digits. rewrite fold_left_app.
  set (f := fun (acc : Z) (c : char) => acc * 10 + digit_val c).
  assert (G : forall l acc,
             fold_left f l acc
             = acc * 10 ^ Z.of_nat (List.length l) + fold_left f l 0).
  { induction l as [|c l IH]; intros acc.
    - cbn [fold_left List.length]. change (10 ^ Z.of_nat 0) with 1. lia.
    - cbn [fold_left List.length]. rewrite (IH (f acc c)), (IH (f 0 c)).
      rewrite Nat2Z.inj_succ, Z.pow_succ_r by lia. unfold f. ring. }
  apply G.
Qed.

(** Zero-padded formatting, checked on every number of the range. *)
Lemma fmt_04d_value y :
  0 <= y <= 9999 ->
  List.length (fmt_04d y) = 4%nat /\ int_of_digits (fmt_04d y) = y.
Proof.
  intros Hy.
  assert (C : forallb (fun n => (List.length (fmt_04d (Z.of_nat n)) =? 4)%nat
                                && (int_of_digits (fmt_04d (Z.of_nat n))
                                    =? Z.of_nat n))
                      (seq 0 (Z.to_nat 10000)) = true) by (vm_compute; reflexivity).
  rewrite forallb_forall in C. specialize (C (Z.to_nat y)).
  rewrite Z2Nat.id in C by lia.
  assert (Hin : In (Z.to_nat y) (seq 0 (Z.to_nat 10000))) by (apply in_seq; lia).
  apply C in Hin. apply andb_prop in Hin. destruct Hin as [H1 H2].
  split; [now apply Nat.eqb_eq | now apply Z.eqb_eq].
Qed.

Lemma fmt_02d_value m :
  0 <= m <= 99 ->
  List.length (fmt_02d m) = 2%nat /\ int_of_digits (fmt_02d m) = m.
Proof.
  intros Hm.
  assert (C : forallb (fun n => (List.length (fmt_02d (Z.of_nat n)) =? 2)%nat
                                && (int_of_digits (fmt_02d (Z.of_nat n))
                                    =? Z.of_nat n))
                      (seq 0 (Z.to_nat 100)) = true) by (vm_compute; reflexivity).
  rewrite forallb_forall in C. specialize (C (Z.to_nat m)).
  rewrite Z2Nat.id in C by lia.
  assert (Hin : In (Z.to_nat m) (seq 0 (Z.to_nat 100))) by (apply in_seq; lia).
  apply C in Hin. apply andb_prop in Hin. destruct Hin as [H1 H2].
  split; [now apply Nat.eqb_eq | now apply Z.eqb_eq].
Qed.

Lemma date_int_value d :
  0 <= dt_year d <= 9999 -> 0 <= dt_month d <= 99 -> 0 <= dt_day d <= 99 ->
  date_int d = dt_year d * 10000 + dt_month d * 100 + dt_day d.
Proof.
  intros Hy Hm Hd. unfold date_int, strftime_Ymd.
  destruct (fmt_04d_value _ Hy) as [_ Vy].
  destruct (fmt_02d_value _ Hm) as [Lm Vm].
  destruct (fmt_02d_value _ Hd) as [Ld Vd].
  rewrite !int_of_digits_app, length_app, Lm, Ld, Vy, Vm, Vd.
  change (10 ^ Z.of_nat (2 + 2)) with 10000.
  change (10 ^ Z.of_nat 2) with 100. lia.
Qed.

(** C3, counterexample.  When midnight passes between the two readings of
    the clock the registration block makes for "closing soon", the lower
    bound is the date integer of 2025-01-31 and the upper bound that of
    2025-02-08, eight days later: no single "today" gives both. *)
Lemma registration_claim_fails_over_midnight :
  ~ registration_claim clock_over_midnight (u "등록 마감 임박한 행사").
Proof.
  intros (today & V & H).
  assert (C : filter is_registration_key
                (conditions_of
                   (fst (build_chroma_filters clock_over_midnight
                           (u "등록 마감 임박한 행사") world0)))
              = [Cond "reg_end_int" op_gte (VInt 20250131);
                 Cond "reg_end_int" op_lte (VInt 20250208)])
    by (vm_compute; reflexivity).
  assert (P : parse_registration_filter (u "등록 마감 임박한 행사")
              = Some closing_soon) by (vm_compute; reflexivity).
  remember (date_int today) as T eqn:ET.
  remember (date_int (add_days 7 today)) as W eqn:EW.
  rewrite C, P in H. cbn [claimed_registration_conditions] in H.
  assert (HT : T = 20250131) by congruence.
  assert (HW : W = 20250208) by congruence.
  clear H C P. subst T W.
  destruct V as (Hy & Hm & Hd).
  pose proof (days_in_month_bounds (dt_year today) (dt_month today)) as B.
  pose proof (date_int_value today) as F. rewrite HT in F.
  specialize (F ltac:(lia) ltac:(lia) ltac:(lia)).
  assert (E : today = mkdate 2025 1 31).
  { destruct today as [y m d]. cbn [dt_year dt_month dt_day] in *.
    assert (y = 2025 /\ m = 1 /\ d = 31) as (-> & -> & ->) by lia.
    reflexivity. }
  clear HT. subst today. vm_compute in HW. discriminate HW.
Qed.

(** C3, as amended.  The conditions on the registration dates in the
    predicate are exactly: available, [reg_start_int <= T] and
    [reg_end_int >= T]; closing soon, [reg_end_int >= T] and
    [reg_end_int <= W]; upcoming, [reg_start_int > T]; exclude closed,
    [reg_end_int >= T].  [T] is the date integer of the date the builder
    reads for the registration block (its reading after the one of the
    time-relative block, if any), and [W] the date integer of the date seven
    calendar days after the date it reads next, for the upper bound: the
    date whose ordinal is that reading's plus 7, not an integer plus 7.  When
    both readings show the same date, [W] is seven calendar days after the
    date of [T]. *)
Theorem registration_conditions_emitted :
  forall (clock : nat -> date) (query : str) (w : world),
    (forall k, valid_date (clock k)) ->
    (forall k, dt_year (clock k) < 9999) ->
    let r := (reads w + if is_time_based_query query then 1 else 0)%nat in
    let T := date_int (clock r) in
    let later := add_days 7 (clock (S r)) in
    let W := date_int later in
    filter is_registration_key
           (conditions_of (fst (build_chroma_filters clock query w)))
    = match parse_registration_filter query with
      | Some available =>
        [Cond "reg_start_int" op_lte (VInt T);
         Cond "reg_end_int" op_gte (VInt T)]
      | Some closing_soon =>
        [Cond "reg_end_int" op_gte (VInt T);
         Cond "reg_end_int" op_lte (VInt W)]
      | Some upcoming => [Cond "reg_start_int" op_gt (VInt T)]
      | Some exclude_closed => [Cond "reg_end_int" op_gte (VInt T)]
      | None => []
      end
    /\ toordinal later = toordinal (clock (S r)) + 7
    /\ (clock (S r) = clock r -> toordinal later = toordinal (clock r) + 7).
Proof.
  intros clock query w Hv Hy r T later W.
  assert (O : toordinal later = toordinal (clock (S r)) + 7).
  { destruct (Hv (S r)) as (_ & Hm & Hd). unfold later.
    now rewrite (add_days_ordinal 7 _ Hm Hd). }
  split; [|split; [exact O | intros E; now rewrite <- E]].
  pose proof (registration_key_conditions clock query w) as H.
  pose proof (time_conditions_reads clock query) as R.
  destruct (parse_date_from_query query) as [[year month] month_range].
  rewrite H, registration_conditions_run. cbv zeta.
  rewrite (R year month month_range w). reflexivity.
Qed.

Lemma registration_conditions_emitted_witness :
  filter is_registration_key
         (conditions_of
            (fst (build_chroma_filters clock_over_midnight
                    (u "등록 마감 임박한 행사") world0)))
  = [Cond "reg_end_int" op_gte (VInt 20250131);
     Cond "reg_end_int" op_lte (VInt 20250208)].
Proof.
  assert (V : forall k, valid_date (clock_over_midnight k)).
  { intros [|k]; unfold valid_date; cbn [clock_over_midnight dt_year dt_month dt_day].
    - change (days_in_month 2025 1) with 31. lia.
    - change (days_in_month 2025 2) with 28. lia. }
  assert (Y : forall k, dt_year (clock_over_midnight k) < 9999).
  { intros [|k]; cbn [clock_over_midnight dt_year]; lia. }
  rewrite (proj1 (registration_conditions_emitted clock_over_midnight
                    (u "등록 마감 임박한 행사") world0 V Y)).
  vm_compute. reflexivity.
Defined.

(* ------------------------------------------------------------------ *)
(** ** The month patterns *)

Lemma lit_wol : lit "월" = chr 50900%N.
Proof. reflexivity. Qed.

(** A character that is no digit differs from every digit. *)
Lemma digit_differs c d :
  is_digit c = false -> is_digit d = true -> (c =? d)%N = false.
Proof.
  intros Hc Hd. destruct (N.eqb_spec c d) as [E|]; [|reflexivity].
  subst d. rewrite Hc in Hd. discriminate Hd.
Qed.

Lemma digit_not_wol d : is_digit d = true -> (50900 =? d)%N = false.
Proof. apply digit_differs. vm_compute. reflexivity. Qed.

Lemma match_here_re_month s : match_here re_month s = month_here s.
Proof.
  unfold match_here, re_month, digit_1_2, digit, opt. rewrite lit_wol. unfold chr.
  destruct s as [|d1 [|d2 [|w s]]]; cbn [rmatch month_here app].
  - reflexivity.
  - destruct (is_digit d1); reflexivity.
  - destruct (is_digit d1); [|reflexivity].
    destruct (is_digit d2) eqn:E2; cbn [app].
    + now rewrite (digit_not_wol _ E2).
    + destruct (50900 =? d2)%N; reflexivity.
  - destruct (is_digit d1); [|reflexivity].
    destruct (is_digit d2) eqn:E2; cbn [app].
    + destruct (50900 =? w)%N; [reflexivity|]. now rewrite (digit_not_wol _ E2).
    + destruct (50900 =? d2)%N; reflexivity.
Qed.

(** A match that fails keeps failing when the continuation accepts less. *)
Lemma star_loop_none_mono p : forall s acc k k',
  (forall m s', k m s' = None -> k' m s' = None) ->
  star_loop p acc s k = None -> star_loop p acc s k' = None.
Proof.
  induction s as [|c s IH]; intros acc k k' Hk; simpl.
  - apply Hk.
  - destruct (p c); [|apply Hk].
    destruct (star_loop p (acc ++ [c]) s k) eqn:E; [discriminate|].
    intros H. rewrite (IH _ _ _ Hk E). now apply Hk.
Qed.

Lemma rmatch_none_mono r : forall s cs k k',
  (forall m s' cs', k m s' cs' = None -> k' m s' cs' = None) ->
  rmatch r s cs k = None -> rmatch r s cs k' = None.
Proof.
  induction r as [|p|a IHa b IHb|a IHa b IHb|p|i a IHa];
    intros s cs k k' Hk; simpl.
  - apply Hk.
  - destruct s as [|c s]; [reflexivity|]. destruct (p c); [apply Hk | reflexivity].
  - apply IHa. intros m s' cs'. apply IHb. intros m2 s2 cs2. apply Hk.
  - destruct (rmatch a s cs k) eqn:E; [discriminate|].
    intros H. rewrite (IHa _ _ _ _ Hk E). now apply (IHb _ _ k).
  - apply star_loop_none_mono. intros m s'. apply Hk.
  - apply IHa. intros m s' cs'. apply Hk.
Qed.

(** The range pattern begins like the month pattern: where no month token
    starts, no range starts. *)
Lemma month_range_needs_month s :
  match_here re_month s = None -> match_here re_month_range s = None.
Proof.
  unfold match_here, re_month, re_month_range. cbn [seqs rmatch].
  apply rmatch_none_mono. intros m s' cs'. rewrite lit_wol. unfold chr.
  cbn [rmatch]. destruct s' as [|c s']; [reflexivity|].
  destruct (50900 =? c)%N; [discriminate | reflexivity].
Qed.

(** The characters of [\s], one by one. *)
Lemma is_space_cases c :
  is_space c = true ->
  In c [9; 10; 11; 12; 13; 28; 29; 30; 31; 32; 133; 160; 5760; 8192; 8193;
        8194; 8195; 8196; 8197; 8198; 8199; 8200; 8201; 8202; 8232; 8233;
        8239; 8287; 12288]%N.
Proof.
  unfold is_space. rewrite !orb_true_iff, !andb_true_iff, !N.leb_le, !N.eqb_eq.
  cbn [In]. lia.
Qed.

Lemma digit_not_space d : is_digit d = true -> is_space d = false.
Proof.
  intros H. destruct (is_space d) eqn:E; [|reflexivity].
  apply is_space_cases in E. cbn [In] in E.
  repeat (destruct E as [E | E];
          [subst d; vm_compute in H; discriminate H|]).
  destruct E.
Qed.

Lemma range_phrase dm dn post :
  digits12 dm = true -> digits12 dn = true ->
  match_here re_month_range (dm ++ u "월~" ++ dn ++ u "월" ++ post)
  = Some [(2%nat, dn); (1%nat, dm)].
Proof.
  intros Hm Hn.
  change (u "월~") with [50900; 126]%N. change (u "월") with [50900]%N.
  unfold match_here, re_month_range, digit_1_2, digit, opt, spaces.
  rewrite lit_wol. unfold chr. cbn [seqs].
  destruct dm as [|d1 [|d2 [|]]]; try discriminate Hm;
    destruct dn as [|e1 [|e2 [|]]]; try discriminate Hn;
    cbn [digits12] in Hm, Hn;
    repeat match goal with
           | H : _ && _ = true |- _ => apply andb_prop in H; destruct H
           end;
    repeat (cbn [rmatch star_loop app]
            || rewrite ?N.eqb_refl
            || match goal with
               | H : is_digit ?d = true |- context [is_digit ?d] => rewrite H
               | H : is_digit ?d = true |- context [is_space ?d] =>
                 rewrite (digit_not_space d H)
               | |- context [is_digit 50900%N] =>
                 change (is_digit 50900%N) with false
               | |- context [is_space 126%N] =>
                 change (is_space 126%N) with false
               | |- context [one_of ?s 126%N] =>
                 change (one_of s 126%N) with true
               end); reflexivity.
Qed.

Lemma month_phrase dm rest :
  digits12 dm = true ->
  match_here re_month (dm ++ 50900%N :: rest) = Some [(1%nat, dm)].
Proof.
  intros Hm. rewrite match_here_re_month.
  destruct dm as [|d1 [|d2 [|]]]; try discriminate Hm; cbn [digits12] in Hm.
  - cbn [app month_here]. rewrite Hm.
    change (is_digit 50900%N) with false. now rewrite N.eqb_refl.
  - apply andb_prop in Hm. destruct Hm as [H1 H2].
    cbn [app month_here]. now rewrite H1, H2, N.eqb_refl.
Qed.

(** At "M월부터" the range pattern cannot match: its character class takes
    the single character 부 and a digit is then required where 터 stands. *)
Lemma range_pattern_rejects_buteo dm rest :
  digits12 dm = true ->
  match_here re_month_range (dm ++ u "월부터" ++ rest) = None.
Proof.
  intros Hm. change (u "월부터") with [50900; 48512; 53552]%N.
  unfold match_here, re_month_range, digit_1_2, digit, opt, spaces.
  rewrite lit_wol. unfold chr. cbn [seqs].
  destruct dm as [|d1 [|d2 [|]]]; try discriminate Hm;
    cbn [digits12] in Hm;
    repeat match goal with
           | H : _ && _ = true |- _ => apply andb_prop in H; destruct H
           end;
    repeat (cbn [rmatch star_loop app]
            || rewrite ?N.eqb_refl
            || match goal with
               | H : is_digit ?d = true |- context [is_digit ?d] => rewrite H
               | H : is_digit ?d = true |- context [(50900 =? ?d)%N] =>
                 rewrite (digit_not_wol d H)
               | |- context [is_digit 50900%N] =>
                 change (is_digit 50900%N) with false
               | |- context [is_digit 53552%N] =>
                 change (is_digit 53552%N) with false
               | |- context [is_space 48512%N] =>
                 change (is_space 48512%N) with false
               | |- context [is_space 53552%N] =>
                 change (is_space 53552%N) with false
               | |- context [one_of ?s 48512%N] =>
                 change (one_of s 48512%N) with true
               end); reflexivity.
Qed.

Lemma search_unfold r s :
  search r s = match match_here r s with
               | Some cs => Some cs
               | None => match s with [] => None | _ :: s' => search r s' end
               end.
Proof. destruct s; reflexivity. Qed.

Lemma month_here_extend p rest :
  p <> [] -> month_here p = None -> ends_with_digit p = false ->
  month_here (p ++ rest) = None.
Proof.
  destruct p as [|a [|b [|c p]]]; intros Hne Hp He.
  - now elim Hne.
  - cbn in He. cbn [app month_here]. now rewrite He.
  - cbn [ends_with_digit] in He. cbn [app month_here] in *. rewrite He in *.
    destruct (is_digit a); [|reflexivity]. destruct rest; exact Hp.
  - exact Hp.
Qed.

Lemma search_skip_prefix pre rest :
  search re_month pre = None -> ends_with_digit pre = false ->
  search re_month (pre ++ rest) = search re_month rest
  /\ search re_month_range (pre ++ rest) = search re_month_range rest.
Proof.
  induction pre as [|a pre IH]; intros Hs He.
  - split; reflexivity.
  - rewrite search_unfold in Hs.
    destruct (match_here re_month (a :: pre)) eqn:Hm; [discriminate|].
    assert (Hx : match_here re_month ((a :: pre) ++ rest) = None).
    { rewrite match_here_re_month in *.
      apply month_here_extend; [discriminate | exact Hm | exact He]. }
    assert (He' : ends_with_digit pre = false).
    { destruct pre; [reflexivity | exact He]. }
    destruct (IH Hs He') as [IH1 IH2].
    split.
    + rewrite search_unfold, Hx. exact IH1.
    + rewrite search_unfold, (month_range_needs_month _ Hx). exact IH2.
Qed.

(** ** Explicit month ranges *)

(** C4.  The phrasing "M월부터 N월까지", which the source comment lists among
    the ranges the pattern is written for, is not recognised: the query
    "3월부터 5월까지" yields no month range and the single month 3, while the
    same range written with [~] or [-] yields [3, 4, 5]. *)
Theorem month_range_from_to_not_parsed :
  parse_date_from_query (u "3월부터 5월까지") = (None, Some 3, None)
  /\ parse_date_from_query (u "3월~5월") = (None, None, Some [3; 4; 5])
  /\ parse_date_from_query (u "3월-5월") = (None, None, Some [3; 4; 5]).
Proof. repeat split; vm_compute; reflexivity. Qed.

(** What the parser returns for a rejected range phrase that holds the first
    month token of the query. *)
Lemma parse_rejected_range pre dm dn post :
  let query := range_phrase_query pre dm dn post in
  let M := int_of_digits dm in
  let N := int_of_digits dn in
  digits12 dm = true -> digits12 dn = true ->
  found re_month pre = false -> ends_with_digit pre = false ->
  has_period_keyword query = false ->
  ~ (1 <= M /\ M <= N /\ N <= 12) ->
  exists year, parse_date_from_query query = (year, Some M, None).
Proof.
  intros query M N Hm Hn Hpre Hend Hkw Hbad.
  assert (Hs : search re_month pre = None).
  { unfold found in Hpre. destruct (search re_month pre); [discriminate|reflexivity]. }
  destruct (search_skip_prefix pre (dm ++ u "월~" ++ dn ++ u "월" ++ post) Hs Hend)
    as [S1 S2]. fold (range_phrase_query pre dm dn post) in S1, S2. fold query in S1, S2.
  assert (R1 : search re_month query = Some [(1%nat, dm)]).
  { rewrite S1, search_unfold.
    change (u "월~") with [50900; 126]%N. cbn [app].
    now rewrite (month_phrase dm _ Hm). }
  assert (R2 : search re_month_range query = Some [(2%nat, dn); (1%nat, dm)]).
  { rewrite S2, search_unfold. now rewrite (range_phrase dm dn post Hm Hn). }
  unfold has_period_keyword in Hkw.
  repeat match type of Hkw with
         | _ || _ = false => apply orb_false_elim in Hkw; destruct Hkw as [Hkw ?]
         end.
  unfold parse_date_from_query.
  repeat match goal with
         | H : found _ query = false |- _ => rewrite H; clear H
         end.
  rewrite R1, R2. cbn [group Nat.eqb]. fold M N.
  assert (V : (1 <=? M) && (M <=? 12) && (1 <=? N) && (N <=? 12) && (M <=? N)
              = false).
  { destruct ((1 <=? M) && (M <=? 12) && (1 <=? N) && (N <=? 12) && (M <=? N))
      eqn:E; [|reflexivity].
    exfalso. apply Hbad.
    repeat match goal with
           | H : _ && _ = true |- _ => apply andb_prop in H; destruct H
           end.
    repeat match goal with
           | H : (_ <=? _) = true |- _ => apply Z.leb_le in H
           end. lia. }
  rewrite V. cbv zeta. eexists. reflexivity.
Qed.

Lemma static_month_conditions query :
  filter is_month_key (static_conditions query)
  = let '(_, month, month_range) := parse_date_from_query query in
    if truthy_list month_range
    then [Cond "month" op_in (VList (get month_range []))]
    else if truthy_int month
    then [Cond "month" op_eq (VInt (get month 0))]
    else [].
Proof.
  unfold static_conditions.
  destruct (parse_date_from_query query) as [[year month] month_range].
  rewrite !filter_app.
  destruct (truthy_int year), (truthy_list month_range), (truthy_int month),
    (parse_weekend_filter query), (truthy_str (parse_category_from_query query)),
    (truthy_str (parse_exclusion_filter query)); reflexivity.
Qed.

(** The month conditions of the predicate are those of the static block. *)
Lemma month_conditions clock query w :
  filter is_month_key
         (conditions_of (fst (build_chroma_filters clock query w)))
  = filter is_month_key (static_conditions query).
Proof.
  rewrite (proj1 (build_chroma_filters_conditions clock query w)).
  pose proof (build_conditions_parts clock query w) as Hparts.
  destruct (parse_date_from_query query) as [[year month] month_range].
  cbv zeta in Hparts. rewrite Hparts. cbn [fst].
  rewrite !filter_app.
  rewrite (filter_none _ (fst (time_conditions _ _ _ _ _ _))).
  2:{ intros c Hc. apply time_conditions_keys in Hc.
      unfold is_month_key. now rewrite Hc. }
  rewrite (filter_none _ (fst (registration_conditions _ _ _))).
  2:{ intros c Hc. apply registration_conditions_keys in Hc.
      unfold is_month_key. destruct Hc as [E | E]; now rewrite E. }
  rewrite (filter_none _ (duration_conditions query)).
  2:{ intros c Hc. apply duration_conditions_keys in Hc.
      unfold is_month_key. now rewrite Hc. }
  cbn [app]. now rewrite app_nil_r.
Qed.

(** C10, counterexample.  For "0월~5월" the fallback returns month 0, which
    is false as a Python value: no month condition is emitted and the query
    has no predicate at all.  For "3월 행사 5월~2월" the fallback matches the
    earlier token and returns month 3, not 5. *)
Lemma fallback_claim_fails :
  ~ fallback_claim (fun _ => mkdate 2025 6 15) [] (u "0") (u "5") []
  /\ ~ fallback_claim (fun _ => mkdate 2025 6 15)
         (u "3월 행사 ") (u "5") (u "2") [].
Proof.
  split; intros H.
  - destruct H as [_ H]; try (vm_compute; reflexivity).
    + vm_compute. intros (H1 & _). now apply H1.
    + assert (C : conditions_of
                    (fst (build_chroma_filters (fun _ => mkdate 2025 6 15)
                            (range_phrase_query [] (u "0") (u "5") []) world0))
                  = []) by (vm_compute; reflexivity).
      rewrite C in H. destruct H.
  - destruct H as [H _]; try (vm_compute; reflexivity).
    + vm_compute. intros (_ & H1 & _). now apply H1.
    + vm_compute in H. discriminate H.
Qed.

(** C10, as amended.  Let the query contain the phrase "M월~N월" (M and N
    written with one or two digits) that fails validation, no half-year or
    quarter keyword, and no month token before the phrase (the text before it
    contains no "digits + 월" and does not end in a digit).  Then the parser
    returns no month range and month = M, and the predicate's only condition
    on the month is [month = M] when M is not 0; when M is 0 the predicate
    has no condition on the month. *)
Theorem rejected_range_falls_back_to_month :
  forall (clock : nat -> date) (pre dm dn post : str) (w : world),
    let query := range_phrase_query pre dm dn post in
    let M := int_of_digits dm in
    let N := int_of_digits dn in
    digits12 dm = true -> digits12 dn = true ->
    found re_month pre = false -> ends_with_digit pre = false ->
    has_period_keyword query = false ->
    ~ (1 <= M /\ M <= N /\ N <= 12) ->
    snd (fst (parse_date_from_query query)) = Some M
    /\ snd (parse_date_from_query query) = None
    /\ filter is_month_key
              (conditions_of (fst (build_chroma_filters clock query w)))
       = if M =? 0 then [] else [Cond "month" op_eq (VInt M)].
Proof.
  intros clock pre dm dn post w query M N Hm Hn Hpre Hend Hkw Hbad.
  destruct (parse_rejected_range pre dm dn post Hm Hn Hpre Hend Hkw Hbad)
    as [year P].
  fold query M in P. rewrite month_conditions, static_month_conditions, P.
  cbn [fst snd truthy_list truthy_int get].
  repeat split. now destruct (M =? 0).
Qed.

Lemma rejected_range_falls_back_to_month_witness :
  let query := u "2025년 13월~14월 행사" in
  snd (fst (parse_date_from_query query)) = Some 13
  /\ snd (parse_date_from_query query) = None
  /\ filter is_month_key
            (conditions_of
               (fst (build_chroma_filters (fun _ => mkdate 2025 6 15)
                       query world0)))
     = [Cond "month" op_eq (VInt 13)].
Proof.
  assert (Hm : digits12 (u "13") = true) by (vm_compute; reflexivity).
  assert (Hn : digits12 (u "14") = true) by (vm_compute; reflexivity).
  assert (Hpre : found re_month (u "2025년 ") = false)
    by (vm_compute; reflexivity).
  assert (Hend : ends_with_digit (u "2025년 ") = false)
    by (vm_compute; reflexivity).
  assert (Hkw : has_period_keyword
                  (range_phrase_query (u "2025년 ") (u "13") (u "14")
                     (u " 행사")) = false) by (vm_compute; reflexivity).
  assert (Hbad : ~ (1 <= int_of_digits (u "13")
                    /\ int_of_digits (u "13") <= int_of_digits (u "14")
                    /\ int_of_digits (u "14") <= 12)).
  { vm_compute. intros (_ & _ & H). now apply H. }
  exact (rejected_range_falls_back_to_month (fun _ => mkdate 2025 6 15)
           (u "2025년 ") (u "13") (u "14") (u " 행사") world0
           Hm Hn Hpre Hend Hkw Hbad).
Defined.

(* ------------------------------------------------------------------ *)
(** ** The dispatcher *)

(** A location the parser returns is never the empty string. *)
Lemma parse_location_truthy query :
  truthy_str (parse_location_from_query query)
  = is_some (parse_location_from_query query).
Proof.
  unfold parse_location_from_query. cbn [first_match].
  repeat match goal with
         | |- context [if found ?r ?q then _ else _] =>
           destruct (found r q); [reflexivity|]
         end.
  reflexivity.
Qed.

Section ChatFacts.
Variable clock : nat -> date.
Variable RETRIEVAL_K : Z.
Variable collection_get : option where_clause -> list row.
Variable query_engine_query : Z -> qa_prompt -> system_prompt -> str -> str.
Variable llm_complete : filtered_prompt -> str.

(** Reading the clock and building prompts, predicates and contexts call
    no collaborator. *)
Lemma time_conditions_trace query year month month_range w :
  trace (snd (time_conditions clock query year month month_range w))
  = trace w.
Proof.
  unfold time_conditions, bind, now, ret.
  destruct (is_time_based_query query); [|reflexivity].
  match goal with |- context [negb ?b] => destruct b end; reflexivity.
Qed.

Lemma registration_conditions_trace query w :
  trace (snd (registration_conditions clock query w)) = trace w.
Proof.
  unfold registration_conditions, bind, now, ret.
  destruct (parse_registration_filter query) as [[| | |]|]; reflexivity.
Qed.

Lemma build_chroma_filters_trace query w :
  trace (snd (build_chroma_filters clock query w)) = trace w.
Proof.
  rewrite (proj2 (build_chroma_filters_conditions clock query w)).
  pose proof (build_conditions_parts clock query w) as Hparts.
  destruct (parse_date_from_query query) as [[year month] month_range].
  cbv zeta in Hparts. rewrite Hparts. cbn [snd].
  now rewrite registration_conditions_trace, time_conditions_trace.
Qed.

Lemma calculate_registration_status_run md w :
  calculate_registration_status clock md w
  = (registration_status_on (date_int (clock (reads w))) md,
     mkworld (S (reads w)) (trace w)).
Proof. reflexivity. Qed.

Lemma format_entries_trace nodes : forall i w,
  trace (snd (format_entries clock i nodes w)) = trace w.
Proof.
  induction nodes as [|node nodes IH]; intros i w.
  - reflexivity.
  - cbn [format_entries]. unfold bind, ret.
    rewrite calculate_registration_status_run.
    match goal with
    | |- context [format_entries clock ?j nodes ?w1] =>
      specialize (IH j w1); destruct (format_entries clock j nodes w1)
    end. exact IH.
Qed.

Lemma format_nodes_as_context_trace nodes max_nodes w :
  trace (snd (format_nodes_as_context clock nodes max_nodes w)) = trace w.
Proof.
  unfold format_nodes_as_context, bind, ret.
  match goal with
  | |- context [format_entries clock ?j ?l ?w1] =>
    pose proof (format_entries_trace l j w1) as H;
      destruct (format_entries clock j l w1)
  end. exact H.
Qed.

Lemma get_system_prompt_run w :
  get_system_prompt clock w
  = (mksys (today_korean (clock (reads w)))
           (strftime_Y_m_d (clock (S (reads w)))),
     mkworld (S (S (reads w))) (trace w)).
Proof. reflexivity. Qed.

Lemma get_qa_prompt_run w :
  get_qa_prompt clock w
  = (mkqa (today_korean (clock (reads w))), mkworld (S (reads w)) (trace w)).
Proof. reflexivity. Qed.

(** The two paths of [chat]. *)
Lemma chat_run message w :
  let bf := build_chroma_filters clock message w in
  let filters := fst bf in
  let location := parse_location_from_query message in
  let out := chat clock RETRIEVAL_K collection_get query_engine_query
                  llm_complete message w in
  if is_some filters || is_some location
  then match post_filtered collection_get filters location with
       | [] => fst out = no_match_message
               /\ trace (snd out) = trace w ++ [ev_collection_get filters]
       | _ :: _ =>
         exists prompt,
         fst out = llm_complete prompt
         /\ trace (snd out)
            = trace w ++ [ev_collection_get filters; ev_llm_complete prompt]
       end
  else exists qa sys,
      fst out = query_engine_query RETRIEVAL_K qa sys message
      /\ trace (snd out)
         = trace w ++ [ev_similarity_query RETRIEVAL_K qa sys message].
Proof.
  cbv zeta. unfold chat, bind. unfold post_filtered.
  pose proof (build_chroma_filters_trace message w) as Ht.
  rewrite <- parse_location_truthy.
  destruct (build_chroma_filters clock message w) as [filters w1].
  cbn [fst snd] in *.
  destruct (is_some filters || truthy_str (parse_location_from_query message))
    eqn:E.
  - assert (G : (if is_some filters
                 then get_all_by_filter collection_get filters
                 else get_all_by_filter collection_get None)
                = get_all_by_filter collection_get filters).
    { destruct filters; reflexivity. }
    rewrite G. unfold get_all_by_filter, emit, bind, ret. cbn [fst snd].
    destruct (if truthy_str (parse_location_from_query message)
              then filter_nodes_by_location
                     (map node_of_row (collection_get filters))
                     (get (parse_location_from_query message) [])
              else map node_of_row (collection_get filters))
      as [|node nodes] eqn:En.
    + cbn [fst snd trace]. now rewrite Ht.
    + match goal with
      | |- context [format_nodes_as_context clock ?l ?k ?w0] =>
        pose proof (format_nodes_as_context_trace l k w0) as Hf;
          destruct (format_nodes_as_context clock l k w0) as [context w2]
      end.
      rewrite get_system_prompt_run. unfold ret.
      cbn [fst snd trace reads] in *.
      eexists. split; [reflexivity|].
      rewrite Hf, Ht, <- app_assoc. reflexivity.
  - rewrite get_qa_prompt_run, get_system_prompt_run. unfold emit, ret.
    cbn [fst snd trace reads].
    do 2 eexists. split; [reflexivity|]. now rewrite Ht.
Qed.
End ChatFacts.


(** C9.  On the exact-match path, when no record is left after the store's
    predicate and the location post-filter, [chat] returns the "no matching
    documents" message; it has called the store and nothing else. *)
Theorem empty_result_reported :
  forall (clock : nat -> date) (RETRIEVAL_K : Z)
         (collection_get : option where_clause -> list row)
         (query_engine_query : Z -> qa_prompt -> system_prompt -> str -> str)
         (llm_complete : filtered_prompt -> str) (message : str),
    let filters := fst (build_chroma_filters clock message world0) in
    let location := parse_location_from_query message in
    let out := chat clock RETRIEVAL_K collection_get query_engine_query
                    llm_complete message world0 in
    is_some filters || is_some location = true ->
    post_filtered collection_get filters location = [] ->
    fst out = no_match_message
    /\ trace (snd out) = [ev_collection_get filters].
Proof.
  intros clock K cg qe llm message filters location out Hexact Hempty.
  pose proof (chat_run clock K cg qe llm message world0) as H.
  cbv zeta in H. fold filters location out in H.
  rewrite Hexact, Hempty in H. exact H.
Qed.

Lemma empty_result_reported_witness :
  fst (chat (fun _ => mkdate 2025 1 31) 20 one_record_store
            (fun _ _ _ _ => []) p_context (u "코엑스 행사") world0)
  = no_match_message.
Proof.
  refine (proj1 (empty_result_reported (fun _ => mkdate 2025 1 31) 20
                   one_record_store (fun _ _ _ _ => []) p_context
                   (u "코엑스 행사") _ _)).
  - vm_compute. reflexivity.
  - vm_compute. reflexivity.
Defined.

(* ------------------------------------------------------------------ *)
(** ** Clock readings *)

(** Two clocks that agree at every reading give the same run. *)
Section ClockAgreement.
Variables clock1 clock2 : nat -> date.
Hypothesis agree : forall k, clock1 k = clock2 k.
Variable RETRIEVAL_K : Z.
Variable collection_get : option where_clause -> list row.
Variable query_engine_query : Z -> qa_prompt -> system_prompt -> str -> str.
Variable llm_complete : filtered_prompt -> str.

Lemma build_chroma_filters_agree query w :
  build_chroma_filters clock1 query w = build_chroma_filters clock2 query w.
Proof.
  unfold build_chroma_filters, build_conditions, time_conditions,
    registration_conditions, bind, now, ret.
  destruct (parse_date_from_query query) as [[year month] month_range].
  destruct (is_time_based_query query);
    destruct (parse_registration_filter query) as [[| | |]|];
    cbn [reads trace]; rewrite ?agree;
    repeat match goal with
           | |- context [negb ?b] => destruct b; cbn [negb reads trace]
           end;
    rewrite ?agree; reflexivity.
Qed.

Lemma format_entries_agree nodes : forall i w,
  format_entries clock1 i nodes w = format_entries clock2 i nodes w.
Proof.
  induction nodes as [|node nodes IH]; intros i w.
  - reflexivity.
  - cbn [format_entries]. unfold bind, ret.
    rewrite !calculate_registration_status_run, agree, IH. reflexivity.
Qed.

Lemma chat_agree message w :
  chat clock1 RETRIEVAL_K collection_get query_engine_query llm_complete
       message w
  = chat clock2 RETRIEVAL_K collection_get query_engine_query llm_complete
         message w.
Proof.
  unfold chat, bind. rewrite build_chroma_filters_agree.
  destruct (build_chroma_filters clock2 message w) as [filters w1].
  destruct (is_some filters || truthy_str (parse_location_from_query message)).
  - match goal with
    | |- (let (_, _) := ?g in _) = _ => destruct g as [nodes w2]
    end.
    match goal with
    | |- context [match ?l with [] => _ | _ :: _ => _ end] =>
      destruct l as [|n ns]; [reflexivity|]
    end.
    unfold format_nodes_as_context, bind, ret.
    rewrite format_entries_agree.
    match goal with
    | |- context [format_entries clock2 ?j ?l ?w0] =>
      destruct (format_entries clock2 j l w0) as [parts w3]
    end.
    rewrite !get_system_prompt_run, !agree. reflexivity.
  - rewrite !get_qa_prompt_run, !get_system_prompt_run, !agree. reflexivity.
Qed.
End ClockAgreement.

(** C8, counterexample.  For "서울대 행사" the first reading is the one of
    the predicate builder; the record's registration status is computed from
    a later one.  With the language model echoing its context, the answer
    shows the registration as open when the clock stays on 2025-01-31 and as
    closed when midnight passes after the first reading. *)
Lemma single_reading_claim_fails :
  ~ single_reading_claim 20 one_record_store (fun _ _ _ _ => []) p_context
      (fun _ => mkdate 2025 1 31) clock_over_midnight (u "서울대 행사").
Proof.
  intros H. specialize (H eq_refl). vm_compute in H. discriminate H.
Qed.

(** C8, as amended.  Within a single query today's date is read anew at
    each use: by the predicate builder once for the time-relative lower bound
    (when the flag is set), once for the registration-status conditions and
    once more for the closing-soon upper bound, and once for every record
    whose live registration status is computed.  When every reading returns
    the same date [today], every condition on [start_date_int],
    [reg_start_int] or [reg_end_int] compares with today's date integer (the
    closing-soon upper bound with that of today plus seven days), every
    record's status is computed for today's date integer, and the query's
    output is the one obtained from a clock fixed at [today]. *)
Theorem clock_read_at_each_use :
  forall (clock : nat -> date) (RETRIEVAL_K : Z)
         (collection_get : option where_clause -> list row)
         (query_engine_query : Z -> qa_prompt -> system_prompt -> str -> str)
         (llm_complete : filtered_prompt -> str) (message : str) (w : world),
    reads (snd (build_chroma_filters clock message w))
    = (reads w + (if is_time_based_query message then 1 else 0) + 1
       + match parse_registration_filter message with
         | Some closing_soon => 1
         | _ => 0
         end)%nat
    /\ (forall md w', reads (snd (calculate_registration_status clock md w'))
                      = S (reads w'))
    /\ forall today, (forall k, clock k = today) ->
       (forall c,
           In c (conditions_of (fst (build_chroma_filters clock message w))) ->
           c_key c = "start_date_int"%string \/ is_registration_key c = true ->
           c_val c = VInt (date_int today)
           \/ c = Cond "reg_end_int" op_lte (VInt (date_int (add_days 7 today))))
       /\ (forall md w', fst (calculate_registration_status clock md w')
                         = registration_status_on (date_int today) md)
       /\ chat clock RETRIEVAL_K collection_get query_engine_query
               llm_complete message w
          = chat (fun _ => today) RETRIEVAL_K collection_get
                 query_engine_query llm_complete message w.
Proof.
  intros clock K cg qe llm message w.
  pose proof (build_conditions_parts clock message w) as Hparts.
  pose proof (build_chroma_filters_conditions clock message w) as [Hc Hs].
  destruct (parse_date_from_query message) as [[year month] month_range].
  cbv zeta in Hparts. rewrite Hparts in Hc, Hs. cbn [fst snd] in Hc, Hs.
  split; [|split].
  - rewrite Hs. unfold registration_conditions, time_conditions, bind, now, ret.
    destruct (is_time_based_query message);
      destruct (parse_registration_filter message) as [[| | |]|];
      repeat match goal with
             | |- context [negb ?b] => destruct b; cbn [negb]
             end;
      cbn [fst snd reads]; lia.
  - intros md w'. reflexivity.
  - intros today Hclock. split; [|split].
    + intros c Hin Hkey. rewrite Hc in Hin. rewrite !in_app_iff in Hin.
      destruct Hin as [Hin | [Hin | [Hin | Hin]]].
      * left. unfold time_conditions, bind, now, ret in Hin.
        destruct (is_time_based_query message); [|destruct Hin].
        rewrite Hclock in Hin.
        match type of Hin with
        | context [negb ?b] => destruct b
        end; [destruct Hin|].
        destruct Hin as [<- | []]. reflexivity.
      * exfalso. apply static_conditions_keys in Hin.
        unfold is_registration_key in Hkey.
        destruct Hin as [E | [E | [E | E]]]; rewrite E in Hkey;
          destruct Hkey as [Hk | Hk]; discriminate Hk.
      * rewrite registration_conditions_run in Hin. cbv zeta in Hin.
        rewrite !Hclock in Hin.
        destruct (parse_registration_filter message) as [[| | |]|];
          cbn [In] in Hin; intuition (subst c; auto).
      * exfalso. apply duration_conditions_keys in Hin.
        unfold is_registration_key in Hkey. rewrite Hin in Hkey.
        destruct Hkey as [Hk | Hk]; discriminate Hk.
    + intros md w'. rewrite calculate_registration_status_run.
      cbn [fst]. now rewrite Hclock.
    + apply chat_agree. exact Hclock.
Qed.

Lemma clock_read_at_each_use_witness :
  let clock := fun _ : nat => mkdate 2025 1 31 in
  let md := mkmeta None None (Some 20250101) (Some 20250131) None None in
  (forall c,
      In c (conditions_of
              (fst (build_chroma_filters clock (u "다가오는 행사 등록 가능")
                      world0))) ->
      c_key c = "start_date_int"%string \/ is_registration_key c = true ->
      c_val c = VInt 20250131
      \/ c = Cond "reg_end_int" op_lte (VInt 20250207))
  /\ fst (calculate_registration_status clock md world0)
     = status_open_days 0.
Proof.
  intros clock md.
  destruct (clock_read_at_each_use clock 20 one_record_store
              (fun _ _ _ _ => []) p_context (u "다가오는 행사 등록 가능")
              world0) as (_ & _ & H).
  destruct (H (mkdate 2025 1 31) (fun k => eq_refl)) as (Hc & Hst & _).
  split.
  - exact Hc.
  - rewrite Hst. vm_compute. reflexivity.
Defined.

(* ------------------------------------------------------------------ *)
(** * Further properties of the code *)

(** ** Substring test and location filter *)

Lemma startswith_spec p : forall s,
  startswith p s = true <-> exists rest, s = p ++ rest.
Proof.
  induction p as [|a p IH]; intros s.
  - simpl. split; [intros _; now exists s | reflexivity].
  - destruct s as [|b s]; simpl.
    + split; [discriminate | intros [rest H]; discriminate H].
    + rewrite andb_true_iff, N.eqb_eq, IH. split.
      * intros [-> [rest ->]]. now exists rest.
      * intros [rest H]. injection H as -> ->. split; [reflexivity | now exists rest].
Qed.

Lemma contains_spec needle : forall haystack,
  contains needle haystack = true
  <-> exists pre post, haystack = pre ++ needle ++ post.
Proof.
  induction haystack as [|c h IH].
  - simpl. rewrite orb_false_r, startswith_spec. split.
    + intros [rest H]. exists [], rest. exact H.
    + intros (pre & post & H). destruct pre; [now exists post|discriminate H].
  - cbn [contains]. rewrite orb_true_iff, startswith_spec, IH. split.
    + intros [[rest H] | (pre & post & H)].
      * exists [], rest. exact H.
      * exists (c :: pre), post. now rewrite H.
    + intros (pre & post & H). destruct pre as [|x pre].
      * left. now exists post.
      * right. injection H as -> ->. now exists pre, post.
Qed.

Lemma filter_subsequence {A} (p : A -> bool) l : subsequence (filter p l) l.
Proof.
  induction l as [|x l IH]; simpl.
  - constructor.
  - destruct (p x); now constructor.
Qed.

(** X1.  The location filter keeps, in their order, exactly the records
    whose [location] contains the keyword as a substring; a record without a
    [location] is dropped.  An empty keyword leaves the list as it is. *)
Theorem filter_nodes_by_location_spec :
  forall (nodes : list TextNode) (location : str),
    subsequence (filter_nodes_by_location nodes location) nodes
    /\ (location = [] -> filter_nodes_by_location nodes location = nodes)
    /\ (location <> [] ->
        forall node,
          In node (filter_nodes_by_location nodes location)
          <-> In node nodes
              /\ exists pre post,
                  md_location (node_metadata node)
                  = Some (pre ++ location ++ post)).
Proof.
  intros nodes location. split; [|split].
  - unfold filter_nodes_by_location. destruct location.
    + clear. induction nodes; now constructor.
    + apply filter_subsequence.
  - intros ->. reflexivity.
  - intros Hne node. unfold filter_nodes_by_location.
    destruct location as [|c location]; [now elim Hne|].
    rewrite filter_In, contains_spec. split.
    + intros [Hin (pre & post & H)]. split; [exact Hin|].
      destruct (md_location (node_metadata node)) as [loc|].
      * exists pre, post. simpl in H. now rewrite H.
      * simpl in H. destruct pre; discriminate H.
    + intros [Hin (pre & post & H)]. split; [exact Hin|].
      exists pre, post. now rewrite H.
Qed.

Lemma filter_nodes_by_location_spec_witness :
  let seoul := mknode [] (u "a")
                 (mkmeta (Some (u "서울대 어린이병원")) None None None None None) in
  let nowhere := mknode [] (u "b") (mkmeta None None None None None None) in
  In seoul (filter_nodes_by_location [nowhere; seoul] (u "서울대")).
Proof.
  intros seoul nowhere.
  assert (Hne : u "서울대" <> []) by (vm_compute; discriminate).
  apply (proj2 (proj2 (filter_nodes_by_location_spec [nowhere; seoul]
                         (u "서울대"))) Hne seoul).
  split.
  - right; left; reflexivity.
  - exists [], (u " 어린이병원"). vm_compute. reflexivity.
Defined.

(** ** Chronological sort *)

Lemma insert_sorted_perm {A} (key : A -> Z) reverse x l :
  Permutation (x :: l) (insert_sorted key reverse x l).
Proof.
  induction l as [|y l IH]; simpl.
  - apply Permutation_refl.
  - destruct (in_order key reverse x y).
    + apply Permutation_refl.
    + eapply perm_trans; [apply perm_swap|]. now apply perm_skip.
Qed.

Lemma sorted_perm {A} (key : A -> Z) reverse l :
  Permutation l (sorted key reverse l).
Proof.
  induction l as [|x l IH]; simpl.
  - apply perm_nil.
  - eapply perm_trans; [apply perm_skip, IH | apply insert_sorted_perm].
Qed.

(** X2.  [sort_nodes_by_date] returns the records it was given, none lost
    and none repeated, in ascending (or, with [ascending=False], descending)
    order of [start_date_int], undated records counting as 99999999; records
    with the same date keep the order they came in. *)
Theorem sort_nodes_by_date_spec :
  forall (nodes : list TextNode) (ascending : bool),
    let result := sort_nodes_by_date nodes ascending in
    Permutation nodes result
    /\ ordered get_date_int (negb ascending) result
    /\ forall date,
        filter (fun node => get_date_int node =? date) result
        = filter (fun node => get_date_int node =? date) nodes.
Proof.
  intros nodes ascending result. unfold result, sort_nodes_by_date.
  split; [apply sorted_perm | split; [apply sorted_ordered|]].
  intros date. apply sorted_stable.
Qed.

(** ** The countdown *)

(** X3.  Whatever the dates, the status line is empty, "not yet open",
    plain "open", "closed", or "open" with a countdown between 0 and 7: a
    negative or larger number of days is never shown. *)
Theorem countdown_between_0_and_7 :
  forall (today : Z) (md : metadata),
    let s := registration_status_on today md in
    s = [] \/ s = status_not_open \/ s = status_open \/ s = status_closed
    \/ exists n, 0 <= n <= 7 /\ s = status_open_days n.
Proof.
  intros today md. unfold registration_status_on. cbv zeta.
  destruct (negb (truthy_int (md_reg_start_int md))
            || negb (truthy_int (md_reg_end_int md))); [now left|].
  set (rs := get (md_reg_start_int md) 0). set (re := get (md_reg_end_int md) 0).
  destruct (Z.ltb_spec today rs); [now right; left|].
  destruct (Z.leb_spec today re); [|now right; right; right; left].
  destruct (Z.eqb_spec (re / 100) (today / 100)) as [E|E]; simpl negb; cbv iota;
    [|now right; right; left].
  destruct (Z.leb_spec (re mod 100 - today mod 100) 7);
    [|now right; right; left].
  right; right; right; right. exists (re mod 100 - today mod 100).
  split; [|reflexivity]. split; [|assumption].
  rewrite (Z.div_mod today 100), (Z.div_mod re 100) in H0 by lia.
  rewrite E in H0. lia.
Qed.

(** ** Keys of the predicate *)

(** X4.  Every condition of the predicate is on one of eight metadata
    keys; none is on [location], which is left to the post-filter. *)
Theorem predicate_never_constrains_location :
  forall (clock : nat -> date) (query : str) (w : world) (c : condition),
    In c (conditions_of (fst (build_chroma_filters clock query w))) ->
    In (c_key c) predicate_keys /\ c_key c <> "location"%string.
Proof.
  intros clock query w c Hin.
  rewrite (proj1 (build_chroma_filters_conditions clock query w)) in Hin.
  pose proof (build_conditions_parts clock query w) as Hparts.
  destruct (parse_date_from_query query) as [[year month] month_range].
  cbv zeta in Hparts. rewrite Hparts in Hin. cbn [fst] in Hin.
  rewrite !in_app_iff in Hin.
  assert (K : In (c_key c) predicate_keys).
  { unfold predicate_keys.
    destruct Hin as [Hin | [Hin | [Hin | Hin]]].
    - apply time_conditions_keys in Hin. rewrite Hin. simpl. tauto.
    - apply static_conditions_keys in Hin.
      destruct Hin as [E | [E | [E | E]]]; rewrite E; simpl; tauto.
    - apply registration_conditions_keys in Hin.
      destruct Hin as [E | E]; rewrite E; simpl; tauto.
    - apply duration_conditions_keys in Hin. rewrite Hin. simpl. tauto. }
  split; [exact K|]. intros E. rewrite E in K. unfold predicate_keys in K.
  simpl in K. intuition discriminate.
Qed.

Lemma predicate_never_constrains_location_witness :
  let c := Cond "category" op_eq (VStr (u "심포지엄")) in
  In (c_key c) predicate_keys /\ c_key c <> "location"%string.
Proof.
  intros c.
  apply (predicate_never_constrains_location (fun _ => mkdate 2025 6 15)
           (u "양재 aT센터 2025년 4월 심포지엄") world0 c).
  vm_compute. right; right; left. reflexivity.
Defined.

(** ** The equality-only predicate *)

Lemma static_conditions_in_predicate clock query w c :
  In c (static_conditions query) ->
  In c (conditions_of (fst (build_chroma_filters clock query w))).
Proof.
  intros Hin.
  rewrite (proj1 (build_chroma_filters_conditions clock query w)).
  pose proof (build_conditions_parts clock query w) as Hparts.
  destruct (parse_date_from_query query) as [[year month] month_range].
  cbv zeta in Hparts. rewrite Hparts. cbn [fst].
  rewrite !in_app_iff. tauto.
Qed.

(** X5.  The equality-only predicate of [build_metadata_filters] is a
    weakening of the ChromaDB predicate: each of its filters (year, month,
    category) is an [$eq] condition of the predicate [build_chroma_filters]
    builds for the same query. *)
Theorem metadata_filters_within_chroma_filters :
  forall (clock : nat -> date) (query : str) (w : world) (f : MetadataFilter),
    In f (filters_of (build_metadata_filters query)) ->
    In (Cond (mf_key f) op_eq (mf_value f))
       (conditions_of (fst (build_chroma_filters clock query w))).
Proof.
  intros clock query w f Hin. apply static_conditions_in_predicate.
  pose proof (parse_date_month_exclusive query) as Hex.
  unfold build_metadata_filters in Hin. unfold static_conditions.
  destruct (parse_date_from_query query) as [[year month] month_range].
  assert (Hf : In f ((if truthy_int year
                      then [mkfilter "year" (VInt (get year 0))] else [])
                     ++ (if truthy_int month
                         then [mkfilter "month" (VInt (get month 0))] else [])
                     ++ (if truthy_str (parse_category_from_query query)
                         then [mkfilter "category"
                                 (VStr (get (parse_category_from_query query) []))]
                         else []))).
  { cbn [app] in Hin. rewrite <- app_assoc in Hin.
    destruct (_ ++ _ ++ _) eqn:E in Hin; [destruct Hin|].
    rewrite E. exact Hin. }
  clear Hin. rewrite !in_app_iff in *.
  destruct Hf as [Hf | [Hf | Hf]].
  - left. destruct (truthy_int year); [|destruct Hf].
    destruct Hf as [<- | []]. now left.
  - right; left. destruct (truthy_int month) eqn:Em; [|destruct Hf].
    destruct Hf as [<- | []].
    assert (Hr : truthy_list month_range = false).
    { destruct month_range as [l|]; [|reflexivity].
      rewrite Hex in Em by discriminate. discriminate Em. }
    rewrite Hr. now left.
  - right; right; right; left.
    destruct (truthy_str (parse_category_from_query query)); [|destruct Hf].
    destruct Hf as [<- | []]. now left.
Qed.

Lemma metadata_filters_within_chroma_filters_witness :
  In (Cond "month" op_eq (VInt 4))
     (conditions_of
        (fst (build_chroma_filters (fun _ => mkdate 2025 6 15)
                (u "2025년 4월 심포지엄") world0))).
Proof.
  apply (metadata_filters_within_chroma_filters (fun _ => mkdate 2025 6 15)
           (u "2025년 4월 심포지엄") world0 (mkfilter "month" (VInt 4))).
  vm_compute. right; left. reflexivity.
Defined.

(** ** The filter description *)

Lemma app_nil_both {A} (l1 l2 : list A) : l1 ++ l2 = [] -> l1 = [] /\ l2 = [].
Proof. destruct l1; [now split | discriminate]. Qed.

(** X6.  A non-empty filter description means the exact-match path is
    taken: whenever [build_filter_description] names a filter, the query has
    a predicate or a location keyword. *)
Theorem description_implies_exact_match :
  forall (clock : nat -> date) (query : str) (w : world),
    build_filter_description query <> [] ->
    is_some (fst (build_chroma_filters clock query w))
    || is_some (parse_location_from_query query) = true.
Proof.
  intros clock query w Hdesc.
  destruct (is_some (fst (build_chroma_filters clock query w))
            || is_some (parse_location_from_query query)) eqn:E;
    [reflexivity|].
  exfalso. apply Hdesc. clear Hdesc.
  apply orb_false_elim in E. destruct E as [Ef El].
  assert (Hc : fst (build_conditions clock query w) = []).
  { rewrite <- (proj1 (build_chroma_filters_conditions clock query w)).
    destruct (fst (build_chroma_filters clock query w)); [discriminate Ef|].
    reflexivity. }
  pose proof (build_conditions_parts clock query w) as Hparts.
  pose proof (time_conditions_run clock query) as Hrun.
  unfold static_conditions in Hparts.
  destruct (parse_date_from_query query) as [[year month] month_range] eqn:P.
  cbv zeta in Hparts. rewrite Hparts in Hc. cbn [fst] in Hc. clear Hparts.
  apply app_nil_both in Hc. destruct Hc as [HT Hc].
  apply app_nil_both in Hc. destruct Hc as [HS Hc].
  apply app_nil_both in Hc. destruct Hc as [HR HD].
  apply app_nil_both in HS. destruct HS as [Hy HS].
  apply app_nil_both in HS. destruct HS as [Hm HS].
  apply app_nil_both in HS. destruct HS as [Hw HS].
  apply app_nil_both in HS. destruct HS as [Hcat Hexc].
  rewrite registration_conditions_run in HR. cbv zeta in HR.
  unfold duration_conditions in HD.
  rewrite <- parse_location_truthy in El.
  destruct (truthy_int year) eqn:Ey; [discriminate Hy|].
  destruct (truthy_list month_range) eqn:Er; [discriminate Hm|].
  destruct (truthy_int month) eqn:Emo; [discriminate Hm|].
  destruct (parse_weekend_filter query) eqn:Ew; [discriminate Hw|].
  destruct (truthy_str (parse_category_from_query query)) eqn:Ecat;
    [discriminate Hcat|].
  destruct (truthy_str (parse_exclusion_filter query)) eqn:Eexc;
    [discriminate Hexc|].
  destruct (parse_registration_filter query) as [[| | |]|] eqn:Ereg;
    try discriminate HR.
  destruct (parse_duration_filter query) as [[|]|] eqn:Edur;
    try discriminate HD.
  assert (Et : is_time_based_query query = false).
  { destruct (is_time_based_query query) eqn:Et; [|reflexivity].
    specialize (Hrun year month month_range w eq_refl). cbv zeta in Hrun.
    rewrite Ey in Hrun. simpl in Hrun. rewrite Hrun in HT. discriminate HT. }
  clear Hy Hm Hw Hcat Hexc HR HD HT Hrun Ef.
  unfold build_filter_description.
  rewrite P, Ey, Emo, Ew, Ecat, Eexc, Ereg, Edur, El, Et.
  destruct month_range as [[|x l]|]; try discriminate Er; reflexivity.
Qed.

Lemma description_implies_exact_match_witness :
  is_some (fst (build_chroma_filters (fun _ => mkdate 2025 6 15)
                  (u "주말에 하는 행사") world0))
  || is_some (parse_location_from_query (u "주말에 하는 행사")) = true.
Proof.
  apply description_implies_exact_match. vm_compute. discriminate.
Defined.

(** ** What the prompt reports *)

(** X7.  On the exact-match path with at least one record left, [chat]
    makes exactly two collaborator calls, the store's and the language
    model's, and returns the model's answer; the prompt carries the user's
    message, the filter description, the number of records left after the
    location filter as total (ranking loses none) and the smaller of that
    number and [RETRIEVAL_K] as displayed count. *)
Theorem prompt_reports_true_counts :
  forall (clock : nat -> date) (RETRIEVAL_K : Z)
         (collection_get : option where_clause -> list row)
         (query_engine_query : Z -> qa_prompt -> system_prompt -> str -> str)
         (llm_complete : filtered_prompt -> str) (message : str),
    let filters := fst (build_chroma_filters clock message world0) in
    let location := parse_location_from_query message in
    let out := chat clock RETRIEVAL_K collection_get query_engine_query
                    llm_complete message world0 in
    let records := post_filtered collection_get filters location in
    is_some filters || is_some location = true ->
    records <> [] ->
    exists prompt,
      trace (snd out) = [ev_collection_get filters; ev_llm_complete prompt]
      /\ fst out = llm_complete prompt
      /\ p_total_count prompt = Z.of_nat (List.length records)
      /\ p_display_count prompt
         = Z.min RETRIEVAL_K (Z.of_nat (List.length records))
      /\ p_message prompt = message
      /\ p_filter_desc prompt = build_filter_description message.
Proof.
  intros clock K cg qe llm message filters location out records Hexact Hne.
  unfold out, chat, bind. unfold records, post_filtered in *.
  subst filters location.
  pose proof (build_chroma_filters_trace clock message world0) as Ht.
  rewrite <- parse_location_truthy in Hexact.
  destruct (build_chroma_filters clock message world0) as [filters w1].
  cbn [fst snd] in *. rewrite Hexact.
  assert (G : (if is_some filters
               then get_all_by_filter cg filters
               else get_all_by_filter cg None)
              = get_all_by_filter cg filters).
  { destruct filters; reflexivity. }
  rewrite G. unfold get_all_by_filter, emit, bind, ret. cbn [fst snd].
  destruct (if truthy_str (parse_location_from_query message)
            then filter_nodes_by_location (map node_of_row (cg filters))
                   (get (parse_location_from_query message) [])
            else map node_of_row (cg filters)) as [|node nodes] eqn:En;
    [now elim Hne|].
  match goal with
  | |- context [format_nodes_as_context clock ?l ?k ?w0] =>
    pose proof (format_nodes_as_context_trace clock l k w0) as Hf;
      destruct (format_nodes_as_context clock l k w0) as [context w2]
  end.
  rewrite get_system_prompt_run. unfold ret. cbn [fst snd trace reads] in *.
  eexists. split; [|split; [reflexivity|]].
  - rewrite Hf, Ht. reflexivity.
  - cbn [p_total_count p_display_count p_message p_filter_desc].
    assert (L : List.length (if is_time_based_query message
                             then sort_nodes_by_date (node :: nodes) true
                             else node :: nodes)
                = List.length (node :: nodes)).
    { destruct (is_time_based_query message); [|reflexivity].
      apply sorted_length. }
    rewrite L. repeat split.
Qed.

Lemma prompt_reports_true_counts_witness :
  exists prompt,
    fst (chat (fun _ => mkdate 2025 1 31) 20 one_record_store
              (fun _ _ _ _ => []) p_context (u "서울대 행사") world0)
    = p_context prompt
    /\ p_total_count prompt = 1 /\ p_display_count prompt = 1.
Proof.
  destruct (prompt_reports_true_counts (fun _ => mkdate 2025 1 31) 20
              one_record_store (fun _ _ _ _ => []) p_context
              (u "서울대 행사")) as (prompt & _ & Ho & Ht & Hd & _).
  - vm_compute. reflexivity.
  - vm_compute. discriminate.
  - exists prompt. split; [exact Ho|]. split.
    + rewrite Ht. vm_compute. reflexivity.
    + rewrite Hd. vm_compute. reflexivity.
Defined.

(** ** The year token *)

Lemma lit_nyeon : lit "년" = chr 45380%N.
Proof. reflexivity. Qed.

Lemma digit_not_nyeon d : is_digit d = true -> (45380 =? d)%N = false.
Proof. apply digit_differs. vm_compute. reflexivity. Qed.

Lemma match_here_re_year s : match_here re_year s = year_here s.
Proof.
  unfold match_here, re_year, digit_4, digit. rewrite lit_nyeon. unfold chr.
  cbn [seqs].
  destruct s as [|a [|b [|c [|d [|e s]]]]]; cbn [rmatch year_here app];
    repeat match goal with
           | |- context [is_digit ?x] => destruct (is_digit x); cbn [andb]
           end; reflexivity.
Qed.

Lemma year_here_extend p y4 rest :
  p <> [] -> year_here p = None -> digits4 y4 = true ->
  year_here (p ++ y4 ++ 45380%N :: rest) = None.
Proof.
  intros Hne Hp Hy.
  destruct y4 as [|y1 [|y2 [|y3 [|y4 [|]]]]]; try discriminate Hy.
  cbn [digits4] in Hy.
  apply andb_prop in Hy. destruct Hy as [Hy H4].
  apply andb_prop in Hy. destruct Hy as [Hy H3].
  apply andb_prop in Hy. destruct Hy as [H1 H2].
  destruct p as [|a [|b [|c [|d [|e p]]]]]; [now elim Hne| | | | |exact Hp];
    cbn [app year_here];
    rewrite ?(digit_not_nyeon _ H1), ?(digit_not_nyeon _ H2),
      ?(digit_not_nyeon _ H3), ?(digit_not_nyeon _ H4), ?andb_false_r;
    reflexivity.
Qed.

(** X8.  The parsed year is the first four-digit number directly followed
    by 년: when no such token occurs before it in the query, the year is that
    number, whatever else the query holds. *)
Theorem first_year_token_is_parsed :
  forall (pre y4 post : str),
    digits4 y4 = true ->
    found re_year pre = false ->
    fst (fst (parse_date_from_query (pre ++ y4 ++ u "년" ++ post)))
    = Some (int_of_digits y4).
Proof.
  intros pre y4 post Hy Hpre.
  change (u "년") with [45380%N]. cbn [app].
  assert (Hs : search re_year pre = None).
  { unfold found in Hpre. destruct (search re_year pre); [discriminate|reflexivity]. }
  assert (S : search re_year (pre ++ y4 ++ 45380%N :: post)
              = Some [(1%nat, y4)]).
  { clear Hpre. induction pre as [|a pre IH].
    - cbn [app]. rewrite search_unfold, match_here_re_year.
      destruct y4 as [|y1 [|y2 [|y3 [|y4 [|]]]]]; try discriminate Hy.
      cbn [digits4] in Hy. cbn [app year_here].
      now rewrite Hy, N.eqb_refl.
    - rewrite search_unfold in Hs.
      destruct (match_here re_year (a :: pre)) eqn:Hm; [discriminate|].
      rewrite match_here_re_year in Hm.
      rewrite search_unfold, match_here_re_year.
      change ((a :: pre) ++ y4 ++ 45380%N :: post)
        with ((a :: pre) ++ y4 ++ 45380%N :: post).
      rewrite (year_here_extend (a :: pre) y4 post); [|discriminate|exact Hm|exact Hy].
      cbn [app]. apply IH. exact Hs. }
  unfold parse_date_from_query. cbn [fst].
  match goal with
  | |- context [search re_year ?q] =>
    replace (search re_year q) with (Some [(1%nat, y4)])
      by (symmetry; exact S)
  end.
  reflexivity.
Qed.

Lemma first_year_token_is_parsed_witness :
  fst (fst (parse_date_from_query (u "12월 행사 2025년 2026년")))
  = Some 2025.
Proof.
  exact (first_year_token_is_parsed (u "12월 행사 ") (u "2025") (u " 2026년")
           eq_refl eq_refl).
Defined.

(** ** Month ranges *)

(** X9.  A month range, when one is returned, is a run of consecutive
    months [a, a+1, ..., b] with [1 <= a <= b <= 12], never empty; and no
    single month is returned beside it. *)
Theorem month_range_is_valid :
  forall (query : str) (l : list Z),
    snd (parse_date_from_query query) = Some l ->
    snd (fst (parse_date_from_query query)) = None
    /\ exists a b, 1 <= a <= b /\ b <= 12 /\ l = py_range a (b + 1)
                   /\ List.length l = Z.to_nat (b - a + 1).
Proof.
  intros query l. unfold parse_date_from_query. cbn [fst snd].
  set (kw := if found re_first_half query then Some [1; 2; 3; 4; 5; 6]
             else if found re_second_half query then Some [7; 8; 9; 10; 11; 12]
             else if found re_q1 query then Some [1; 2; 3]
             else if found re_q2 query then Some [4; 5; 6]
             else if found re_q3 query then Some [7; 8; 9]
             else if found re_q4 query then Some [10; 11; 12]
             else None).
  assert (Hkw : forall l', kw = Some l' ->
            exists a b, 1 <= a <= b /\ b <= 12 /\ l' = py_range a (b + 1)
                        /\ List.length l' = Z.to_nat (b - a + 1)).
  { intros l' H. unfold kw in H.
    repeat match type of H with
           | (if ?c then _ else _) = _ => destruct c
           end; try discriminate H; injection H as <-;
      [exists 1, 6 | exists 7, 12 | exists 1, 3 | exists 4, 6
       | exists 7, 9 | exists 10, 12];
      repeat split; try lia; reflexivity. }
  clearbody kw.
  set (mr := match search re_month_range query with
             | Some range_match => _
             | None => kw
             end).
  assert (Hmr : forall l', mr = Some l' ->
            exists a b, 1 <= a <= b /\ b <= 12 /\ l' = py_range a (b + 1)
                        /\ List.length l' = Z.to_nat (b - a + 1)).
  { intros l' H. unfold mr in H.
    destruct (search re_month_range query) as [m|]; [|now apply Hkw].
    set (M := int_of_digits (group 1 m)) in *.
    set (N := int_of_digits (group 2 m)) in *.
    destruct ((1 <=? M) && (M <=? 12) && (1 <=? N) && (N <=? 12) && (M <=? N))
      eqn:V; [|now apply Hkw].
    injection H as <-.
    repeat match goal with
           | H : _ && _ = true |- _ => apply andb_prop in H; destruct H
           end.
    repeat match goal with
           | H : (_ <=? _) = true |- _ => apply Z.leb_le in H
           end.
    exists M, N. repeat split; try lia.
    unfold py_range. rewrite length_map, length_seq. f_equal. lia. }
  clearbody mr. intros H. rewrite H. split; [reflexivity|]. now apply Hmr.
Qed.

Lemma month_range_is_valid_witness :
  exists a b, 1 <= a <= b /\ b <= 12 /\ [10; 11; 12] = py_range a (b + 1)
              /\ List.length [10; 11; 12] = Z.to_nat (b - a + 1).
Proof.
  apply (month_range_is_valid (u "2025년 4분기 행사") [10; 11; 12]).
  vm_compute. reflexivity.
Defined.

Lemma star_loop_greedy p ws : forall acc rest k r,
  forallb p ws = true ->
  match rest with c :: _ => p c = false | [] => True end ->
  k (acc ++ ws) rest = Some r ->
  star_loop p acc (ws ++ rest) k = Some r.
Proof.
  induction ws as [|x ws IH]; intros acc rest k r Hws Hrest Hk.
  - rewrite app_nil_r in Hk. cbn [app].
    destruct rest as [|c rest]; cbn [star_loop]; [exact Hk|].
    now rewrite Hrest.
  - cbn [forallb] in Hws. apply andb_prop in Hws. destruct Hws as [Hx Hws].
    cbn [app star_loop]. rewrite Hx.
    rewrite (IH (acc ++ [x]) rest k r Hws Hrest); [reflexivity|].
    now rewrite <- app_assoc.
Qed.

Lemma range_tail ws1 sep ws2 dn post cs k r :
  digits12 dn = true ->
  all_space ws1 = true -> all_space ws2 = true ->
  sep = 126%N \/ sep = 45%N ->
  (forall m, k m post ((2%nat, dn) :: cs) = Some r) ->
  rmatch (seqs [lit "월"; spaces; Cls (one_of "~-부터"); spaces;
                Grp 2 digit_1_2; lit "월"])
         (50900%N :: ws1 ++ sep :: ws2 ++ dn ++ 50900%N :: post) cs k
  = Some r.
Proof.
  intros Hn H1 H2 Hsep Hk.
  assert (Hss : is_space sep = false /\ one_of "~-부터" sep = true).
  { destruct Hsep as [-> | ->]; split; reflexivity. }
  destruct Hss as [Hs1 Hs2].
  assert (Hd : match dn ++ 50900%N :: post with
               | c :: _ => is_space c = false
               | [] => True
               end).
  { destruct dn as [|e1 dn']; [discriminate Hn|]. cbn [app].
    apply digit_not_space. destruct dn' as [|e2 [|]]; cbn [digits12] in Hn;
      [exact Hn | now apply andb_prop in Hn | discriminate Hn]. }
  cbn [seqs]. rewrite !lit_wol. unfold chr, spaces. cbn [rmatch].
  rewrite N.eqb_refl.
  apply star_loop_greedy; [exact H1 | exact Hs1 |].
  cbn [rmatch]. rewrite Hs2.
  apply star_loop_greedy; [exact H2 | exact Hd |].
  unfold digit_1_2, digit, opt.
  destruct dn as [|e1 [|e2 [|]]]; try discriminate Hn; cbn [digits12] in Hn;
    repeat match goal with
           | H : _ && _ = true |- _ => apply andb_prop in H; destruct H
           end;
    repeat (cbn [rmatch app]
            || rewrite ?N.eqb_refl
            || rewrite Hk
            || match goal with
               | H : is_digit ?d = true |- context [is_digit ?d] => rewrite H
               | |- context [is_digit 50900%N] =>
                 change (is_digit 50900%N) with false
               end); reflexivity.
Qed.

Lemma spaced_range_phrase dm ws1 sep ws2 dn post :
  digits12 dm = true -> digits12 dn = true ->
  all_space ws1 = true -> all_space ws2 = true ->
  sep = 126%N \/ sep = 45%N ->
  match_here re_month_range
             (dm ++ 50900%N :: ws1 ++ sep :: ws2 ++ dn ++ 50900%N :: post)
  = Some [(2%nat, dn); (1%nat, dm)].
Proof.
  intros Hm Hn H1 H2 Hsep.
  unfold match_here, re_month_range.
  change (seqs [Grp 1 digit_1_2; lit "월"; spaces; Cls (one_of "~-부터");
                spaces; Grp 2 digit_1_2; lit "월"])
    with (Seq (Grp 1 digit_1_2)
              (seqs [lit "월"; spaces; Cls (one_of "~-부터"); spaces;
                     Grp 2 digit_1_2; lit "월"])).
  set (tl := seqs _).
  unfold digit_1_2, digit, opt.
  destruct dm as [|d1 [|d2 [|]]]; try discriminate Hm; cbn [digits12] in Hm;
    repeat match goal with
           | H : _ && _ = true |- _ => apply andb_prop in H; destruct H
           end;
    repeat (cbn [rmatch app]
            || match goal with
               | H : is_digit ?d = true |- context [is_digit ?d] => rewrite H
               | |- context [is_digit 50900%N] =>
                 change (is_digit 50900%N) with false
               end).
  - apply (range_tail ws1 sep ws2 dn post); auto.
  - match goal with
    | |- match ?X with _ => _ end = _ =>
      assert (E : X = Some [(2%nat, dn); (1%nat, [d1; d2])])
    end.
    { apply (range_tail ws1 sep ws2 dn post); auto. }
    rewrite E. reflexivity.
Qed.

(** X10.  A valid explicit range "M월~N월" or "M월-N월", with or without
    white space around the separator, that holds the first month token of the
    query gives [month_range = [M, ..., N]] and no single month; a half-year
    or quarter keyword elsewhere in the query does not change that. *)
Theorem explicit_range_overrides_keyword :
  forall (pre dm ws1 : str) (sep : char) (ws2 dn post : str),
    let query := spaced_range_query pre dm ws1 sep ws2 dn post in
    let M := int_of_digits dm in
    let N := int_of_digits dn in
    digits12 dm = true -> digits12 dn = true ->
    all_space ws1 = true -> all_space ws2 = true ->
    sep = 126%N \/ sep = 45%N ->
    found re_month pre = false -> ends_with_digit pre = false ->
    1 <= M -> M <= N -> N <= 12 ->
    snd (parse_date_from_query query) = Some (py_range M (N + 1))
    /\ snd (fst (parse_date_from_query query)) = None.
Proof.
  intros pre dm ws1 sep ws2 dn post query M N Hm Hn H1 H2 Hsep Hpre Hend
         HM HMN HN.
  assert (Hs : search re_month pre = None).
  { unfold found in Hpre. destruct (search re_month pre); [discriminate|reflexivity]. }
  destruct (search_skip_prefix pre
              (dm ++ 50900%N :: ws1 ++ sep :: ws2 ++ dn ++ 50900%N :: post)
              Hs Hend) as [_ S2].
  assert (R2 : search re_month_range query = Some [(2%nat, dn); (1%nat, dm)]).
  { unfold query, spaced_range_query. rewrite S2, search_unfold.
    pose proof (spaced_range_phrase dm ws1 sep ws2 dn post Hm Hn H1 H2 Hsep)
      as R.
    match goal with
    | |- context [match_here re_month_range ?q] =>
      replace (match_here re_month_range q)
        with (Some [(2%nat, dn); (1%nat, dm)]) by (symmetry; exact R)
    end.
    reflexivity. }
  unfold parse_date_from_query. cbn [fst snd]. rewrite R2.
  cbn [group Nat.eqb]. fold M N.
  assert (V : (1 <=? M) && (M <=? 12) && (1 <=? N) && (N <=? 12) && (M <=? N)
              = true).
  { rewrite !andb_true_iff, !Z.leb_le. lia. }
  rewrite V. split; reflexivity.
Qed.

Lemma explicit_range_overrides_keyword_witness :
  snd (parse_date_from_query (u "2025년 상반기 3월 - 5월 행사"))
  = Some [3; 4; 5].
Proof.
  assert (H : snd (parse_date_from_query
                     (spaced_range_query (u "2025년 상반기 ") (u "3") (u " ")
                        45%N (u " ") (u "5") (u " 행사")))
              = Some (py_range (int_of_digits (u "3"))
                               (int_of_digits (u "5") + 1))).
  { apply explicit_range_overrides_keyword;
      try (vm_compute; reflexivity); try (now right);
      vm_compute; discriminate. }
  exact H.
Defined.

(** ** Registration-status intent *)

Lemma search_none_mono r1 r2 :
  (forall s, match_here r2 s = None -> match_here r1 s = None) ->
  forall q, search r2 q = None -> search r1 q = None.
Proof.
  intros H q. induction q as [|c q IH]; intros Hs.
  - rewrite search_unfold in *.
    destruct (match_here r2 []) eqn:E; [discriminate|]. now rewrite (H _ E).
  - rewrite search_unfold in Hs. rewrite search_unfold.
    destruct (match_here r2 (c :: q)) eqn:E; [discriminate|].
    rewrite (H _ E). now apply IH.
Qed.

Lemma closing_soon_covers_deadline s :
  match_here re_closing_soon s = None ->
  match_here re_registration_deadline s = None.
Proof.
  unfold match_here, re_closing_soon, re_registration_deadline.
  cbn [alts seqs]. cbn [rmatch].
  match goal with
  | |- match ?X with _ => _ end = None -> _ =>
    destruct X eqn:E; [discriminate|]; intros _; revert E
  end.
  apply rmatch_none_mono. intros m s1 cs1.
  unfold any_star. cbn [rmatch].
  apply star_loop_none_mono. intros m2 s2.
  match goal with
  | |- match ?X with _ => _ end = None -> _ =>
    destruct X eqn:E; [discriminate|]; intros _; revert E
  end.
  apply rmatch_none_mono. intros m3 s3 cs3 H. discriminate H.
Qed.

(** X11.  A query in which "등록" is followed on the same line by "마감" is
    never read as "exclude closed" (nor as "upcoming"): the closing-soon
    pattern [등록.*(마감|임박)] is tried first and matches it, so the intent
    is "available" or "closing soon".  The first alternative of the
    exclude-closed pattern, [등록.*마감.*(제외|빼)], can therefore never
    decide the result. *)
Theorem deadline_after_registration_is_never_exclude_closed :
  forall (query : str),
    found re_registration_deadline query = true ->
    parse_registration_filter query = Some available
    \/ parse_registration_filter query = Some closing_soon.
Proof.
  intros query H. unfold parse_registration_filter.
  destruct (found re_available query); [now left|]. right.
  assert (Hc : found re_closing_soon query = true).
  { unfold found in *.
    destruct (search re_closing_soon query) eqn:E; [reflexivity|].
    rewrite (search_none_mono _ _ closing_soon_covers_deadline _ E) in H.
    discriminate H. }
  now rewrite Hc.
Qed.

Lemma deadline_after_registration_is_never_exclude_closed_witness :
  parse_registration_filter (u "등록 마감된 행사는 제외하고 알려줘")
  = Some closing_soon.
Proof.
  destruct (deadline_after_registration_is_never_exclude_closed
              (u "등록 마감된 행사는 제외하고 알려줘")) as [H | H].
  - vm_compute. reflexivity.
  - vm_compute in H. discriminate H.
  - exact H.
Defined.

(* ------------------------------------------------------------------ *)
(** ** Date metadata of the loader *)

Lemma lit_hyphen : lit "-" = chr 45%N.
Proof. reflexivity. Qed.

Lemma match_here_re_iso_date s : match_here re_iso_date s = iso_here s.
Proof.
  unfold match_here, re_iso_date, digit_4, digit. rewrite !lit_hyphen.
  unfold chr. cbn [seqs].
  destruct s as [|a [|b [|c [|d [|h1 [|e [|f [|h2 [|g [|h s]]]]]]]]]];
    cbn [rmatch iso_here app];
    repeat match goal with
           | |- context [is_digit ?x] => destruct (is_digit x); cbn [andb]
           | |- context [(45 =? ?x)%N] => destruct (45 =? x)%N; cbn [andb]
           end; reflexivity.
Qed.

Lemma digit_value c : is_digit c = true -> 0 <= digit_val c <= 9.
Proof.
  unfold is_digit, digit_val, digit_zero. intros H.
  destruct (find _ digit_zeros) as [z|] eqn:E; [|discriminate H].
  apply find_some in E as [_ E]. apply andb_prop in E as [E1 E2].
  apply N.leb_le in E1. apply N.ltb_lt in E2. lia.
Qed.

(** What the pattern captures, and the number its three groups spell. *)
Lemma iso_here_spec s m :
  iso_here s = Some m ->
  exists ys ms ds rest,
    digits4 ys = true /\ digits2 ms = true /\ digits2 ds = true
    /\ s = ys ++ 45%N :: ms ++ 45%N :: ds ++ rest
    /\ group 1 m = ys /\ group 2 m = ms /\ group 3 m = ds.
Proof.
  destruct s as [|a [|b [|c [|d [|h1 [|e [|f [|h2 [|g [|h s]]]]]]]]]];
    try discriminate. cbn [iso_here].
  destruct (is_digit a && is_digit b && is_digit c && is_digit d
            && (45 =? h1)%N && is_digit e && is_digit f && (45 =? h2)%N
            && is_digit g && is_digit h) eqn:E; [|discriminate].
  intros H. injection H as <-.
  repeat match goal with
         | H : _ && _ = true |- _ => apply andb_prop in H; destruct H
         end.
  repeat match goal with
         | H : (45 =? _)%N = true |- _ => apply N.eqb_eq in H; subst
         end.
  exists [a; b; c; d], [e; f], [g; h], s. cbn [digits4 digits2 app group Nat.eqb].
  repeat match goal with
         | H : is_digit _ = true |- _ => rewrite H; clear H
         end.
  repeat split.
Qed.

Lemma iso_here_complete ys ms ds rest :
  digits4 ys = true -> digits2 ms = true -> digits2 ds = true ->
  iso_here (ys ++ 45%N :: ms ++ 45%N :: ds ++ rest)
  = Some [(3%nat, ds); (2%nat, ms); (1%nat, ys)].
Proof.
  intros Hy Hm Hd.
  destruct ys as [|a [|b [|c [|d [|]]]]]; try discriminate Hy.
  destruct ms as [|e [|f [|]]]; try discriminate Hm.
  destruct ds as [|g [|h [|]]]; try discriminate Hd.
  cbn [digits4 digits2] in *. cbn [app iso_here].
  repeat match goal with
         | H : _ && _ = true |- _ => apply andb_prop in H; destruct H
         end.
  repeat match goal with
         | H : is_digit _ = true |- _ => rewrite H; clear H
         end.
  reflexivity.
Qed.

Lemma iso_digits_value ys ms ds :
  digits4 ys = true -> digits2 ms = true -> digits2 ds = true ->
  let y := int_of_digits ys in
  let m := int_of_digits ms in
  let d := int_of_digits ds in
  int_of_digits (ys ++ ms ++ ds) = y * 10000 + m * 100 + d
  /\ 0 <= y <= 9999 /\ 0 <= m <= 99 /\ 0 <= d <= 99.
Proof.
  intros Hy Hm Hd.
  destruct ys as [|a [|b [|c [|d0 [|]]]]]; try discriminate Hy.
  destruct ms as [|e [|f [|]]]; try discriminate Hm.
  destruct ds as [|g [|h [|]]]; try discriminate Hd.
  cbn [digits4 digits2] in *.
  repeat match goal with
         | H : _ && _ = true |- _ => apply andb_prop in H; destruct H
         end.
  repeat match goal with
         | H : is_digit _ = true |- _ => apply digit_value in H
         end.
  unfold int_of_digits. cbn [app fold_left]. lia.
Qed.

Lemma date_of_int_encode y m d :
  0 <= m <= 99 -> 0 <= d <= 99 ->
  date_of_int (y * 10000 + m * 100 + d) = mkdate y m d.
Proof.
  intros Hm Hd. unfold date_of_int. f_equal.
  - symmetry. apply (Z.div_unique _ 10000 y (m * 100 + d)); lia.
  - replace ((y * 10000 + m * 100 + d) / 100) with (y * 100 + m).
    + rewrite Z.add_comm, Z.mod_add by lia. apply Z.mod_small. lia.
    + apply (Z.div_unique _ 100 (y * 100 + m) d); lia.
  - replace (y * 10000 + m * 100 + d) with (d + (y * 100 + m) * 100) by lia.
    rewrite Z.mod_add by lia. apply Z.mod_small. lia.
Qed.

(** The registration date integer of a cell. *)
Lemma iso_cell_int cell :
  match match cell with
        | _ :: _ =>
          match match_here re_iso_date cell with
          | Some m => Some (int_of_digits (group 1 m ++ group 2 m ++ group 3 m))
          | None => None
          end
        | [] => None
        end with
  | Some n => exists y m d,
      iso_date_prefix cell y m d /\ n = y * 10000 + m * 100 + d
      /\ date_of_int n = mkdate y m d
  | None => forall y m d, ~ iso_date_prefix cell y m d
  end.
Proof.
  destruct cell as [|c0 cell0].
  - intros y m d (ys & ms & ds & rest & Hy & _ & _ & E & _).
    destruct ys; [discriminate Hy | discriminate E].
  - set (cell := c0 :: cell0). rewrite match_here_re_iso_date.
    destruct (iso_here cell) as [m|] eqn:E.
    + destruct (iso_here_spec _ _ E)
        as (ys & ms & ds & rest & Hy & Hm & Hd & Hs & -> & -> & ->).
      destruct (iso_digits_value ys ms ds Hy Hm Hd) as (V & By & Bm & Bd).
      exists (int_of_digits ys), (int_of_digits ms), (int_of_digits ds).
      split; [|split].
      * exists ys, ms, ds, rest. repeat split; assumption.
      * exact V.
      * rewrite V. apply date_of_int_encode; assumption.
    + intros y m d (ys & ms & ds & rest & Hy & Hm & Hd & Hs & _).
      rewrite Hs, (iso_here_complete ys ms ds rest Hy Hm Hd) in E.
      discriminate E.
Qed.

Lemma registration_date_integers_aux row :
  let result := extract_registration_metadata row in
  let describes (cell : str) (value : option Z) :=
    match value with
    | Some n => exists y m d,
        iso_date_prefix cell y m d /\ n = y * 10000 + m * 100 + d
        /\ date_of_int n = mkdate y m d
    | None => forall y m d, ~ iso_date_prefix cell y m d
    end in
  describes (row_get row (u "등록 시작일") []) (rm_reg_start_int result)
  /\ describes (row_get row (u "등록 마감일") []) (rm_reg_end_int result).
Proof.
  intros result describes. unfold result, extract_registration_metadata.
  cbv zeta.
  pose proof (iso_cell_int (row_get row (u "등록 시작일") [])) as H1.
  pose proof (iso_cell_int (row_get row (u "등록 마감일") [])) as H2.
  destruct (row_get row (u "등록 시작일") []) as [|c1 s1];
    destruct (row_get row (u "등록 마감일") []) as [|c2 s2];
    repeat match goal with
           | |- context [match_here re_iso_date ?s] =>
             destruct (match_here re_iso_date s)
           end; split; assumption.
Qed.

(** X12.  [extract_registration_metadata] sets [reg_start_int]
    ([reg_end_int]) exactly when the cell "등록 시작일" ("등록 마감일")
    begins with a text YYYY-MM-DD; the value is then
    [YYYY * 10000 + MM * 100 + DD], from which year, month and day are read
    back by division.  The numbers are not checked against the calendar, and
    text after the date is ignored. *)
Theorem registration_date_integers :
  forall (row : csv_row),
    let result := extract_registration_metadata row in
    let describes (cell : str) (value : option Z) :=
      match value with
      | Some n => exists y m d,
          iso_date_prefix cell y m d /\ n = y * 10000 + m * 100 + d
          /\ date_of_int n = mkdate y m d
      | None => forall y m d, ~ iso_date_prefix cell y m d
      end in
    describes (row_get row (u "등록 시작일") []) (rm_reg_start_int result)
    /\ describes (row_get row (u "등록 마감일") []) (rm_reg_end_int result).
Proof.
  intros row. exact (registration_date_integers_aux row).
Qed.

(** X13.  [extract_date_metadata] returns the empty dictionary exactly
    when the string does not begin with a text YYYY-MM-DD, and raises
    [ValueError] exactly when it does but the numbers are not a date of the
    calendar.  Otherwise [year], [month] and [day] are that date,
    [start_date_int] is [year * 10000 + month * 100 + day], [day_of_week]
    lies between 0 and 6, [is_weekend] holds exactly for 5 and 6, and
    [start_date] is the whole input string. *)
Theorem date_metadata_invariant :
  forall (date_str : str),
    match extract_date_metadata date_str with
    | Returns None => forall y m d, ~ iso_date_prefix date_str y m d
    | ValueError =>
      exists y m d, iso_date_prefix date_str y m d
                    /\ ~ valid_date (mkdate y m d)
    | Returns (Some md) =>
      iso_date_prefix date_str (dm_year md) (dm_month md) (dm_day md)
      /\ valid_date (mkdate (dm_year md) (dm_month md) (dm_day md))
      /\ dm_start_date_int md
         = dm_year md * 10000 + dm_month md * 100 + dm_day md
      /\ date_of_int (dm_start_date_int md)
         = mkdate (dm_year md) (dm_month md) (dm_day md)
      /\ 0 <= dm_day_of_week md <= 6
      /\ (dm_is_weekend md = true
          <-> dm_day_of_week md = 5 \/ dm_day_of_week md = 6)
      /\ dm_start_date md = date_str
    end.
Proof.
  intros date_str. unfold extract_date_metadata.
  rewrite match_here_re_iso_date.
  destruct (iso_here date_str) as [m|] eqn:E.
  - destruct (iso_here_spec _ _ E)
      as (ys & ms & ds & rest & Hy & Hm & Hd & Hs & -> & -> & ->).
    destruct (iso_digits_value ys ms ds Hy Hm Hd) as (V & By & Bm & Bd).
    cbv zeta. unfold datetime_new.
    set (y := int_of_digits ys) in *. set (mo := int_of_digits ms) in *.
    set (d := int_of_digits ds) in *.
    assert (P : iso_date_prefix date_str y mo d).
    { exists ys, ms, ds, rest. repeat split; assumption. }
    destruct ((1 <=? y) && (y <=? 9999) && (1 <=? mo) && (mo <=? 12)
              && (1 <=? d) && (d <=? days_in_month y mo)) eqn:Val.
    + cbn [dm_year dm_month dm_day dm_start_date_int dm_day_of_week
           dm_is_weekend dm_start_date].
      rewrite !andb_true_iff, !Z.leb_le in Val.
      assert (W : 0 <= weekday (mkdate y mo d) < 7)
        by (unfold weekday; apply Z.mod_pos_bound; lia).
      split; [exact P|]. split; [unfold valid_date; cbn; lia|].
      split; [exact V|]. split; [rewrite V; now apply date_of_int_encode|].
      split; [lia|]. split; [|reflexivity].
      rewrite Z.leb_le. lia.
    + exists y, mo, d. split; [exact P|].
      unfold valid_date. cbn [dt_year dt_month dt_day]. intros Hv.
      rewrite <- not_true_iff_false in Val. apply Val.
      rewrite !andb_true_iff, !Z.leb_le. lia.
  - intros y m d (ys & ms & ds & rest & Hy & Hm & Hd & Hs & _).
    rewrite Hs, (iso_here_complete ys ms ds rest Hy Hm Hd) in E.
    discriminate E.
Qed.

(* ------------------------------------------------------------------ *)
(** ** Date integers and calendar order *)

Lemma days_before_month_mono y m1 k :
  1 <= m1 ->
  days_before_month y m1 + days_in_month y m1
  <= days_before_month y (m1 + 1 + Z.of_nat k).
Proof.
  intros H. induction k as [|k IH].
  - rewrite Z.add_0_r, days_before_month_succ by lia. lia.
  - replace (m1 + 1 + Z.of_nat (S k)) with ((m1 + 1 + Z.of_nat k) + 1) by lia.
    rewrite days_before_month_succ by lia.
    pose proof (days_in_month_bounds y (m1 + 1 + Z.of_nat k)). lia.
Qed.

Lemma days_before_year_mono y k :
  days_before_year y + (if is_leap y then 366 else 365)
  <= days_before_year (y + 1 + Z.of_nat k).
Proof.
  induction k as [|k IH].
  - rewrite Z.add_0_r, days_before_year_succ. lia.
  - replace (y + 1 + Z.of_nat (S k)) with ((y + 1 + Z.of_nat k) + 1) by lia.
    rewrite days_before_year_succ.
    destruct (is_leap (y + 1 + Z.of_nat k)); lia.
Qed.

Lemma day_of_year_bounds d :
  1 <= dt_month d <= 12 ->
  1 <= dt_day d <= days_in_month (dt_year d) (dt_month d) ->
  1 <= days_before_month (dt_year d) (dt_month d) + dt_day d
    <= if is_leap (dt_year d) then 366 else 365.
Proof.
  intros Hm Hd.
  assert (H0 : 0 <= days_before_month (dt_year d) (dt_month d)).
  { assert (G : forall n, 0 <= days_before_month_aux (dt_year d) n).
    { induction n as [|n IH]; cbn [days_before_month_aux]; [lia|].
      pose proof (days_in_month_bounds (dt_year d) (Z.of_nat (S n))). lia. }
    apply G. }
  split; [lia|].
  rewrite <- (days_before_december (dt_year d)).
  destruct (Z.eq_dec (dt_month d) 12) as [E|E].
  - rewrite E in *. change (days_in_month (dt_year d) 12) with 31 in Hd. lia.
  - pose proof (days_before_month_mono (dt_year d) (dt_month d)
                  (Z.to_nat (12 - dt_month d - 1)) ltac:(lia)) as M.
    replace (dt_month d + 1 + Z.of_nat (Z.to_nat (12 - dt_month d - 1)))
      with 12 in M by lia. lia.
Qed.

Lemma toordinal_before a b :
  valid_date a -> valid_date b -> date_before a b -> toordinal a < toordinal b.
Proof.
  intros Va Vb H.
  destruct Va as (_ & Hma & Hda). destruct Vb as (_ & Hmb & Hdb).
  pose proof (day_of_year_bounds a Hma Hda) as Ba.
  pose proof (day_of_year_bounds b Hmb Hdb) as Bb.
  unfold toordinal. destruct H as [Hy | [Ey [Hm | [Em Hd]]]].
  - pose proof (days_before_year_mono (dt_year a)
                  (Z.to_nat (dt_year b - dt_year a - 1))) as M.
    replace (dt_year a + 1 + Z.of_nat (Z.to_nat (dt_year b - dt_year a - 1)))
      with (dt_year b) in M by lia. lia.
  - rewrite Ey in *.
    pose proof (days_before_month_mono (dt_year b) (dt_month a)
                  (Z.to_nat (dt_month b - dt_month a - 1)) ltac:(lia)) as M.
    replace (dt_month a + 1 + Z.of_nat (Z.to_nat (dt_month b - dt_month a - 1)))
      with (dt_month b) in M by lia. lia.
  - rewrite Ey, Em. lia.
Qed.

(** X14.  On dates of the calendar the 8-digit date integer
    [int(d.strftime("%Y%m%d"))] is [year * 10000 + month * 100 + day], and
    comparing two date integers is comparing the dates: the integer of [a] is
    smaller than that of [b] exactly when [a] is an earlier day than [b], and
    the integers are equal only for the same date. *)
Theorem date_int_order_is_calendar_order :
  forall (a b : date),
    valid_date a -> valid_date b ->
    date_int a = dt_year a * 10000 + dt_month a * 100 + dt_day a
    /\ (date_int a < date_int b <-> toordinal a < toordinal b)
    /\ (date_int a = date_int b <-> a = b).
Proof.
  intros a b Va Vb.
  assert (Ia : date_int a = dt_year a * 10000 + dt_month a * 100 + dt_day a).
  { destruct Va as (Hy & Hm & Hd).
    pose proof (days_in_month_bounds (dt_year a) (dt_month a)).
    apply date_int_value; lia. }
  assert (Ib : date_int b = dt_year b * 10000 + dt_month b * 100 + dt_day b).
  { destruct Vb as (Hy & Hm & Hd).
    pose proof (days_in_month_bounds (dt_year b) (dt_month b)).
    apply date_int_value; lia. }
  pose proof (toordinal_before a b Va Vb) as Hab.
  pose proof (toordinal_before b a Vb Va) as Hba.
  pose proof Va as (Hya & Hma & Hda). pose proof Vb as (Hyb & Hmb & Hdb).
  pose proof (days_in_month_bounds (dt_year a) (dt_month a)).
  pose proof (days_in_month_bounds (dt_year b) (dt_month b)).
  assert (T : date_before a b \/ date_before b a
              \/ (dt_year a = dt_year b /\ dt_month a = dt_month b
                  /\ dt_day a = dt_day b)).
  { unfold date_before. lia. }
  split; [exact Ia|]. rewrite Ia, Ib. split.
  - destruct T as [T | [T | (E1 & E2 & E3)]].
    + specialize (Hab T). unfold date_before in T. split; intros; lia.
    + specialize (Hba T). unfold date_before in T. split; intros; lia.
    + unfold toordinal. rewrite E1, E2, E3. split; intros; lia.
  - split.
    + intros E. destruct a as [ya ma da], b as [yb mb db]. cbn in *.
      assert (ya = yb /\ ma = mb /\ da = db) as (-> & -> & ->) by lia.
      reflexivity.
    + intros ->. reflexivity.
Qed.

Lemma date_int_order_is_calendar_order_witness :
  date_int (mkdate 2025 1 31) < date_int (mkdate 2025 2 1)
  <-> toordinal (mkdate 2025 1 31) < toordinal (mkdate 2025 2 1).
Proof.
  assert (Va : valid_date (mkdate 2025 1 31)).
  { unfold valid_date. cbn [dt_year dt_month dt_day].
    change (days_in_month 2025 1) with 31. lia. }
  assert (Vb : valid_date (mkdate 2025 2 1)).
  { unfold valid_date. cbn [dt_year dt_month dt_day].
    change (days_in_month 2025 2) with 28. lia. }
  exact (proj1 (proj2 (date_int_order_is_calendar_order _ _ Va Vb))).
Defined.

(* ------------------------------------------------------------------ *)
(** ** From the loaded row to the status line *)

Lemma valid_date_int_positive d :
  valid_date d ->
  date_int d = dt_year d * 10000 + dt_month d * 100 + dt_day d
  /\ date_int d <> 0.
Proof.
  intros V. pose proof V as (Hy & Hm & Hd).
  pose proof (days_in_month_bounds (dt_year d) (dt_month d)).
  assert (E : date_int d = dt_year d * 10000 + dt_month d * 100 + dt_day d)
    by (apply date_int_value; lia).
  split; [exact E | lia].
Qed.

Lemma date_int_le_ordinal a b :
  valid_date a -> valid_date b ->
  (date_int a < date_int b <-> toordinal a < toordinal b)
  /\ (date_int a <= date_int b <-> toordinal a <= toordinal b).
Proof.
  intros Va Vb.
  pose proof (toordinal_before a b Va Vb) as Hab.
  pose proof (toordinal_before b a Vb Va) as Hba.
  destruct (valid_date_int_positive a Va) as [Ia _].
  destruct (valid_date_int_positive b Vb) as [Ib _].
  pose proof Va as (Hya & Hma & Hda). pose proof Vb as (Hyb & Hmb & Hdb).
  pose proof (days_in_month_bounds (dt_year a) (dt_month a)).
  pose proof (days_in_month_bounds (dt_year b) (dt_month b)).
  assert (T : date_before a b \/ date_before b a
              \/ (dt_year a = dt_year b /\ dt_month a = dt_month b
                  /\ dt_day a = dt_day b)) by (unfold date_before; lia).
  rewrite Ia, Ib.
  destruct T as [T | [T | (E1 & E2 & E3)]].
  - specialize (Hab T). unfold date_before in T. repeat split; intros; lia.
  - specialize (Hba T). unfold date_before in T. repeat split; intros; lia.
  - unfold toordinal. rewrite E1, E2, E3. repeat split; intros; lia.
Qed.

(** X15.  For a CSV row whose registration cells begin with two dates of
    the calendar, [start] and [end], and a record that carries the integers
    [extract_registration_metadata] makes of them (as [load_csv] stores
    them), the live status on the day [today] follows the calendar: "not yet
    open" exactly when today is before [start], "open" exactly when today is
    from [start] to [end], "closed" exactly when today is on or after [start]
    and after [end]. *)
Theorem status_of_loaded_row_follows_calendar :
  forall (row : csv_row) (md : metadata) (today start end_ : date),
    valid_date today -> valid_date start -> valid_date end_ ->
    iso_date_prefix (row_get row (u "등록 시작일") [])
                    (dt_year start) (dt_month start) (dt_day start) ->
    iso_date_prefix (row_get row (u "등록 마감일") [])
                    (dt_year end_) (dt_month end_) (dt_day end_) ->
    md_reg_start_int md
    = rm_reg_start_int (extract_registration_metadata row) ->
    md_reg_end_int md = rm_reg_end_int (extract_registration_metadata row) ->
    let line := registration_status_on (date_int today) md in
    (has_class line not_yet_open <-> toordinal today < toordinal start)
    /\ (has_class line open
        <-> toordinal start <= toordinal today <= toordinal end_)
    /\ (has_class line closed
        <-> toordinal start <= toordinal today
            /\ toordinal end_ < toordinal today).
Proof.
  intros row md today start end_ Vt Vs Ve Ps Pe Es Ee line.
  pose proof (registration_date_integers_aux row) as [Hs He].
  rewrite <- Es in Hs. rewrite <- Ee in He.
  assert (Same : forall cell y m d y' m' d',
             iso_date_prefix cell y m d -> iso_date_prefix cell y' m' d' ->
             y = y' /\ m = m' /\ d = d').
  { intros cell y m d y' m' d'
           (ys & ms & ds & rest & Hy & Hm & Hd & E & -> & -> & ->)
           (ys' & ms' & ds' & rest' & Hy' & Hm' & Hd' & E' & -> & -> & ->).
    rewrite E in E'.
    destruct ys as [|a [|b [|c [|d0 [|]]]]]; try discriminate Hy.
    destruct ys' as [|a' [|b' [|c' [|d0' [|]]]]]; try discriminate Hy'.
    destruct ms as [|e [|f [|]]]; try discriminate Hm.
    destruct ms' as [|e' [|f' [|]]]; try discriminate Hm'.
    destruct ds as [|g [|h [|]]]; try discriminate Hd.
    destruct ds' as [|g' [|h' [|]]]; try discriminate Hd'.
    cbn [app] in E'. injection E' as -> -> -> -> -> -> -> -> _.
    repeat split. }
  destruct (valid_date_int_positive start Vs) as [Is Ns].
  destruct (valid_date_int_positive end_ Ve) as [Ie Ne].
  destruct (md_reg_start_int md) as [a|] eqn:Ea0;
    [|exfalso; exact (Hs _ _ _ Ps)].
  destruct (md_reg_end_int md) as [b|] eqn:Eb0;
    [|exfalso; exact (He _ _ _ Pe)].
  destruct Hs as (y & m & d & P1 & Ea & _).
  destruct He as (y' & m' & d' & P2 & Eb & _).
  destruct (Same _ _ _ _ _ _ _ P1 Ps) as (-> & -> & ->).
  destruct (Same _ _ _ _ _ _ _ P2 Pe) as (-> & -> & ->).
  rewrite <- Is in Ea. rewrite <- Ie in Eb. subst a b.
  destruct (date_int_le_ordinal today start Vt Vs) as [L1 L1'].
  destruct (date_int_le_ordinal start today Vs Vt) as [L2 L2'].
  destruct (date_int_le_ordinal today end_ Vt Ve) as [L3 L3'].
  destruct (date_int_le_ordinal end_ today Ve Vt) as [L4 L4'].
  pose proof (registration_status_cases (date_int today) md) as C.
  cbv zeta in C. fold line in C. clearbody line.
  rewrite Ea0, Eb0 in C.
  assert (U : forall c c', has_class line c -> has_class line c' -> c = c')
    by (intros; eapply has_class_unique; eauto).
  destruct C as [[_ Hz] | (a & b & Ea & Eb & _ & _ & C)].
  - exfalso.
    destruct Hz as [Hz | [Hz | [Hz | Hz]]]; try discriminate Hz;
      injection Hz as Hz; congruence.
  - injection Ea as <-. injection Eb as <-.
    destruct C as [[Hc Ht] | [[Hc Ht] | [Hc Ht]]];
      match type of Hc with
      | has_class _ ?c0 =>
        assert (E : forall c, has_class line c <-> c0 = c)
          by (intros c; split; [apply U, Hc | now intros <-])
      end;
      rewrite !E; (split; [|split]); split; intros G;
      try discriminate G; first [reflexivity | lia | exfalso; lia].
Qed.

Lemma status_of_loaded_row_follows_calendar_witness :
  let row := [(u "등록 시작일", u "2025-01-20");
              (u "등록 마감일", u "2025-02-03")] in
  let md := mkmeta None None (Some 20250120) (Some 20250203) None None in
  has_class (registration_status_on (date_int (mkdate 2025 1 30)) md) open.
Proof.
  intros row md.
  assert (Vt : valid_date (mkdate 2025 1 30)).
  { unfold valid_date. cbn [dt_year dt_month dt_day].
    change (days_in_month 2025 1) with 31. lia. }
  assert (Vs : valid_date (mkdate 2025 1 20)).
  { unfold valid_date. cbn [dt_year dt_month dt_day].
    change (days_in_month 2025 1) with 31. lia. }
  assert (Ve : valid_date (mkdate 2025 2 3)).
  { unfold valid_date. cbn [dt_year dt_month dt_day].
    change (days_in_month 2025 2) with 28. lia. }
  assert (Ps : iso_date_prefix (row_get row (u "등록 시작일") []) 2025 1 20).
  { exists (u "2025"), (u "01"), (u "20"), []. vm_compute. repeat split. }
  assert (Pe : iso_date_prefix (row_get row (u "등록 마감일") []) 2025 2 3).
  { exists (u "2025"), (u "02"), (u "03"), []. vm_compute. repeat split. }
  assert (Es : md_reg_start_int md
               = rm_reg_start_int (extract_registration_metadata row))
    by (vm_compute; reflexivity).
  assert (Ee : md_reg_end_int md
               = rm_reg_end_int (extract_registration_metadata row))
    by (vm_compute; reflexivity).
  destruct (status_of_loaded_row_follows_calendar row md (mkdate 2025 1 30)
              (mkdate 2025 1 20) (mkdate 2025 2 3) Vt Vs Ve Ps Pe Es Ee)
    as (_ & H & _).
  apply H. vm_compute. split; discriminate.
Defined.

(* ------------------------------------------------------------------ *)
(** ** The closing-soon window *)

Lemma next_day_year d :
  dt_year d <= dt_year (next_day d) <= dt_year d + 1.
Proof.
  unfold next_day.
  destruct (dt_day d <? days_in_month (dt_year d) (dt_month d)); [cbn; lia|].
  destruct (dt_month d <? 12); cbn; lia.
Qed.

Lemma add_days_month_day n : forall d,
  1 <= dt_month d <= 12 ->
  1 <= dt_day d <= days_in_month (dt_year d) (dt_month d) ->
  1 <= dt_month (add_days n d) <= 12
  /\ 1 <= dt_day (add_days n d)
          <= days_in_month (dt_year (add_days n d)) (dt_month (add_days n d))
  /\ dt_year d <= dt_year (add_days n d).
Proof.
  induction n as [|n IH]; intros d Hm Hd.
  - cbn [add_days]. lia.
  - cbn [add_days]. destruct (next_day_ordinal d Hm Hd) as (_ & Hm' & Hd').
    destruct (IH _ Hm' Hd') as (A & B & C).
    pose proof (next_day_year d). repeat split; lia.
Qed.

(** A date at most a week later lies in the same or the next year. *)
Lemma week_later_year d x k :
  1 <= dt_month d <= 12 ->
  1 <= dt_day d <= days_in_month (dt_year d) (dt_month d) ->
  1 <= dt_month x <= 12 ->
  1 <= dt_day x <= days_in_month (dt_year x) (dt_month x) ->
  0 <= k <= 7 ->
  toordinal x = toordinal d + k ->
  dt_year d <= dt_year x ->
  dt_year x <= dt_year d + 1.
Proof.
  intros Hm Hd Hm' Hd' Hk Ho Hy.
  pose proof (day_of_year_bounds d Hm Hd) as Bd.
  pose proof (day_of_year_bounds x Hm' Hd') as Bx.
  destruct (Z_le_gt_dec (dt_year x) (dt_year d + 1)) as [Hle|Hgt]; [lia|].
  exfalso.
  pose proof (days_before_year_mono (dt_year d + 1)
                (Z.to_nat (dt_year x - dt_year d - 2))) as M.
  replace (dt_year d + 1 + 1 + Z.of_nat (Z.to_nat (dt_year x - dt_year d - 2)))
    with (dt_year x) in M by lia.
  pose proof (days_before_year_succ (dt_year d)) as S1.
  unfold toordinal in Ho.
  destruct (is_leap (dt_year d)), (is_leap (dt_year d + 1)); lia.
Qed.

(** Seven days later is a date of the calendar again, in the same or the
    next year. *)
Lemma add_days_7_valid d :
  valid_date d -> dt_year d < 9999 -> valid_date (add_days 7 d).
Proof.
  intros (Hy & Hm & Hd) Hlt.
  destruct (add_days_month_day 7 d Hm Hd) as (Hm' & Hd' & Hy').
  pose proof (add_days_ordinal 7 d Hm Hd) as Ho.
  generalize dependent (add_days 7 d). intros x Hm' Hd' Hy' Ho.
  assert (K : 0 <= Z.of_nat 7 <= 7) by lia.
  pose proof (week_later_year d x (Z.of_nat 7) Hm Hd Hm' Hd' K Ho Hy') as B.
  unfold valid_date. split; [lia | split; assumption].
Qed.

(** X16.  The two closing-soon conditions, [reg_end_int >= T] and
    [reg_end_int <= W] with [W] the date integer of today plus seven days,
    hold of a deadline exactly when it lies from 0 to 7 calendar days after
    today, also across the end of a month or of a year. *)
Theorem closing_soon_window_is_seven_days :
  forall (today deadline : date),
    valid_date today -> valid_date deadline -> dt_year today < 9999 ->
    (date_int today <= date_int deadline
     /\ date_int deadline <= date_int (add_days 7 today))
    <-> 0 <= toordinal deadline - toordinal today <= 7.
Proof.
  intros today deadline Vt Vd Hy.
  pose proof (add_days_7_valid today Vt Hy) as Vw.
  destruct Vt as (Hyt & Hm & Hd).
  pose proof (add_days_ordinal 7 today Hm Hd) as Ho.
  change (Z.of_nat 7) with 7 in Ho.
  assert (Vt : valid_date today) by (unfold valid_date; auto).
  destruct (date_int_le_ordinal today deadline Vt Vd) as [_ L1].
  destruct (date_int_le_ordinal deadline (add_days 7 today) Vd Vw) as [_ L2].
  rewrite L1, L2, Ho. lia.
Qed.

Lemma closing_soon_window_is_seven_days_witness :
  date_int (mkdate 2025 1 30) <= date_int (mkdate 2025 2 2)
  /\ date_int (mkdate 2025 2 2) <= date_int (add_days 7 (mkdate 2025 1 30)).
Proof.
  apply closing_soon_window_is_seven_days.
  - unfold valid_date. cbn [dt_year dt_month dt_day].
    change (days_in_month 2025 1) with 31. lia.
  - unfold valid_date. cbn [dt_year dt_month dt_day].
    change (days_in_month 2025 2) with 28. lia.
  - cbn. lia.
  - vm_compute. split; discriminate.
Defined.

(* ------------------------------------------------------------------ *)
(** ** Literal patterns, alternatives and the category filters *)

Lemma rmatch_lit_chars s : forall q cs k,
  rmatch (lit_chars s) q cs k
  = if startswith s q
    then k (firstn (List.length s) q) (skipn (List.length s) q) cs
    else None.
Proof.
  induction s as [|c s IH]; intros q cs k.
  - reflexivity.
  - destruct s as [|c' s'].
    + destruct q as [|b q]; [reflexivity|].
      cbn [lit_chars chr rmatch startswith List.length skipn firstn].
      rewrite andb_true_r. reflexivity.
    + change (lit_chars (c :: c' :: s'))
        with (Seq (chr c) (lit_chars (c' :: s'))).
      destruct q as [|b q]; [reflexivity|].
      cbn [chr rmatch]. cbn [startswith]. fold (startswith (c' :: s') q).
      destruct (c =? b)%N; [|reflexivity].
      rewrite IH. cbn [andb]. reflexivity.
Qed.

Lemma match_here_lit_chars s q :
  match_here (lit_chars s) q = if startswith s q then Some [] else None.
Proof. unfold match_here. apply rmatch_lit_chars. Qed.

Lemma found_lit_chars s : forall q, found (lit_chars s) q = contains s q.
Proof.
  unfold found. induction q as [|c q IH].
  - rewrite search_unfold, match_here_lit_chars. cbn [contains].
    destruct (startswith s []); reflexivity.
  - rewrite search_unfold, match_here_lit_chars. cbn [contains].
    destruct (startswith s (c :: q)); [reflexivity|]. exact IH.
Qed.

(** A pattern is found where one of its restrictions is. *)
Lemma found_mono r1 r2 q :
  (forall s, match_here r2 s = None -> match_here r1 s = None) ->
  found r1 q = true -> found r2 q = true.
Proof.
  intros H. unfold found.
  destruct (search r2 q) eqn:E; [reflexivity|].
  now rewrite (search_none_mono _ _ H _ E).
Qed.

Lemma found_seq_head a b q : found (Seq a b) q = true -> found a q = true.
Proof.
  apply found_mono. intros s. unfold match_here. cbn [rmatch].
  apply rmatch_none_mono. intros m s' cs' H. discriminate H.
Qed.

Lemma found_alt_left a b q : found a q = true -> found (Alt a b) q = true.
Proof.
  apply found_mono. intros s. unfold match_here. cbn [rmatch].
  destruct (rmatch a s [] (fun _ _ cs => Some cs)); [discriminate | reflexivity].
Qed.

Lemma found_alt_right a b q : found b q = true -> found (Alt a b) q = true.
Proof.
  apply found_mono. intros s. unfold match_here. cbn [rmatch].
  destruct (rmatch a s [] (fun _ _ cs => Some cs)); [discriminate|].
  intros H. exact H.
Qed.

Lemma found_at r pre : forall s,
  match_here r s <> None -> found r (pre ++ s) = true.
Proof.
  unfold found. induction pre as [|c pre IH]; intros s H.
  - cbn [app]. rewrite search_unfold.
    destruct (match_here r s); [reflexivity | now elim H].
  - cbn [app]. rewrite search_unfold.
    destruct (match_here r (c :: pre ++ s)); [reflexivity|]. now apply IH.
Qed.

Lemma startswith_lower s : forall q,
  lower_fixed s = true -> startswith s q = true ->
  startswith s (lower q) = true.
Proof.
  induction s as [|a s IH]; intros q F H; [reflexivity|].
  destruct q as [|b q]; [discriminate H|].
  cbn [lower_fixed forallb] in F. apply andb_true_iff in F as [Fa Fs].
  cbn [startswith] in H. apply andb_true_iff in H as [Hab Hs].
  apply N.eqb_eq in Hab. subst b.
  apply N.eqb_eq in Fa.
  cbn [lower map startswith]. rewrite Fa, N.eqb_refl. cbn [andb].
  apply IH; assumption.
Qed.

Lemma contains_lower s : forall q,
  lower_fixed s = true -> contains s q = true -> contains s (lower q) = true.
Proof.
  intros q F. induction q as [|c q IH]; intros H; cbn [contains] in H;
    apply orb_true_iff in H as [H | H].
  - change (lower []) with (@nil char). cbn [contains]. rewrite H. reflexivity.
  - discriminate H.
  - change (lower (c :: q)) with (lower_char c :: lower q). cbn [contains].
    apply orb_true_iff. left. exact (startswith_lower s (c :: q) F H).
  - change (lower (c :: q)) with (lower_char c :: lower q). cbn [contains].
    apply orb_true_iff. right. exact (IH H).
Qed.

(** An exclusion pattern is found only in a query that has its category
    word, and the word is still there once the query is lowered. *)
Lemma excluded_word_lowered word query :
  lower_fixed (u word) = true ->
  found (re_excluded word) query = true ->
  found (lit word) (lower query) = true.
Proof.
  intros F H. unfold re_excluded in H. cbn [seqs] in H.
  apply found_seq_head in H. unfold lit in *.
  rewrite found_lit_chars in *. now apply contains_lower.
Qed.

Lemma first_match_found {A} (table : list (regex * A)) query :
  existsb (fun e => found (fst e) query) table = true ->
  exists r, first_match table query = Some r /\ In r (map snd table).
Proof.
  induction table as [|[p r] table IH]; cbn [existsb first_match fst];
    intros H; [discriminate H|].
  destruct (found p query).
  - exists r. split; [reflexivity | now left].
  - destruct (IH H) as (r' & E & Hin). exists r'. split; [exact E | now right].
Qed.

Lemma first_match_In {A} (table : list (regex * A)) query r :
  first_match table query = Some r ->
  exists p, In (p, r) table /\ found p query = true.
Proof.
  induction table as [|[p r'] table IH]; cbn [first_match]; intros H;
    [discriminate H|].
  destruct (found p query) eqn:E.
  - injection H as ->. exists p. split; [now left | exact E].
  - destruct (IH H) as (p' & Hin & F). exists p'. split; [now right | exact F].
Qed.

(** X17.  A category exclusion never stands alone.  When a query excludes a
    category ("... 말고", "... 제외", ...), the category parser finds a
    category in the same query, since every exclusion pattern begins with a
    word of the category table; the ChromaDB predicate then carries an
    equality condition on [category] next to the [$ne] condition. *)
Theorem exclusion_comes_with_category_equality :
  forall (clock : nat -> date) (query : str) (w : world) (excluded : str),
    parse_exclusion_filter query = Some excluded ->
    exists category,
      parse_category_from_query query = Some category
      /\ In (Cond "category" op_eq (VStr category))
            (conditions_of (fst (build_chroma_filters clock query w)))
      /\ In (Cond "category" op_ne (VStr excluded))
            (conditions_of (fst (build_chroma_filters clock query w))).
Proof.
  intros clock query w excluded Hex.
  assert (Hword : exists word,
             In word exclusion_words
             /\ found (lit word) (lower query) = true).
  { unfold parse_exclusion_filter in Hex. cbv zeta in Hex.
    apply first_match_In in Hex as (p & Hin & F).
    cbn [In] in Hin.
    destruct Hin as [E | [E | [E | [E | [E | []]]]]];
      injection E as <- _;
      apply excluded_word_lowered in F; try (vm_compute; reflexivity);
      eexists; (split; [|exact F]); cbn; tauto. }
  assert (Hne : excluded <> []).
  { unfold parse_exclusion_filter in Hex. cbv zeta in Hex.
    apply first_match_In in Hex as (p & Hin & _).
    cbn [In] in Hin.
    destruct Hin as [E | [E | [E | [E | [E | []]]]]];
      injection E as _ <-; vm_compute; discriminate. }
  assert (Hcat : exists category,
             parse_category_from_query query = Some category
             /\ category <> []).
  { unfold parse_category_from_query. cbv zeta.
    match goal with
    | |- exists c, first_match ?t ?q = Some c /\ _ =>
      destruct (first_match_found t q) as (r & E & Hin)
    end.
    - destruct Hword as (word & Hin & F). cbn [existsb fst].
      cbn [exclusion_words In] in Hin. cbn [alts].
      destruct Hin as [<- | [<- | [<- | [<- | [<- | []]]]]].
      + rewrite (found_alt_left _ _ _ F). reflexivity.
      + rewrite (found_alt_left _ _ _ F). apply orb_true_iff. right.
        reflexivity.
      + rewrite (found_alt_left _ _ _ F).
        rewrite !orb_true_iff. right; right; left. reflexivity.
      + rewrite F. rewrite !orb_true_iff.
        right; right; right; right; right; left. reflexivity.
      + rewrite (found_alt_left _ _ _ F). rewrite !orb_true_iff.
        right; right; right; right; left. reflexivity.
    - exists r. split; [exact E|].
      cbn [map snd In] in Hin.
      destruct Hin as [<- | [<- | [<- | [<- | [<- | [<- | []]]]]]];
        vm_compute; discriminate. }
  destruct Hcat as (category & Hc & Hcne).
  exists category. split; [exact Hc|].
  split; apply static_conditions_in_predicate; unfold static_conditions;
    destruct (parse_date_from_query query) as [[year month] month_range];
    rewrite Hc, Hex; rewrite !in_app_iff.
  - right; right; right; left.
    destruct category; [now elim Hcne|]. now left.
  - right; right; right; right.
    destruct excluded; [now elim Hne|]. now left.
Qed.

Lemma exclusion_comes_with_category_equality_witness :
  exists category,
    parse_category_from_query (u "세미나 말고 다른 행사") = Some category
    /\ In (Cond "category" op_eq (VStr category))
          (conditions_of
             (fst (build_chroma_filters (fun _ => mkdate 2025 6 15)
                     (u "세미나 말고 다른 행사") world0)))
    /\ In (Cond "category" op_ne (VStr (u "세미나")))
          (conditions_of
             (fst (build_chroma_filters (fun _ => mkdate 2025 6 15)
                     (u "세미나 말고 다른 행사") world0))).
Proof.
  apply exclusion_comes_with_category_equality.
  vm_compute. reflexivity.
Defined.

(* ------------------------------------------------------------------ *)
(** ** Day numbers and the duration filter *)

Lemma duration_conditions_in_predicate clock query w c :
  In c (duration_conditions query) ->
  In c (conditions_of (fst (build_chroma_filters clock query w))).
Proof.
  intros Hin.
  rewrite (proj1 (build_chroma_filters_conditions clock query w)).
  pose proof (build_conditions_parts clock query w) as Hparts.
  destruct (parse_date_from_query query) as [[year month] month_range].
  cbv zeta in Hparts. rewrite Hparts. cbn [fst].
  rewrite !in_app_iff. tauto.
Qed.

(** X18.  The multi-day pattern [[23]일] also matches the day of a date: a
    query in which a digit 2 or 3 is directly followed by "일" ("2일",
    "13일", "23일", ...) is read as asking for events of several days, and
    the predicate carries [duration_days > 1]. *)
Theorem day_number_reads_as_multi_day :
  forall (clock : nat -> date) (pre post : str) (d : char) (w : world),
    d = 50%N \/ d = 51%N ->
    let query := pre ++ d :: u "일" ++ post in
    parse_duration_filter query = Some multi_day
    /\ In (Cond "duration_days" op_gt (VInt 1))
          (conditions_of (fst (build_chroma_filters clock query w))).
Proof.
  intros clock pre post d w Hd query.
  assert (P : parse_duration_filter query = Some multi_day).
  { unfold parse_duration_filter.
    match goal with
    | |- (if found ?r query then _ else _) = _ =>
      assert (F : found r query = true)
    end.
    { unfold query. apply found_at.
      destruct Hd as [-> | ->]; vm_compute; discriminate. }
    rewrite F. reflexivity. }
  split; [exact P|].
  apply duration_conditions_in_predicate.
  unfold duration_conditions. rewrite P. now left.
Qed.

Lemma day_number_reads_as_multi_day_witness :
  parse_duration_filter (u "3월 13일 세미나") = Some multi_day
  /\ In (Cond "duration_days" op_gt (VInt 1))
        (conditions_of
           (fst (build_chroma_filters (fun _ => mkdate 2025 6 15)
                   (u "3월 13일 세미나") world0))).
Proof.
  apply (day_number_reads_as_multi_day (fun _ => mkdate 2025 6 15)
           (u "3월 1") (u " 세미나") 51%N world0).
  now right.
Defined.

(* ------------------------------------------------------------------ *)
(** ** Records shown to the language model *)

Lemma format_entries_reads clock nodes : forall i w,
  reads (snd (format_entries clock i nodes w))
  = (reads w + List.length nodes)%nat
  /\ List.length (fst (format_entries clock i nodes w)) = List.length nodes.
Proof.
  induction nodes as [|node nodes IH]; intros i w.
  - cbn [format_entries ret fst snd List.length]. split; [lia | reflexivity].
  - cbn [format_entries]. unfold bind, ret.
    rewrite calculate_registration_status_run.
    match goal with
    | |- context [format_entries clock ?j nodes ?w1] =>
      specialize (IH j w1); destruct (format_entries clock j nodes w1)
    end.
    cbn [fst snd reads List.length] in *. destruct IH as [IH1 IH2].
    split; [rewrite IH1; lia | now rewrite IH2].
Qed.

(** X19.  With a positive limit, [format_nodes_as_context] works out the
    live registration status, one clock reading each, for the first
    [min(max_nodes, len(nodes))] records and for no other: the number
    [chat] announces in the prompt as the displayed count. *)
Theorem context_covers_displayed_count :
  forall (clock : nat -> date) (nodes : list TextNode) (max_nodes : Z)
         (w : world),
    0 < max_nodes ->
    Z.of_nat (reads (snd (format_nodes_as_context clock nodes
                            (Some max_nodes) w)))
    = Z.of_nat (reads w) + Z.min max_nodes (Z.of_nat (List.length nodes)).
Proof.
  intros clock nodes max_nodes w Hpos.
  unfold format_nodes_as_context, bind, ret.
  assert (T : truthy_int (Some max_nodes) = true).
  { unfold truthy_int. destruct (Z.eqb_spec max_nodes 0); [lia | reflexivity]. }
  rewrite T. cbn [get]. unfold slice_to.
  destruct (Z.leb_spec 0 max_nodes); [|lia].
  match goal with
  | |- context [format_entries clock ?j ?l ?w1] =>
    pose proof (proj1 (format_entries_reads clock l j w1)) as R;
      destruct (format_entries clock j l w1)
  end.
  cbn [fst snd] in *. rewrite R, length_firstn. lia.
Qed.

Lemma context_covers_displayed_count_witness :
  Z.of_nat (reads (snd (format_nodes_as_context (fun _ => mkdate 2025 1 31)
                          [node_of_row one_record; node_of_row one_record;
                           node_of_row one_record]
                          (Some 2) world0)))
  = 2.
Proof.
  rewrite context_covers_displayed_count by lia.
  vm_compute. reflexivity.
Defined.
